(** * Hadoop cluster orchestrator on Compute Engine: a shallow embedding

    This development embeds [app/src/hadoop/hadoop_cluster.py] (class
    [HadoopCluster]) and states the properties of its lifecycle:
    construction, naming, provisioning, readiness polling and teardown.

    Conventions of the embedding:
    - Python attribute values are [pyval]; provider descriptors are [json].
    - The compute provider, the HTTP channel, [uuid.uuid4] and
      [urllib.urlencode] are external: they are fields of [env], and the
      provider and channel answers may depend on the whole history of calls
      made so far (the [trace]).
    - Every call that leaves the process (provider, channel, registry,
      [time.sleep]) is appended to the trace, in program order.
    - Exceptions are values of [exn]; a computation is a function from the
      state to a [result].
    - [logging] calls have no effect on the state and are left out. *)

From Stdlib Require Import ZArith String Ascii List Lia.
From Stdlib Require Import DecimalString DecimalZ DecimalPos.
From stdpp Require Import base option gmap strings list.

Set Warnings "-register-all".

Open Scope string_scope.
Open Scope Z_scope.

(** ** Python values *)

(** Attribute values of the orchestrator and of registry entities: the
    configuration fields are strings, integers or [None]. *)
Inductive pyval :=
| PNone
| PInt (n : Z)
| PStr (s : string).

(** Provider descriptors, as decoded from JSON. *)
Inductive json :=
| JNull
| JBool (b : bool)
| JNum (n : Z)
| JStr (s : string)
| JList (l : list json)
| JDict (d : list (string * json)).

Inductive exn :=
| ClusterSetUpError (msg : string)
| KeyError
| IndexError
| TypeError
| ValueError
| AttributeError
| OverflowError
| DownloadError
| Unmodelled.

(** Decimal rendering of an integer, as [str] does. *)
Definition dec (n : Z) : string := NilZero.string_of_int (Z.to_int n).

Definition py_str (v : pyval) : string :=
  match v with
  | PNone => "None"
  | PInt n => dec n
  | PStr s => s
  end.

Definition truthy (v : pyval) : bool :=
  match v with
  | PNone => false
  | PInt n => negb (n =? 0)
  | PStr s => negb (String.eqb s "")
  end.

Definition json_truthy (v : json) : bool :=
  match v with
  | JNull => false
  | JBool b => b
  | JNum n => negb (n =? 0)
  | JStr s => negb (String.eqb s "")
  | JList l => match l with [] => false | _ => true end
  | JDict d => match d with [] => false | _ => true end
  end.

(** [str] of a scalar descriptor value; [str] of a list or dict is its
    [repr], which is not embedded. *)
Definition json_str (v : json) : option string :=
  match v with
  | JNull => Some "None"
  | JBool true => Some "True"
  | JBool false => Some "False"
  | JNum n => Some (dec n)
  | JStr s => Some s
  | JList _ | JDict _ => None
  end.

Fixpoint dict_get {A} (d : list (string * A)) (k : string) : option A :=
  match d with
  | [] => None
  | (k', v) :: d' => if String.eqb k' k then Some v else dict_get d' k
  end.

(** [v[k]] for a string key. *)
Definition getitem_key (v : json) (k : string) : exn + json :=
  match v with
  | JDict d => match dict_get d k with Some x => inr x | None => inl KeyError end
  | _ => inl TypeError
  end.

(** [v[i]] for an integer index [i >= 0]. *)
Definition getitem_idx (v : json) (i : nat) : exn + json :=
  match v with
  | JList l => match l !! i with Some x => inr x | None => inl IndexError end
  | JStr s => match String.get i s with
              | Some c => inr (JStr (String c EmptyString))
              | None => inl IndexError
              end
  | JDict _ => inl KeyError
  | _ => inl TypeError
  end.

(** ** The [%] operator on strings

    Conversions [%s], [%d], [%i] and [%%] with the flags [0] and [-] and a
    literal width.  Any other conversion stops with [Unmodelled]. *)

Fixpoint string_rep (c : ascii) (n : nat) : string :=
  match n with
  | O => ""
  | S n' => String c (string_rep c n')
  end.

Definition rjust (w : nat) (s : string) : string :=
  string_rep " "%char (w - String.length s) +:+ s.

Definition ljust (w : nat) (s : string) : string :=
  s +:+ string_rep " "%char (w - String.length s).

(** Zero fill after the sign, as [%0wd] does. *)
Definition zfill (w : nat) (s : string) : string :=
  match s with
  | String "-"%char digits =>
      String "-"%char (string_rep "0"%char (w - String.length s) +:+ digits)
  | _ => string_rep "0"%char (w - String.length s) +:+ s
  end.

Definition pad_str (left : bool) (w : nat) (s : string) : string :=
  if left then ljust w s else rjust w s.

Definition pad_int (zero left : bool) (w : nat) (n : Z) : string :=
  if left then ljust w (dec n)
  else if zero then zfill w (dec n)
  else rjust w (dec n).

Fixpoint index_in (c : ascii) (s : string) : option nat :=
  match s with
  | EmptyString => None
  | String d rest =>
      if Ascii.eqb c d then Some O else option_map S (index_in c rest)
  end.

(** The value of a decimal digit, [None] for any other character. *)
Definition digit_of (c : ascii) : option nat := index_in c "0123456789".

Inductive fmode :=
| Lit
| Spec (zero left : bool) (width : nat).

Definition cons_out (c : ascii) (r : exn + string) : exn + string :=
  match r with
  | inr s => inr (String c s)
  | inl e => inl e
  end.

Definition app_out (p : string) (r : exn + string) : exn + string :=
  match r with
  | inr s => inr (p +:+ s)
  | inl e => inl e
  end.

Fixpoint pyformat_go (m : fmode) (fmt : string) (args : list pyval)
  : exn + string :=
  match fmt with
  | EmptyString =>
      match m with
      | Lit => match args with
               | [] => inr ""
               | _ => inl TypeError (* not all arguments converted *)
               end
      | Spec _ _ _ => inl ValueError (* incomplete format *)
      end
  | String c rest =>
      match m with
      | Lit =>
          if Ascii.eqb c "%" then pyformat_go (Spec false false 0) rest args
          else cons_out c (pyformat_go Lit rest args)
      | Spec z l w =>
          if Ascii.eqb c "%" then
            match z, l, w with
            | false, false, O => cons_out "%" (pyformat_go Lit rest args)
            | _, _, _ => inl Unmodelled
            end
          else if Ascii.eqb c "0" && Nat.eqb w 0 then
            pyformat_go (Spec true l 0) rest args
          else if Ascii.eqb c "-" && Nat.eqb w 0 then
            pyformat_go (Spec z true 0) rest args
          else
            match digit_of c with
            | Some d => pyformat_go (Spec z l (10 * w + d)) rest args
            | None =>
                if Ascii.eqb c "s" then
                  match args with
                  | a :: args' =>
                      app_out (pad_str l w (py_str a))
                              (pyformat_go Lit rest args')
                  | [] => inl TypeError (* not enough arguments *)
                  end
                else if Ascii.eqb c "d" || Ascii.eqb c "i" then
                  match args with
                  | PInt n :: args' =>
                      app_out (pad_int z l w n) (pyformat_go Lit rest args')
                  | _ :: _ => inl TypeError (* a number is required *)
                  | [] => inl TypeError (* not enough arguments *)
                  end
                else inl Unmodelled
            end
      end
  end.

(** [fmt % args] *)
Definition pyformat (fmt : string) (args : list pyval) : exn + string :=
  pyformat_go Lit fmt args.

(** [s.find(sub)] *)
Definition py_find (s sub : string) : Z :=
  match String.index 0 sub s with
  | Some i => Z.of_nat i
  | None => -1
  end.

(** ** Registry entities

    Modelled from the spec: [src/hadoop/datastore.py] is not part of the
    sources at hand.  A ClusterRecord is an entity with attributes (the
    configuration fields, [status], [master]); an InstanceRecord has a name,
    a role, an RPC credential and an external address, initially absent. *)

Record InstanceInfo := {
  ii_name : string;
  ii_role : string;
  ii_rpckey : string;
  ii_external_ip : json;
}.

(** Modelled from the spec: the registry holds the ClusterRecord of the
    cluster at hand and its InstanceRecords, looked up by name. *)
Record datastore := {
  ds_cluster : option (gmap string pyval);
  ds_instances : gmap string InstanceInfo;
}.

(** ** Calls that leave the process *)

Record create_args := {
  ca_name : string;
  ca_network : pyval;
  ca_machinetype : pyval;
  ca_image : pyval;
  ca_persistent_disk : option string;
  ca_service_accounts : list string;
  ca_metadata : gmap string pyval;
}.

Inductive fetch_result :=
| FetchResponse (status_code : Z) (content : string)
| FetchDownloadError.

Inductive event :=
| EvGetDisk (disk_name : string) (ret : json)
| EvCreatePersistentDisk (disk_name : string) (size_gb : Z) (wait : bool)
                         (ret : bool)
| EvCreateInstance (a : create_args) (ret : bool)
| EvGetInstance (name : string) (ret : json)
| EvListInstances (filter : string) (ret : list json)
| EvDeleteInstance (name : string)
| EvUuid4 (ret : string)
| EvFetch (url : string) (ret : fetch_result)
| EvSleep (secs : Z)
| EvClusterPut (ci : gmap string pyval)
| EvSetStatus (status : string)
| EvSetMasterInstance (name : string)
| EvSetMasterIpAddress (ip : json)
| EvInstancePut (ii : InstanceInfo)
| EvInstanceGetByName (name : string)
| EvClusterKeyDelete.

Definition trace := list event.

(** The external collaborators.  [GetDisk] and [GetInstance] answer [JNull]
    for an absent resource. *)
Record env := {
  GetDisk : trace -> string -> json;
  CreatePersistentDisk : trace -> string -> Z -> bool -> bool;
  CreateInstance : trace -> create_args -> bool;
  GetInstance : trace -> string -> json;
  ListInstances : trace -> string -> list json;
  fetch : trace -> string -> fetch_result;
  uuid4 : trace -> string;
  urlencode : list (string * string) -> string;
  cloud_storage_bucket : string;
}.

(** ** The orchestrator object and the state of a run *)

Record HadoopCluster := {
  prefix : pyval;
  project : pyval;
  name : pyval;
  zone : pyval;
  machinetype : pyval;
  image : pyval;
  network : pyval;
  num_workers : pyval;
  custom_command : pyval;
  cluster_info : option (gmap string pyval);
  machinetype_scratch_disk : string;
  machinetype_persistent_disk : pyval;
  master_name : string;
  worker_name_template : string;
  worker_name_pattern : string;
  instances : gmap string InstanceInfo;
}.

Definition set_cluster_info (ci : option (gmap string pyval))
    (h : HadoopCluster) : HadoopCluster :=
  {| prefix := prefix h; project := project h; name := name h;
     zone := zone h; machinetype := machinetype h; image := image h;
     network := network h; num_workers := num_workers h;
     custom_command := custom_command h;
     cluster_info := ci;
     machinetype_scratch_disk := machinetype_scratch_disk h;
     machinetype_persistent_disk := machinetype_persistent_disk h;
     master_name := master_name h;
     worker_name_template := worker_name_template h;
     worker_name_pattern := worker_name_pattern h;
     instances := instances h |}.

Definition set_instances (m : gmap string InstanceInfo)
    (h : HadoopCluster) : HadoopCluster :=
  {| prefix := prefix h; project := project h; name := name h;
     zone := zone h; machinetype := machinetype h; image := image h;
     network := network h; num_workers := num_workers h;
     custom_command := custom_command h;
     cluster_info := cluster_info h;
     machinetype_scratch_disk := machinetype_scratch_disk h;
     machinetype_persistent_disk := machinetype_persistent_disk h;
     master_name := master_name h;
     worker_name_template := worker_name_template h;
     worker_name_pattern := worker_name_pattern h;
     instances := m |}.

Record state := {
  self : HadoopCluster;
  ds : datastore;
  tr : trace;
}.

Definition log (e : event) (s : state) : state :=
  {| self := self s; ds := ds s; tr := (tr s ++ [e])%list |}.

Definition with_self (h : HadoopCluster) (s : state) : state :=
  {| self := h; ds := ds s; tr := tr s |}.

Definition with_ds (d : datastore) (s : state) : state :=
  {| self := self s; ds := d; tr := tr s |}.

(** ** Computations: state and exceptions *)

Inductive result (A : Type) :=
| Ok (a : A) (s : state)
| Raise (e : exn) (s : state).
Arguments Ok {A} a s.
Arguments Raise {A} e s.

Definition M (A : Type) := state -> result A.

Definition ret {A} (a : A) : M A := fun s => Ok a s.

Definition bind {A B} (m : M A) (k : A -> M B) : M B :=
  fun s => match m s with
           | Ok a s' => k a s'
           | Raise e s' => Raise e s'
           end.

Definition raise {A} (e : exn) : M A := fun s => Raise e s.

Definition emit (e : event) : M unit := fun s => Ok tt (log e s).

Definition get_self : M HadoopCluster := fun s => Ok (self s) s.

Definition lift {A} (r : exn + A) : M A :=
  match r with
  | inr a => ret a
  | inl e => raise e
  end.

Notation "x <- m ;; k" := (bind m (fun x => k))
  (at level 100, m at next level, right associativity).
Notation "m ;; k" := (bind m (fun _ => k))
  (at level 100, right associativity).

Definition final_state {A} (r : result A) : state :=
  match r with
  | Ok _ s => s
  | Raise _ s => s
  end.

(** ** Class constants *)

Definition COMPUTE_STARTUP_SCRIPT := "startup-script.sh".
Definition MASTER_NAME := "hadoop-master".
Definition WORKER_NAME_CORE := "hadoop-worker".
Definition PERSISTENT_DISK_SUFFIX := "-pd".
Definition PERSISTENT_DISK_SIZE_GB := 100.
Definition HADOOP_PATCH := "hadoop-1.2.1.patch".

Definition INSTANCE_ROLES : list (string * list string) :=
  [ ("master", ["NameNode"; "JobTracker"]);
    ("worker", ["DataNode"; "TaskTracker"]) ].

Definition INSTANCE_IP_ADDRESS_CHECK_INTERVAL := 5.
Definition INSTANCE_IP_ADDRESS_MAX_CHECK_TIMES := 60%nat.
Definition MASTER_WARM_UP_CHECK_INTERVAL := 15.
Definition MASTER_WARM_UP_MAX_CHECK_TIMES := 20%nat.
Definition CLUSTER_SHUTDOWN_CHECK_INTERVAL := 5.
Definition CLUSTER_SHUTDOWN_MAX_CHECK_TIMES := 60%nat.

(** Modelled from the spec: the status constants of
    [datastore.ClusterStatus], which the sources at hand only name. *)
Definition ClusterStatus_ERROR := "ERROR".
Definition ClusterStatus_TEARING_DOWN := "TEARING_DOWN".

(** ** Construction *)

Record init_args := {
  arg_project : pyval;
  arg_name : pyval;
  arg_prefix : pyval;
  arg_zone : pyval;
  arg_machinetype : pyval;
  arg_image : pyval;
  arg_network : pyval;
  arg_num_workers : pyval;
  arg_custom_command : pyval;
}.

(** The defaults of the keyword arguments of [__init__]. *)
Definition default_args : init_args :=
  {| arg_project := PStr ""; arg_name := PStr "";
     arg_prefix := PStr "managed"; arg_zone := PStr "";
     arg_machinetype := PStr ""; arg_image := PStr "";
     arg_network := PStr ""; arg_num_workers := PInt 5;
     arg_custom_command := PStr "" |}.

(** The configuration parameters as [locals()] holds them. *)
Definition locals (a : init_args) : list (string * pyval) :=
  [ ("project", arg_project a); ("name", arg_name a);
    ("prefix", arg_prefix a); ("zone", arg_zone a);
    ("machinetype", arg_machinetype a); ("image", arg_image a);
    ("network", arg_network a); ("num_workers", arg_num_workers a);
    ("custom_command", arg_custom_command a) ].

Definition CONFIG_ITEMS : list string :=
  [ "prefix"; "project"; "name"; "zone"; "machinetype"; "image"; "network";
    "num_workers"; "custom_command" ].

(** [getattr(entity, item, None)] *)
Definition getattr_or_none (entity : gmap string pyval) (item : string)
  : pyval :=
  default PNone (entity !! item).

(** The value [__init__] assigns to the attribute [item]. *)
Definition init_item (ci : option (gmap string pyval)) (a : init_args)
    (item : string) : pyval :=
  match ci with
  | Some entity => getattr_or_none entity item
  | None => default PNone (dict_get (locals a) item)
  end.

(** [self.cluster_info] after the lookup at the head of [__init__]:
    [get_by_id] is [datastore.ClusterInfo.get_by_id]. *)
Definition init_cluster_info
    (get_by_id : pyval -> option (gmap string pyval)) (cluster_id : pyval)
  : option (gmap string pyval) :=
  if truthy cluster_id then get_by_id cluster_id else None.

(** [a + b] where [b] is a string. *)
Definition py_add_str (a : pyval) (b : string) : exn + string :=
  match a with
  | PStr s => inr (s +:+ b)
  | _ => inl TypeError
  end.

Definition __init__ (get_by_id : pyval -> option (gmap string pyval))
    (cluster_id : pyval) (a : init_args) : exn + HadoopCluster :=
  let ci := init_cluster_info get_by_id cluster_id in
  let item := init_item ci a in
  match py_add_str (item "prefix") "-" with
  | inl e => inl e
  | inr p_dash =>
      inr {| prefix := item "prefix";
             project := item "project";
             name := item "name";
             zone := item "zone";
             machinetype := item "machinetype";
             image := item "image";
             network := item "network";
             num_workers := item "num_workers";
             custom_command := item "custom_command";
             cluster_info := ci;
             machinetype_scratch_disk := py_str (item "machinetype") +:+ "-d";
             machinetype_persistent_disk := item "machinetype";
             master_name := p_dash +:+ MASTER_NAME;
             worker_name_template :=
               py_str (item "prefix") +:+ "-" +:+ WORKER_NAME_CORE +:+ "-%03d";
             worker_name_pattern :=
               "^" +:+ py_str (item "prefix") +:+ "-" +:+ WORKER_NAME_CORE
                   +:+ "-\d+$";
             instances := ∅ |}
  end.

(** The attributes of [self] after the loop over the configuration items
    at the head of [__init__], before the names are derived from them: one
    [setattr] per item, from the record when [self.cluster_info] is there
    and from [locals()] otherwise. *)
Definition init_loop (get_by_id : pyval -> option (gmap string pyval))
    (cluster_id : pyval) (a : init_args) : gmap string pyval :=
  let ci := init_cluster_info get_by_id cluster_id in
  foldl (fun attrs item => <[item := init_item ci a item]> attrs)
    ∅ CONFIG_ITEMS.

(** [_WorkerName]: the template applied to the index. *)
Definition _WorkerName (h : HadoopCluster) (index : Z) : exn + string :=
  pyformat (worker_name_template h) [PInt index].

(** The double quote character, as a string. *)
Definition DQUOTE : string := String (ascii_of_nat 34) EmptyString.

(** The filter expression [TeardownCluster] sends to [ListInstances]:
    [name eq "<master_name>|<worker_name_pattern>"]. *)
Definition teardown_filter (h : HadoopCluster) : string :=
  "name eq " +:+ DQUOTE +:+ master_name h +:+ "|" +:+ worker_name_pattern h
             +:+ DQUOTE.

(** [for x in l: body(x)] *)
Fixpoint for_each {A} (l : list A) (body : A -> M unit) : M unit :=
  match l with
  | [] => ret tt
  | x :: l' => body x ;; for_each l' body
  end.

(** The range of a C [long] on the 64-bit platforms that run this code:
    [-sys.maxint - 1 .. sys.maxint]. *)
Definition C_LONG_MIN : Z := -9223372036854775808.
Definition C_LONG_MAX : Z := 9223372036854775807.

Definition fits_long (n : Z) : bool :=
  (C_LONG_MIN <=? n) && (n <=? C_LONG_MAX).

(** [xrange(v)]: the indices [0 .. v-1].  A bound that is not an integer is
    a [TypeError]; an integer that does not fit a C [long] is an
    [OverflowError]. *)
Definition xrange (v : pyval) : exn + list Z :=
  match v with
  | PInt n =>
      if fits_long n then inr (Z.of_nat <$> seq 0 (Z.to_nat n))
      else inl OverflowError
  | _ => inl TypeError
  end.

Lemma xrange_fits n :
  fits_long n = true -> xrange (PInt n) = inr (Z.of_nat <$> seq 0 (Z.to_nat n)).
Proof. intros H. unfold xrange. by rewrite H. Qed.

Lemma xrange_overflow n :
  fits_long n = false -> xrange (PInt n) = inl OverflowError.
Proof. intros H. unfold xrange. by rewrite H. Qed.

(** [try: m  except DownloadError: pass], giving [fallback] as value. *)
Definition except_DownloadError {A} (m : M A) (fallback : A) : M A :=
  fun s => match m s with
           | Raise DownloadError s' => Ok fallback s'
           | r => r
           end.

(** [try: m  except ClusterSetUpError, e: handler(str(e))] *)
Definition except_ClusterSetUpError (m : M unit) (handler : string -> M unit)
  : M unit :=
  fun s => match m s with
           | Raise (ClusterSetUpError msg) s' => handler msg s'
           | r => r
           end.

(** ** Registry operations

    Modelled from the spec: the methods of [datastore.ClusterInfo] and
    [datastore.InstanceInfo] that the orchestrator calls.  Each one writes
    through to the registry at once. *)

(** Modelled from the spec: [cluster_info.put()] stores the ClusterRecord. *)
Definition ClusterInfo_put : M unit :=
  fun s =>
    match cluster_info (self s) with
    | None => Raise AttributeError s
    | Some ci =>
        Ok tt (log (EvClusterPut ci)
                 (with_ds {| ds_cluster := Some ci;
                             ds_instances := ds_instances (ds s) |} s))
    end.

(** Modelled from the spec: [SetStatus] sets the lifecycle status of the
    ClusterRecord and stores it. *)
Definition SetStatus (status : string) : M unit :=
  fun s =>
    match cluster_info (self s) with
    | None => Raise AttributeError s
    | Some ci =>
        let ci' := <["status" := PStr status]> ci in
        Ok tt (log (EvSetStatus status)
                 (with_ds {| ds_cluster := Some ci';
                             ds_instances := ds_instances (ds s) |}
                    (with_self (set_cluster_info (Some ci') (self s)) s)))
    end.

(** Modelled from the spec: [SetMasterInstance] attaches the InstanceRecord
    as the master reference of the ClusterRecord and stores it. *)
Definition SetMasterInstance (instance : InstanceInfo) : M unit :=
  fun s =>
    match cluster_info (self s) with
    | None => Raise AttributeError s
    | Some ci =>
        let ci' := <["master" := PStr (ii_name instance)]> ci in
        Ok tt (log (EvSetMasterInstance (ii_name instance))
                 (with_ds {| ds_cluster := Some ci';
                             ds_instances := ds_instances (ds s) |}
                    (with_self (set_cluster_info (Some ci') (self s)) s)))
    end.

Definition set_external_ip (ip : json) (ii : InstanceInfo) : InstanceInfo :=
  {| ii_name := ii_name ii; ii_role := ii_role ii; ii_rpckey := ii_rpckey ii;
     ii_external_ip := ip |}.

(** Modelled from the spec: [SetMasterIpAddress] writes the address to the
    InstanceRecord that the master reference names. *)
Definition SetMasterIpAddress (ip : json) : M unit :=
  fun s =>
    match cluster_info (self s) with
    | None => Raise AttributeError s
    | Some ci =>
        let insts :=
          match ci !! "master" with
          | Some (PStr m) => alter (set_external_ip ip) m (ds_instances (ds s))
          | _ => ds_instances (ds s)
          end in
        Ok tt (log (EvSetMasterIpAddress ip)
                 (with_ds {| ds_cluster := ds_cluster (ds s);
                             ds_instances := insts |} s))
    end.

(** Modelled from the spec: [instance_info.put()] stores the InstanceRecord
    under its name. *)
Definition InstanceInfo_put (ii : InstanceInfo) : M unit :=
  fun s =>
    Ok tt (log (EvInstancePut ii)
             (with_ds {| ds_cluster := ds_cluster (ds s);
                         ds_instances := <[ii_name ii := ii]> (ds_instances (ds s)) |}
                s)).

(** Modelled from the spec: [InstanceInfo.GetByName] looks the
    InstanceRecord up, [None] when there is none. *)
Definition InstanceInfo_GetByName (instance_name : string)
  : M (option InstanceInfo) :=
  fun s =>
    Ok (ds_instances (ds s) !! instance_name)
       (log (EvInstanceGetByName instance_name) s).

(** Modelled from the spec: [cluster_info.key.delete()] removes the
    ClusterRecord from the registry. *)
Definition ClusterInfo_key_delete : M unit :=
  fun s =>
    match cluster_info (self s) with
    | None => Raise AttributeError s
    | Some _ =>
        Ok tt (log EvClusterKeyDelete
                 (with_ds {| ds_cluster := None;
                             ds_instances := ds_instances (ds s) |} s))
    end.

(** [instance['networkInterfaces'][0]['accessConfigs'][0]['natIP']] *)
Definition natIP_of (instance : json) : exn + json :=
  match getitem_key instance "networkInterfaces" with
  | inl e => inl e
  | inr nis =>
      match getitem_idx nis 0 with
      | inl e => inl e
      | inr ni =>
          match getitem_key ni "accessConfigs" with
          | inl e => inl e
          | inr acs =>
              match getitem_idx acs 0 with
              | inl e => inl e
              | inr ac => getitem_key ac "natIP"
              end
          end
      end
  end.

(** [[i['name'] for i in instances]]; a name that is not a string is outside
    the embedding. *)
Fixpoint names_of (instances : list json) : exn + list string :=
  match instances with
  | [] => inr []
  | i :: rest =>
      match getitem_key i "name" with
      | inl e => inl e
      | inr (JStr n) =>
          match names_of rest with
          | inl e => inl e
          | inr ns => inr (n :: ns)
          end
      | inr _ => inl Unmodelled
      end
  end.

(** ** The methods of [HadoopCluster] *)

Section Orchestrator.

Context (E : env).

Definition call_GetDisk (disk_name : string) : M json :=
  fun s => let r := GetDisk E (tr s) disk_name in
           Ok r (log (EvGetDisk disk_name r) s).

Definition call_CreatePersistentDisk (disk_name : string) (size_gb : Z)
    (wait : bool) : M bool :=
  fun s => let r := CreatePersistentDisk E (tr s) disk_name size_gb wait in
           Ok r (log (EvCreatePersistentDisk disk_name size_gb wait r) s).

Definition call_CreateInstance (a : create_args) : M bool :=
  fun s => let r := CreateInstance E (tr s) a in
           Ok r (log (EvCreateInstance a r) s).

Definition call_GetInstance (instance_name : string) : M json :=
  fun s => let r := GetInstance E (tr s) instance_name in
           Ok r (log (EvGetInstance instance_name r) s).

Definition call_ListInstances (filter : string) : M (list json) :=
  fun s => let r := ListInstances E (tr s) filter in
           Ok r (log (EvListInstances filter r) s).

Definition call_DeleteInstance (instance_name : string) : M unit :=
  emit (EvDeleteInstance instance_name).

Definition call_uuid4 : M string :=
  fun s => let r := uuid4 E (tr s) in Ok r (log (EvUuid4 r) s).

Definition call_fetch (url : string) : M (Z * string) :=
  fun s => let r := fetch E (tr s) url in
           match r with
           | FetchResponse status_code content =>
               Ok (status_code, content) (log (EvFetch url r) s)
           | FetchDownloadError => Raise DownloadError (log (EvFetch url r) s)
           end.

Definition sleep (secs : Z) : M unit := emit (EvSleep secs).

Definition _GetTmpCloudStorage : string :=
  cloud_storage_bucket E +:+ "/hadoop".

Definition _MaybeCreatePersistentDisk (disk_name : string) : M unit :=
  disk_info <- call_GetDisk disk_name ;;
  if negb (json_truthy disk_info) then
    created <- call_CreatePersistentDisk disk_name PERSISTENT_DISK_SIZE_GB true ;;
    if negb created then
      raise (ClusterSetUpError ("Failed to create persistent disk " +:+ disk_name))
    else ret tt
  else ret tt.

Definition base_metadata (h : HadoopCluster) (rpckey disk_id : string)
  : gmap string pyval :=
  list_to_map
    [ ("startup-script-url",
       PStr (_GetTmpCloudStorage +:+ "/" +:+ COMPUTE_STARTUP_SCRIPT));
      ("rpckey", PStr rpckey);
      ("disk-id", PStr ("google-" +:+ disk_id));
      ("hostname-prefix", prefix h);
      ("num-workers", num_workers h);
      ("hadoop-master", PStr (master_name h));
      ("hadoop-worker-template", PStr (worker_name_template h));
      ("tmp-cloud-storage", PStr _GetTmpCloudStorage);
      ("custom-command", custom_command h);
      ("hadoop-patch", PStr HADOOP_PATCH) ].

Definition add_commands (commands : list string) (metadata : gmap string pyval)
  : gmap string pyval :=
  foldl (fun m command => <[command := PInt 1]> m) metadata commands.

Definition record_instance (instance_status : InstanceInfo) : M unit :=
  fun s => Ok tt (with_self
                    (set_instances
                       (<[ii_name instance_status := instance_status]>
                          (instances (self s)))
                       (self s)) s).

Definition _StartInstance (instance_name role : string)
    (persistent_disk : bool) : M unit :=
  h <- get_self ;;
  disk <- (if persistent_disk then
             let persistent_disk_name :=
               instance_name +:+ PERSISTENT_DISK_SUFFIX in
             _MaybeCreatePersistentDisk persistent_disk_name ;;
             ret (Some persistent_disk_name, machinetype_persistent_disk h,
                  persistent_disk_name)
           else
             ret (None, PStr (machinetype_scratch_disk h),
                  "ephemeral-disk-0")) ;;
  let '(persistent_disk_name, machinetype, disk_id) := disk in
  rpckey <- call_uuid4 ;;
  let metadata := base_metadata h rpckey disk_id in
  match dict_get INSTANCE_ROLES role with
  | None =>
      raise (ClusterSetUpError ("Invalid instance role name: " +:+ role))
  | Some commands =>
      let metadata := add_commands commands metadata in
      started <- call_CreateInstance
                   {| ca_name := instance_name;
                      ca_network := network h;
                      ca_machinetype := machinetype;
                      ca_image := image h;
                      ca_persistent_disk := persistent_disk_name;
                      ca_service_accounts :=
                        ["https://www.googleapis.com/auth/devstorage.full_control"];
                      ca_metadata := metadata |} ;;
      if negb started then
        raise (ClusterSetUpError ("Failed to start instance " +:+ instance_name))
      else
        match cluster_info h with
        | None => raise AttributeError
        | Some _ =>
            let instance_status :=
              {| ii_name := instance_name; ii_role := role;
                 ii_rpckey := rpckey; ii_external_ip := JNull |} in
            InstanceInfo_put instance_status ;;
            (if String.eqb role "master"
             then SetMasterInstance instance_status else ret tt) ;;
            record_instance instance_status
        end
  end.

Definition _HttpRequest (host : json) (path : string) : M (Z * string) :=
  match json_str host with
  | None => raise Unmodelled
  | Some h => call_fetch ("http://" +:+ h +:+ "/" +:+ path)
  end.

Definition _BuildRpcUrl (rpckey command : string) : string :=
  "call?" +:+ urlencode E [("command", command); ("key", rpckey)].

Definition _RunCommandAtRemote (instance_name : string)
    (command_args : list string) : M (Z * string) :=
  let command := String.concat " " command_args in
  found <- InstanceInfo_GetByName instance_name ;;
  match found with
  | None => raise AttributeError
  | Some instance_info =>
      let url_path := _BuildRpcUrl (ii_rpckey instance_info) command in
      _HttpRequest (ii_external_ip instance_info) url_path
  end.

Fixpoint _WaitForExternalIp_loop (n : nat) (instance_name : string) : M json :=
  match n with
  | O => raise (ClusterSetUpError
                  ("External IP address time out for " +:+ instance_name))
  | S n' =>
      instance <- call_GetInstance instance_name ;;
      if json_truthy instance then
        match natIP_of instance with
        | inr ip => ret ip
        | inl KeyError | inl IndexError =>
            sleep INSTANCE_IP_ADDRESS_CHECK_INTERVAL ;;
            _WaitForExternalIp_loop n' instance_name
        | inl e => raise e
        end
      else
        sleep INSTANCE_IP_ADDRESS_CHECK_INTERVAL ;;
        _WaitForExternalIp_loop n' instance_name
  end.

Definition _WaitForExternalIp (instance_name : string) : M json :=
  _WaitForExternalIp_loop INSTANCE_IP_ADDRESS_MAX_CHECK_TIMES instance_name.

(** One pass of the warm-up loop of [_WaitForInstances]: [true] when the
    method returns, [false] when the loop goes on. *)
Definition warm_up_attempt : M bool :=
  h <- get_self ;;
  except_DownloadError
    (response <- _RunCommandAtRemote (master_name h)
                   ["cat"; "/var/log/STARTUP_SCRIPT_DONE"] ;;
     if fst response =? 200 then
       if negb (py_find (snd response) "success" =? -1) then ret true
       else raise (ClusterSetUpError "Hadoop master failed to start")
     else ret false)
    false.

Fixpoint warm_up_loop (n : nat) : M unit :=
  match n with
  | O => raise (ClusterSetUpError "Hadoop master set up timed out")
  | S n' =>
      finished <- warm_up_attempt ;;
      if finished then ret tt
      else sleep MASTER_WARM_UP_CHECK_INTERVAL ;; warm_up_loop n'
  end.

Definition wait_worker (i : Z) : M unit :=
  h <- get_self ;;
  worker_name <- lift (_WorkerName h i) ;;
  external_ip <- _WaitForExternalIp worker_name ;;
  found <- InstanceInfo_GetByName worker_name ;;
  match found with
  | None => raise AttributeError
  | Some instance_info =>
      InstanceInfo_put (set_external_ip external_ip instance_info)
  end.

Definition _WaitForInstances : M unit :=
  h <- get_self ;;
  master_ip <- _WaitForExternalIp (master_name h) ;;
  SetMasterIpAddress master_ip ;;
  indices <- lift (xrange (num_workers h)) ;;
  for_each indices wait_worker ;;
  warm_up_loop MASTER_WARM_UP_MAX_CHECK_TIMES.

Definition _StartMaster : M unit :=
  h <- get_self ;;
  _StartInstance (master_name h) "master" false.

Definition start_worker (i : Z) : M unit :=
  h <- get_self ;;
  worker_name <- lift (_WorkerName h i) ;;
  _StartInstance worker_name "worker" false.

Definition _StartWorkers : M unit :=
  h <- get_self ;;
  indices <- lift (xrange (num_workers h)) ;;
  for_each indices start_worker.

(** The entity [datastore.ClusterInfo(name=..., ...)] that
    [StartHadoopCluster] builds. *)
Definition new_ClusterInfo (h : HadoopCluster) : gmap string pyval :=
  list_to_map
    [ ("name", name h); ("project", project h); ("prefix", prefix h);
      ("zone", zone h); ("machinetype", machinetype h); ("image", image h);
      ("network", network h); ("num_workers", num_workers h);
      ("custom_command", custom_command h) ].

Definition create_ClusterInfo : M unit :=
  fun s => Ok tt (with_self
                    (set_cluster_info (Some (new_ClusterInfo (self s)))
                       (self s)) s).

(** The guarded part of [StartHadoopCluster]. *)
Definition start_sequence : M unit :=
  create_ClusterInfo ;;
  ClusterInfo_put ;;
  _StartMaster ;;
  _StartWorkers ;;
  _WaitForInstances.

Definition StartHadoopCluster : M unit :=
  except_ClusterSetUpError
    start_sequence
    (fun msg => SetStatus (ClusterStatus_ERROR +:+ ": " +:+ msg)).

(** The names of [instance_names] whose [GetInstance] is not [None]. *)
Fixpoint still_alive_of (instance_names : list string) : M (list string) :=
  match instance_names with
  | [] => ret []
  | n :: rest =>
      instance <- call_GetInstance n ;;
      alive <- still_alive_of rest ;;
      ret (match instance with JNull => alive | _ => n :: alive end)
  end.

Fixpoint confirm_loop (n : nat) (instance_names : list string) : M unit :=
  match n with
  | O => ret tt
  | S n' =>
      still_alive <- still_alive_of instance_names ;;
      match still_alive with
      | [] => ret tt
      | _ => sleep CLUSTER_SHUTDOWN_CHECK_INTERVAL ;;
             confirm_loop n' still_alive
      end
  end.

(** One pass of the [while True] loop of [TeardownCluster]: [true] when the
    loop breaks. *)
Definition teardown_round : M bool :=
  h <- get_self ;;
  listed <- call_ListInstances (teardown_filter h) ;;
  instance_names <- lift (names_of listed) ;;
  match instance_names with
  | [] => ret true
  | _ =>
      for_each instance_names call_DeleteInstance ;;
      confirm_loop CLUSTER_SHUTDOWN_MAX_CHECK_TIMES instance_names ;;
      ret false
  end.

(** The [while True] loop, with [fuel] bounding the number of passes that
    are unfolded: [None] when the loop is still running after [fuel]
    passes. *)
Fixpoint teardown_loop (fuel : nat) (s : state) : option (result unit) :=
  match fuel with
  | O => None
  | S fuel' =>
      match teardown_round s with
      | Ok true s' => Some (Ok tt s')
      | Ok false s' => teardown_loop fuel' s'
      | Raise e s' => Some (Raise e s')
      end
  end.

Definition TeardownCluster (fuel : nat) (s : state) : option (result unit) :=
  match SetStatus ClusterStatus_TEARING_DOWN s with
  | Raise e s' => Some (Raise e s')
  | Ok _ s1 =>
      match teardown_loop fuel s1 with
      | None => None
      | Some (Raise e s') => Some (Raise e s')
      | Some (Ok _ s2) => Some (ClusterInfo_key_delete s2)
      end
  end.

End Orchestrator.

(** [getattr(self, item)] for the configuration attributes. *)
Definition self_attr (h : HadoopCluster) (item : string) : pyval :=
  default PNone
    (dict_get
       [ ("prefix", prefix h); ("project", project h); ("name", name h);
         ("zone", zone h); ("machinetype", machinetype h);
         ("image", image h); ("network", network h);
         ("num_workers", num_workers h);
         ("custom_command", custom_command h) ] item).

Fixpoint has_percent (s : string) : bool :=
  match s with
  | EmptyString => false
  | String c r => Ascii.eqb c "%" || has_percent r
  end.

(** Modelled from the spec: the classification that
    [gce_api.GceApi.CreateInstance] makes of the provider's response
    ([gce_api.py] is not part of the sources at hand, its unit tests are):
    failure exactly when the response has an [error] field. *)
Definition CreateInstance_classify (response : list (string * json))
  : exn + bool :=
  match dict_get response "error" with
  | Some _ => inr false
  | None => inr true
  end.

(** * Properties *)

(** ** Strings and formatting *)

Lemma append_nil_r (s : string) : s +:+ "" = s.
Proof.
  induction s as [|c s IH]; [reflexivity|].
  change (String c s +:+ "") with (String c (s +:+ "")). by rewrite IH.
Qed.

Lemma append_assoc (a b c : string) : (a +:+ b) +:+ c = a +:+ (b +:+ c).
Proof.
  induction a as [|x a IH]; [reflexivity|].
  change (String x a +:+ b) with (String x (a +:+ b)).
  change (String x (a +:+ b) +:+ c) with (String x ((a +:+ b) +:+ c)).
  by rewrite IH.
Qed.

(** A template prefix without [%] is copied to the output unchanged. *)
Lemma pyformat_go_literal p rest args :
  has_percent p = false ->
  pyformat_go Lit (p +:+ rest) args = app_out p (pyformat_go Lit rest args).
Proof.
  induction p as [|c p IH]; intros H.
  - change ("" +:+ rest) with rest.
    destruct (pyformat_go Lit rest args); reflexivity.
  - change (String c p +:+ rest) with (String c (p +:+ rest)).
    simpl in H. apply orb_false_iff in H as [Hc Hp].
    simpl. rewrite Hc, (IH Hp).
    destruct (pyformat_go Lit rest args); reflexivity.
Qed.

Lemma worker_suffix_format (i : Z) :
  pyformat_go Lit "-hadoop-worker-%03d" [PInt i]
  = inr ("-hadoop-worker-" +:+ zfill 3 (dec i)).
Proof.
  cbn. unfold pad_int. by rewrite append_nil_r.
Qed.

(** The literal format of the template agrees with the [%] operator. *)
Lemma worker_name_template_format (p : string) :
  pyformat "%s-%s-%%03d" [PStr p; PStr WORKER_NAME_CORE]
  = inr (p +:+ "-" +:+ WORKER_NAME_CORE +:+ "-%03d").
Proof.
  unfold pyformat. cbn. unfold pad_str, rjust.
  rewrite Nat.sub_0_l. cbn [string_rep].
  change ("" +:+ p) with p. change ("" +:+ WORKER_NAME_CORE) with WORKER_NAME_CORE.
  reflexivity.
Qed.

(** ** Construction *)

Lemma init_cluster_info_resolves get_by_id cluster_id entity :
  init_cluster_info get_by_id cluster_id = Some entity <->
  truthy cluster_id = true /\ get_by_id cluster_id = Some entity.
Proof.
  unfold init_cluster_info.
  destruct (truthy cluster_id); [|split; [done|by intros [? _]]].
  split; [done|by intros [_ ?]].
Qed.

Lemma init_result get_by_id cluster_id a :
  let item := init_item (init_cluster_info get_by_id cluster_id) a in
  match __init__ get_by_id cluster_id a with
  | inr h =>
      (exists p, item "prefix" = PStr p /\
                 master_name h = p +:+ "-" +:+ MASTER_NAME) /\
      cluster_info h = init_cluster_info get_by_id cluster_id /\
      forall x, x ∈ CONFIG_ITEMS -> self_attr h x = item x
  | inl e => e = TypeError /\ forall p, item "prefix" <> PStr p
  end.
Proof.
  unfold __init__. cbv zeta.
  destruct (init_item _ a "prefix") as [|n|p] eqn:Hp; cbn [py_add_str].
  - split; [done|]. intros p. congruence.
  - split; [done|]. intros p. congruence.
  - split; [|split; [done|]].
    + exists p. split; [done|]. cbn. by rewrite append_assoc.
    + intros x Hx. unfold CONFIG_ITEMS in Hx.
      repeat (apply elem_of_cons in Hx as [->|Hx]; [by rewrite ?Hp|]).
      by apply elem_of_nil in Hx.
Qed.

Lemma setattr_loop_keeps (f : string -> pyval) item l
    (attrs : gmap string pyval) :
  attrs !! item = Some (f item) ->
  foldl (fun m x => <[x := f x]> m) attrs l !! item = Some (f item).
Proof.
  revert attrs. induction l as [|x l IH]; intros attrs H; [exact H|].
  cbn [foldl]. apply IH.
  destruct (decide (x = item)) as [->|Hne].
  - apply lookup_insert_eq.
  - by rewrite lookup_insert_ne.
Qed.

Lemma setattr_loop_sets (f : string -> pyval) item l
    (attrs : gmap string pyval) :
  item ∈ l ->
  foldl (fun m x => <[x := f x]> m) attrs l !! item = Some (f item).
Proof.
  revert attrs. induction l as [|x l IH]; intros attrs H.
  - by apply elem_of_nil in H.
  - cbn [foldl]. apply elem_of_cons in H as [->|H].
    + apply setattr_loop_keeps, lookup_insert_eq.
    + by apply IH.
Qed.

Lemma locals_has_item a item :
  item ∈ CONFIG_ITEMS -> is_Some (dict_get (locals a) item).
Proof.
  intros Hitem. unfold CONFIG_ITEMS in Hitem.
  repeat (apply elem_of_cons in Hitem as [->|Hitem]; [by eexists|]).
  by apply elem_of_nil in Hitem.
Qed.

(** C10.  The loop at the head of the constructor sets each of the nine
    configuration attributes.  When the [cluster_id] is given and
    [get_by_id] resolves it to a ClusterRecord, the attribute is the
    record's attribute of that name, and [None] when the record has none,
    whatever the caller's arguments are.  When no [cluster_id] is given, or
    no record is stored under it, the attribute is the caller's argument.
    The orchestrator that the constructor returns carries these
    attributes. *)
Theorem init_fields_from_record_else_args get_by_id cluster_id a item :
  item ∈ CONFIG_ITEMS ->
  (forall entity,
     truthy cluster_id = true ->
     get_by_id cluster_id = Some entity ->
     init_loop get_by_id cluster_id a !! item
     = Some (default PNone (entity !! item))) /\
  (truthy cluster_id = false \/ get_by_id cluster_id = None ->
   exists v, dict_get (locals a) item = Some v /\
             init_loop get_by_id cluster_id a !! item = Some v) /\
  (forall h,
     __init__ get_by_id cluster_id a = inr h ->
     init_loop get_by_id cluster_id a !! item = Some (self_attr h item)).
Proof.
  intros Hitem.
  assert (init_loop get_by_id cluster_id a !! item
          = Some (init_item (init_cluster_info get_by_id cluster_id) a item))
    as Hloop.
  { unfold init_loop. cbv zeta.
    exact (setattr_loop_sets
             (init_item (init_cluster_info get_by_id cluster_id) a)
             item CONFIG_ITEMS ∅ Hitem). }
  split; [|split].
  - intros entity Hid Hget. rewrite Hloop. unfold init_cluster_info.
    by rewrite Hid, Hget.
  - intros Hnone. destruct (locals_has_item a item Hitem) as [v Hv].
    exists v. split; [exact Hv|]. rewrite Hloop.
    assert (init_cluster_info get_by_id cluster_id = None) as ->.
    { unfold init_cluster_info. destruct Hnone as [->| ->]; [done|].
      by destruct (truthy cluster_id). }
    unfold init_item. by rewrite Hv.
  - intros h Hh. rewrite Hloop. f_equal.
    pose proof (init_result get_by_id cluster_id a) as H. cbv zeta in H.
    rewrite Hh in H. destruct H as (_ & _ & H). symmetry. by apply H.
Qed.

(** A record without [zone] leaves [zone] absent, whatever the caller
    passes; without a record the caller's value is used. *)
Example init_missing_field_is_none :
  let entity : gmap string pyval :=
    {[ "prefix" := PStr "p"; "num_workers" := PInt 2 ]} in
  let a := {| arg_project := PStr "proj"; arg_name := PStr "n";
              arg_prefix := PStr "mine"; arg_zone := PStr "zone-a";
              arg_machinetype := PStr "m1"; arg_image := PStr "img";
              arg_network := PStr "net"; arg_num_workers := PInt 7;
              arg_custom_command := PStr "" |} in
  let attr f r :=
    match r with inr h => Some (f h) | inl _ => None end in
  attr zone (__init__ (fun _ => Some entity) (PInt 1) a) = Some PNone /\
  attr num_workers (__init__ (fun _ => Some entity) (PInt 1) a)
    = Some (PInt 2) /\
  attr zone (__init__ (fun _ => None) (PInt 1) a) = Some (PStr "zone-a") /\
  attr prefix (__init__ (fun _ => Some entity) PNone a) = Some (PStr "mine").
Proof. vm_compute. done. Qed.

(** ** Provider response classification *)

(** The three responses of the unit tests of [gce_api.CreateInstance]. *)
Example classify_test_success :
  CreateInstance_classify [("name", JStr "instance-name")] = inr true.
Proof. reflexivity. Qed.

Example classify_test_success_with_warning :
  CreateInstance_classify
    [("name", JStr "instance-name");
     ("warnings", JList [JDict [("code", JStr "some warning code");
                                ("message", JStr "some warning message")]])]
  = inr true.
Proof. reflexivity. Qed.

Example classify_test_error :
  CreateInstance_classify
    [("name", JStr "instance-name");
     ("error", JDict [("errors",
        JList [JDict [("code", JStr "some error code");
                      ("message", JStr "some error message")]])])]
  = inr false.
Proof. reflexivity. Qed.

(** C8.  A response with an [error] field is classified as failure and a
    response without one as success; in both cases the classification is a
    returned value, nothing is raised, and a [warnings] list put in front of
    the response does not change it. *)
Theorem create_response_classification (response : list (string * json)) :
  CreateInstance_classify response
    = inr (bool_decide (dict_get response "error" = None)) /\
  forall warnings,
    CreateInstance_classify (("warnings", warnings) :: response)
    = CreateInstance_classify response.
Proof.
  unfold CreateInstance_classify. split.
  - destruct (dict_get response "error"); reflexivity.
  - intros w. reflexivity.
Qed.

(** ** A logic of traces

    A property of the calls a method makes is stated with a monitor: a
    state [q], a transition [next] and the calls [allowed] in each state.
    [triple q m post] says that from every state satisfying [I] the calls
    that [m] adds to the trace are accepted from [q], that [post] holds of
    the outcome and of the monitor state reached, and that [I] holds
    again. *)

Definition outcome {A} (r : result A) : exn + A :=
  match r with
  | Ok a _ => inr a
  | Raise e _ => inl e
  end.

Section TraceLogic.

Context {Q : Type}.
Variable next : Q -> event -> Q.
Variable allowed : Q -> event -> Prop.
Variable I : state -> Prop.

Fixpoint accepted (q : Q) (evs : list event) : Prop :=
  match evs with
  | [] => True
  | e :: rest => allowed q e /\ accepted (next q e) rest
  end.

Definition run (q : Q) (evs : list event) : Q := fold_left next evs q.

Lemma run_app q a b : run q (a ++ b)%list = run (run q a) b.
Proof. unfold run. apply fold_left_app. Qed.

Lemma accepted_app q a b :
  accepted q (a ++ b)%list <-> accepted q a /\ accepted (run q a) b.
Proof.
  revert q. induction a as [|e a IH]; intros q; simpl.
  - tauto.
  - rewrite IH. unfold run. simpl. tauto.
Qed.

Definition triple_at {A} (s : state) (q : Q) (m : M A)
    (post : exn + A -> Q -> Prop) : Prop :=
  exists evs,
    tr (final_state (m s)) = (tr s ++ evs)%list /\
    accepted q evs /\
    post (outcome (m s)) (run q evs) /\
    I (final_state (m s)).

Definition triple {A} (q : Q) (m : M A) (post : exn + A -> Q -> Prop)
  : Prop :=
  forall s, I s -> triple_at s q m post.

Lemma triple_at_ret {A} s q (a : A) post :
  I s -> post (inr a) q -> triple_at s q (ret a) post.
Proof. intros Hi Hp. exists []. simpl. by rewrite app_nil_r. Qed.

Lemma triple_at_raise {A} s q e (post : exn + A -> Q -> Prop) :
  I s -> post (inl e) q -> triple_at s q (raise e) post.
Proof. intros Hi Hp. exists []. simpl. by rewrite app_nil_r. Qed.

Lemma triple_ret {A} q (a : A) post :
  post (inr a) q -> triple q (ret a) post.
Proof. intros Hp s Hi. by apply triple_at_ret. Qed.

Lemma triple_raise {A} q e (post : exn + A -> Q -> Prop) :
  post (inl e) q -> triple q (raise e) post.
Proof. intros Hp s Hi. by apply triple_at_raise. Qed.

Lemma triple_at_bind {A B} s q (m : M A) (k : A -> M B) post :
  triple_at s q m
    (fun o q' =>
       match o with
       | inr a => triple q' (k a) post
       | inl e => post (inl e) q'
       end) ->
  triple_at s q (bind m k) post.
Proof.
  intros (evs & Htr & Hacc & Hpost & Hi). unfold triple_at, bind.
  destruct (m s) as [a s'|e s']; simpl in *.
  - destruct (Hpost s' Hi) as (evs' & Htr' & Hacc' & Hpost' & Hi').
    exists (evs ++ evs')%list. split; [|split; [|split]].
    + by rewrite Htr', Htr, app_assoc.
    + apply accepted_app. done.
    + by rewrite run_app.
    + done.
  - exists evs. done.
Qed.

Lemma triple_bind {A B} q (m : M A) (k : A -> M B) post :
  triple q m
    (fun o q' =>
       match o with
       | inr a => triple q' (k a) post
       | inl e => post (inl e) q'
       end) ->
  triple q (bind m k) post.
Proof. intros H s Hi. apply triple_at_bind. by apply H. Qed.

Lemma triple_conseq {A} q (m : M A) (post post' : exn + A -> Q -> Prop) :
  triple q m post ->
  (forall o q', post o q' -> post' o q') ->
  triple q m post'.
Proof.
  intros H Himp s Hi. destruct (H s Hi) as (evs & ? & ? & ? & ?).
  exists evs. eauto.
Qed.

Lemma triple_get_self {A} q (k : HadoopCluster -> M A) post :
  (forall h, (exists s, I s /\ self s = h) -> triple q (k h) post) ->
  triple q (bind get_self k) post.
Proof. intros H s Hi. unfold bind, get_self. apply H; eauto. Qed.

Lemma triple_lift {A B} q (r : exn + A) (k : A -> M B) post :
  match r with
  | inr a => triple q (k a) post
  | inl e => post (inl e) q
  end ->
  triple q (bind (lift r) k) post.
Proof.
  destruct r as [e|a]; intros H s Hi; unfold bind, lift; simpl.
  - by apply triple_at_raise.
  - by apply H.
Qed.

(** A step that logs one call and leaves the rest of the state alone. *)
Lemma triple_logged {A} q (m : M A) post :
  (forall s, exists e (o : exn + A),
      outcome (m s) = o /\ final_state (m s) = log e s /\
      (I s -> I (log e s)) /\
      allowed q e /\ post o (next q e)) ->
  triple q m post.
Proof.
  intros H s Hi. destruct (H s) as (e & o & Ho & Hs & Hl & Hal & Hp).
  exists [e]. rewrite Hs, Ho. simpl. auto.
Qed.

Lemma triple_emit q e post :
  (forall s, I s -> I (log e s)) ->
  allowed q e -> post (inr tt) (next q e) -> triple q (emit e) post.
Proof.
  intros Hl ? ?. apply triple_logged. intros s.
  exists e, (inr tt). simpl. auto.
Qed.

Lemma triple_for_each {A} (inv : Q -> Prop) (l : list A) (body : A -> M unit)
    post q :
  inv q ->
  (forall x q', x ∈ l -> inv q' ->
     triple q' (body x)
       (fun o q'' => match o with
                     | inr _ => inv q''
                     | inl e => post (inl e) q''
                     end)) ->
  (forall q', inv q' -> post (inr tt) q') ->
  triple q (for_each l body) post.
Proof.
  intros Hq Hbody Hdone. revert q Hq.
  induction l as [|x l IH]; intros q Hq; simpl.
  - apply triple_ret. auto.
  - apply triple_bind.
    eapply triple_conseq; [apply (Hbody x q); [left|done]|].
    intros [e|[]] q' Hq'; [done|].
    apply IH; [|done]. intros y q'' Hy. apply Hbody. by right.
Qed.

Lemma triple_except_DownloadError {A} q (m : M A) (fallback : A) post :
  triple q m
    (fun o q' => match o with
                 | inl DownloadError => post (inr fallback) q'
                 | _ => post o q'
                 end) ->
  triple q (except_DownloadError m fallback) post.
Proof.
  intros H s Hi. destruct (H s Hi) as (evs & Htr & Hacc & Hpost & Hi').
  unfold triple_at, except_DownloadError.
  destruct (m s) as [a s'|e s']; simpl in *.
  - exists evs. done.
  - destruct e; exists evs; done.
Qed.

Lemma triple_except_ClusterSetUpError q (m : M unit) handler post :
  triple q m
    (fun o q' => match o with
                 | inl (ClusterSetUpError msg) => triple q' (handler msg) post
                 | _ => post o q'
                 end) ->
  triple q (except_ClusterSetUpError m handler) post.
Proof.
  intros H s Hi. destruct (H s Hi) as (evs & Htr & Hacc & Hpost & Hi').
  unfold triple_at, except_ClusterSetUpError.
  destruct (m s) as [a s'|e s']; simpl in *.
  - exists evs. done.
  - destruct e; try (exists evs; done).
    destruct (Hpost s' Hi') as (evs' & Htr' & Hacc' & Hpost' & Hi'').
    exists (evs ++ evs')%list. split; [|split; [|split]].
    + by rewrite Htr', Htr, app_assoc.
    + by apply accepted_app.
    + by rewrite run_app.
    + done.
Qed.

End TraceLogic.

(** Rules for the calls to the collaborators.  [I] may relate the registry
    to the trace, so it is asked to be stable under the calls that are not
    registry writes. *)
Definition registry_write (e : event) : bool :=
  match e with
  | EvClusterPut _ | EvSetStatus _ | EvSetMasterInstance _
  | EvSetMasterIpAddress _ | EvInstancePut _ | EvClusterKeyDelete => true
  | _ => false
  end.

Section CallRules.

Context {Q : Type}.
Variable next : Q -> event -> Q.
Variable allowed : Q -> event -> Prop.
Variable I : state -> Prop.
Hypothesis I_log :
  forall e s, registry_write e = false -> I s -> I (log e s).
Variable E : env.

Local Abbreviation T := (triple next allowed I).

Lemma triple_call {A} q (f : trace -> A) (ev : A -> event) post :
  (forall r, registry_write (ev r) = false) ->
  (forall r, allowed q (ev r) /\ post (inr r) (next q (ev r))) ->
  T q (fun s => let r := f (tr s) in Ok r (log (ev r) s)) post.
Proof.
  intros Hw H. apply triple_logged. intros s.
  destruct (H (f (tr s))). exists (ev (f (tr s))), (inr (f (tr s))).
  simpl. repeat split; auto.
Qed.

Lemma triple_call_GetDisk q n post :
  (forall r, allowed q (EvGetDisk n r) /\
             post (inr r) (next q (EvGetDisk n r))) ->
  T q (call_GetDisk E n) post.
Proof. intros H. by apply (triple_call q (fun t => GetDisk E t n)). Qed.

Lemma triple_call_CreatePersistentDisk q n sz w post :
  (forall r, allowed q (EvCreatePersistentDisk n sz w r) /\
             post (inr r) (next q (EvCreatePersistentDisk n sz w r))) ->
  T q (call_CreatePersistentDisk E n sz w) post.
Proof.
  intros H.
  by apply (triple_call q (fun t => CreatePersistentDisk E t n sz w)).
Qed.

Lemma triple_call_CreateInstance q a post :
  (forall r, allowed q (EvCreateInstance a r) /\
             post (inr r) (next q (EvCreateInstance a r))) ->
  T q (call_CreateInstance E a) post.
Proof. intros H. by apply (triple_call q (fun t => CreateInstance E t a)). Qed.

Lemma triple_call_GetInstance q n post :
  (forall r, allowed q (EvGetInstance n r) /\
             post (inr r) (next q (EvGetInstance n r))) ->
  T q (call_GetInstance E n) post.
Proof. intros H. by apply (triple_call q (fun t => GetInstance E t n)). Qed.

Lemma triple_call_ListInstances q f post :
  (forall r, allowed q (EvListInstances f r) /\
             post (inr r) (next q (EvListInstances f r))) ->
  T q (call_ListInstances E f) post.
Proof. intros H. by apply (triple_call q (fun t => ListInstances E t f)). Qed.

Lemma triple_call_uuid4 q post :
  (forall r, allowed q (EvUuid4 r) /\ post (inr r) (next q (EvUuid4 r))) ->
  T q (call_uuid4 E) post.
Proof. intros H. by apply (triple_call q (fun t => uuid4 E t)). Qed.

Lemma triple_call_fetch q url post :
  (forall r, allowed q (EvFetch url r) /\
             post (match r with
                   | FetchResponse c b => inr (c, b)
                   | FetchDownloadError => inl DownloadError
                   end) (next q (EvFetch url r))) ->
  T q (call_fetch E url) post.
Proof.
  intros H. apply triple_logged. intros s.
  destruct (H (fetch E (tr s) url)) as [Ha Hp]. unfold call_fetch.
  destruct (fetch E (tr s) url); eexists _, _; simpl;
    (repeat split; [by apply I_log|done|done]).
Qed.

Lemma triple_call_DeleteInstance q n post :
  allowed q (EvDeleteInstance n) ->
  post (inr tt) (next q (EvDeleteInstance n)) ->
  T q (call_DeleteInstance n) post.
Proof. intros. apply triple_emit; auto. Qed.

Lemma triple_sleep q secs post :
  allowed q (EvSleep secs) -> post (inr tt) (next q (EvSleep secs)) ->
  T q (sleep secs) post.
Proof. intros. apply triple_emit; auto. Qed.

Lemma triple_InstanceInfo_GetByName q n post :
  allowed q (EvInstanceGetByName n) ->
  (forall s, I s ->
     post (inr (ds_instances (ds s) !! n)) (next q (EvInstanceGetByName n))) ->
  T q (InstanceInfo_GetByName n) post.
Proof.
  intros Ha H s Hi. exists [EvInstanceGetByName n].
  simpl. repeat split; auto.
Qed.

Lemma triple_InstanceInfo_put q ii post :
  (forall s, I s -> I (final_state (InstanceInfo_put ii s))) ->
  allowed q (EvInstancePut ii) ->
  post (inr tt) (next q (EvInstancePut ii)) ->
  T q (InstanceInfo_put ii) post.
Proof.
  intros H ? ? s Hi. specialize (H s Hi).
  exists [EvInstancePut ii]. simpl. auto.
Qed.

(** The registry methods of the ClusterRecord fail with [AttributeError]
    when the orchestrator holds no record. *)
Lemma triple_ClusterInfo_put q post :
  (forall s ci, I s -> cluster_info (self s) = Some ci ->
     I (final_state (ClusterInfo_put s)) /\
     allowed q (EvClusterPut ci) /\ post (inr tt) (next q (EvClusterPut ci))) ->
  post (inl AttributeError) q ->
  T q ClusterInfo_put post.
Proof.
  intros H Herr s Hi. unfold triple_at, ClusterInfo_put.
  destruct (cluster_info (self s)) as [ci|] eqn:Hci.
  - destruct (H s ci Hi Hci) as (Hi' & ? & ?).
    unfold ClusterInfo_put in Hi'. rewrite Hci in Hi'.
    exists [EvClusterPut ci]. simpl. auto.
  - exists []. simpl. rewrite app_nil_r. auto.
Qed.

Lemma triple_SetStatus q status post :
  (forall s, I s -> I (final_state (SetStatus status s))) ->
  allowed q (EvSetStatus status) ->
  post (inr tt) (next q (EvSetStatus status)) ->
  post (inl AttributeError) q ->
  T q (SetStatus status) post.
Proof.
  intros H ? ? Herr s Hi. specialize (H s Hi).
  unfold triple_at. unfold SetStatus in *.
  destruct (cluster_info (self s)) as [ci|].
  - exists [EvSetStatus status]. simpl. auto.
  - exists []. simpl. rewrite app_nil_r. auto.
Qed.

Lemma triple_SetMasterInstance q ii post :
  (forall s, I s -> I (final_state (SetMasterInstance ii s))) ->
  allowed q (EvSetMasterInstance (ii_name ii)) ->
  post (inr tt) (next q (EvSetMasterInstance (ii_name ii))) ->
  post (inl AttributeError) q ->
  T q (SetMasterInstance ii) post.
Proof.
  intros H ? ? Herr s Hi. specialize (H s Hi).
  unfold triple_at. unfold SetMasterInstance in *.
  destruct (cluster_info (self s)) as [ci|].
  - exists [EvSetMasterInstance (ii_name ii)]. simpl. auto.
  - exists []. simpl. rewrite app_nil_r. auto.
Qed.

Lemma triple_SetMasterIpAddress q ip post :
  (forall s, I s -> I (final_state (SetMasterIpAddress ip s))) ->
  allowed q (EvSetMasterIpAddress ip) ->
  post (inr tt) (next q (EvSetMasterIpAddress ip)) ->
  post (inl AttributeError) q ->
  T q (SetMasterIpAddress ip) post.
Proof.
  intros H ? ? Herr s Hi. specialize (H s Hi).
  unfold triple_at. unfold SetMasterIpAddress in *.
  destruct (cluster_info (self s)) as [ci|].
  - exists [EvSetMasterIpAddress ip]. simpl. auto.
  - exists []. simpl. rewrite app_nil_r. auto.
Qed.

Lemma triple_ClusterInfo_key_delete q post :
  (forall s, I s -> I (final_state (ClusterInfo_key_delete s))) ->
  allowed q EvClusterKeyDelete ->
  post (inr tt) (next q EvClusterKeyDelete) ->
  post (inl AttributeError) q ->
  T q ClusterInfo_key_delete post.
Proof.
  intros H ? ? Herr s Hi. specialize (H s Hi).
  unfold triple_at. unfold ClusterInfo_key_delete in *.
  destruct (cluster_info (self s)) as [ci|].
  - exists [EvClusterKeyDelete]. simpl. auto.
  - exists []. simpl. rewrite app_nil_r. auto.
Qed.

(** A step that changes the orchestrator object and makes no call. *)
Lemma triple_silent q (f : state -> state) post :
  (forall s, tr (f s) = tr s) ->
  (forall s, I s -> I (f s)) ->
  post (inr tt) q ->
  T q (fun s => Ok tt (f s)) post.
Proof.
  intros Htr Hi ? s Hs. exists []. simpl. rewrite app_nil_r. auto.
Qed.

End CallRules.

(** ** The protocol of [StartHadoopCluster]

    A monitor over the calls of one run.  It follows three things:
    - [mon]: whether an external address was just discovered and is still to
      be written to the registry;
    - [count]: how many [CreateInstance] calls were made;
    - [failed]: whether the last [CreateInstance] call failed. *)

Inductive mstate :=
| Idle
| Pending (n : string) (ip : json).

(** The address that [_WaitForExternalIp] takes from a descriptor. *)
Definition discovered (d : json) : option json :=
  if json_truthy d then
    match natIP_of d with
    | inr ip => Some ip
    | inl _ => None
    end
  else None.

Definition mon_next (q : mstate) (e : event) : mstate :=
  match e with
  | EvGetInstance n d =>
      match discovered d with
      | Some ip => Pending n ip
      | None => Idle
      end
  | EvInstanceGetByName _ => q
  | _ => Idle
  end.

(** With an address pending for [n], the only calls allowed are the registry
    calls that write it to the record of [n]; [master] is the name of the
    master instance. *)
Definition mon_allowed (master : string) (q : mstate) (e : event) : Prop :=
  match q with
  | Idle => True
  | Pending n ip =>
      match e with
      | EvSetMasterIpAddress ip' => n = master /\ ip' = ip
      | EvInstanceGetByName n' => n' = n
      | EvInstancePut ii => ii_name ii = n /\ ii_external_ip ii = ip
      | _ => False
      end
  end.

(** The calls that the guarded part of [StartHadoopCluster] may make. *)
Definition body_call (e : event) : bool :=
  match e with
  | EvClusterPut _ | EvUuid4 _ | EvCreateInstance _ _ | EvInstancePut _
  | EvSetMasterInstance _ | EvGetInstance _ _ | EvSleep _
  | EvSetMasterIpAddress _ | EvInstanceGetByName _ | EvFetch _ _ => true
  | _ => false
  end.

Record pstate := {
  mon : mstate;
  count : nat;
  failed : bool;
  awaiting : option string;
}.

(** The name of the [k]-th instance to be created: the master, then the
    workers by index. *)
Definition expected_name (h : HadoopCluster) (k : nat) : option string :=
  match k with
  | O => Some (master_name h)
  | S i =>
      match _WorkerName h (Z.of_nat i) with
      | inr n => Some n
      | inl _ => None
      end
  end.

Definition p_next (q : pstate) (e : event) : pstate :=
  {| mon := mon_next (mon q) e;
     count := match e with
              | EvCreateInstance _ _ => S (count q)
              | _ => count q
              end;
     failed := match e with
               | EvCreateInstance _ r => negb r
               | _ => failed q
               end;
     awaiting := match e with
                 | EvCreateInstance a true => Some (ca_name a)
                 | _ => None
                 end |}.

(** The calls allowed in state [q]: only calls of the guarded part; nothing
    after a failed create; instances are created in the expected order;
    and a successful create is followed at once by the InstanceRecord of
    that instance ([awaiting]). *)
Definition p_allowed (h : HadoopCluster) (q : pstate) (e : event) : Prop :=
  body_call e = true /\
  mon_allowed (master_name h) (mon q) e /\
  failed q = false /\
  match e with
  | EvCreateInstance a _ => expected_name h (count q) = Some (ca_name a)
  | _ => True
  end /\
  match awaiting q with
  | Some n => exists ii, e = EvInstancePut ii /\ ii_name ii = n
  | None => True
  end.

(** What an exception tells about the monitor: no InstanceRecord is
    outstanding; a [ClusterSetUpError] leaves no address pending; after a
    failed create the exception is the [ClusterSetUpError] that names the
    instance. *)
Definition raised (h : HadoopCluster) (e : exn) (q : pstate) : Prop :=
  awaiting q = None /\
  (forall msg, e = ClusterSetUpError msg -> mon q = Idle) /\
  (failed q = true ->
   exists n, e = ClusterSetUpError ("Failed to start instance " +:+ n) /\
             expected_name h (count q - 1) = Some n).

(** [post_to h R]: on return the monitor state satisfies [R]; on an
    exception, [raised]. *)
Definition post_to {A} (h : HadoopCluster) (R : A -> pstate -> Prop)
  : exn + A -> pstate -> Prop :=
  fun o q =>
    match o with
    | inr a => R a q
    | inl e => raised h e q
    end.

Definition at_rest (c : nat) : pstate :=
  {| mon := Idle; count := c; failed := false; awaiting := None |}.

Section ForSeq.

Context {Q : Type}.
Variable next : Q -> event -> Q.
Variable allowed : Q -> event -> Prop.
Variable I : state -> Prop.
Local Abbreviation T := (triple next allowed I).

(** A loop over [f a, f (a+1), ...] with an invariant that follows the
    position. *)
Lemma triple_for_seq {A} (inv : nat -> Q -> Prop) (f : nat -> A)
    (body : A -> M unit) post (a n : nat) q :
  inv a q ->
  (forall i q', (a <= i < a + n)%nat -> inv i q' ->
     T q' (body (f i))
       (fun o q'' => match o with
                     | inr _ => inv (S i) q''
                     | inl e => post (inl e) q''
                     end)) ->
  (forall q', inv (a + n)%nat q' -> post (inr tt) q') ->
  T q (for_each (f <$> seq a n) body) post.
Proof.
  revert a q. induction n as [|n IH]; intros a q Hq Hbody Hdone; simpl.
  - apply triple_ret. apply Hdone. by rewrite Nat.add_0_r.
  - apply triple_bind.
    eapply triple_conseq; [apply (Hbody a q); [lia|done]|].
    intros [e|[]] q' Hq'; [done|].
    apply IH; [done| |].
    + intros i q'' Hi. apply Hbody. lia.
    + intros q'' Hq''. apply Hdone.
      by replace (a + S n)%nat with (S a + n)%nat by lia.
Qed.

End ForSeq.

(** Every run of the guarded part of [StartHadoopCluster] follows the
    protocol, for any invariant [I] of the state that the registry writes
    of the run preserve. *)
Section Protocol.

Variable E : env.
Variable h0 : HadoopCluster.
Variable I : state -> Prop.

Hypothesis I_log : forall e s, registry_write e = false -> I s -> I (log e s).
Hypothesis I_master : forall s, I s -> master_name (self s) = master_name h0.
Hypothesis I_template :
  forall s, I s -> worker_name_template (self s) = worker_name_template h0.
Hypothesis I_cluster_info : forall s, I s -> cluster_info (self s) <> None.
Hypothesis I_names :
  forall s n ii, I s -> ds_instances (ds s) !! n = Some ii -> ii_name ii = n.
Hypothesis I_put_new :
  forall n role key s, I s ->
    I (final_state (InstanceInfo_put
         {| ii_name := n; ii_role := role; ii_rpckey := key;
            ii_external_ip := JNull |} s)).
Hypothesis I_SetMasterInstance :
  forall ii s, I s -> I (final_state (SetMasterInstance ii s)).
Hypothesis I_record :
  forall ii s, I s -> I (final_state (record_instance ii s)).
Hypothesis I_SetMasterIpAddress :
  forall ip s, I s -> I (final_state (SetMasterIpAddress ip s)).
Hypothesis I_persist :
  forall s n ii ip s',
    I s -> ds_instances (ds s) !! n = Some ii -> I s' ->
    I (final_state (InstanceInfo_put (set_external_ip ip ii) s')).

Local Abbreviation T := (triple p_next (p_allowed h0) I).

Lemma at_rest_raised c e : raised h0 e (at_rest c).
Proof. split; [done|]. split; [done|]. intros Hf. discriminate. Qed.

Lemma triple_record_instance q ii post :
  post (inr tt) q ->
  T q (record_instance ii) post.
Proof.
  intros Hp.
  apply (triple_silent p_next (p_allowed h0) I q
           (fun s => with_self
                       (set_instances
                          (<[ii_name ii := ii]> (instances (self s)))
                          (self s)) s)); [done| |done].
  intros s Hs. apply (I_record ii s Hs).
Qed.

Lemma StartInstance_protocol name role c :
  expected_name h0 c = Some name ->
  T (at_rest c) (_StartInstance E name role false)
    (post_to h0 (fun _ q => q = at_rest (S c))).
Proof.
  intros Hname. unfold _StartInstance.
  apply triple_get_self. intros h (s & Hs & <-).
  apply triple_bind, triple_ret.
  apply triple_bind, triple_call_uuid4; [done|]. intros rpckey. split; [done|].
  destruct (dict_get INSTANCE_ROLES role) as [commands|].
  2:{ apply triple_raise, at_rest_raised. }
  apply triple_bind, triple_call_CreateInstance; [done|].
  intros [|]; (split; [done|]); cbn [negb].
  2:{ apply triple_raise. split; [done|]. split; [done|].
      intros _. exists name. simpl. by rewrite Nat.sub_0_r. }
  destruct (cluster_info (self s)) eqn:Hci.
  2:{ by apply I_cluster_info in Hci. }
  apply triple_bind, triple_InstanceInfo_put; [auto| |].
  { repeat split. by eexists. }
  apply triple_bind.
  destruct (String.eqb role "master").
  - apply triple_SetMasterInstance; [auto|done| |apply (at_rest_raised (S c))].
    apply triple_record_instance; done.
  - apply triple_ret.
    apply triple_record_instance; done.
Qed.

Lemma StartMaster_protocol :
  T (at_rest 0) (_StartMaster E) (post_to h0 (fun _ q => q = at_rest 1)).
Proof.
  unfold _StartMaster. apply triple_get_self. intros h (s & Hs & <-).
  apply StartInstance_protocol. simpl. by rewrite (I_master s Hs).
Qed.

Lemma start_worker_protocol (k : nat) :
  T (at_rest (S k)) (start_worker E (Z.of_nat k))
    (post_to h0 (fun _ q => q = at_rest (S (S k)))).
Proof.
  unfold start_worker. apply triple_get_self. intros h (s & Hs & <-).
  apply triple_lift.
  assert (_WorkerName (self s) (Z.of_nat k) = _WorkerName h0 (Z.of_nat k))
    as Hw by (unfold _WorkerName; by rewrite (I_template s Hs)).
  destruct (_WorkerName (self s) (Z.of_nat k)) as [e|wn] eqn:Hwn.
  - apply at_rest_raised.
  - apply StartInstance_protocol. simpl. by rewrite <- Hw.
Qed.

Lemma StartWorkers_protocol :
  T (at_rest 1) (_StartWorkers E)
    (post_to h0 (fun _ q => exists c, q = at_rest c)).
Proof.
  unfold _StartWorkers. apply triple_get_self. intros h _.
  apply triple_lift. destruct (num_workers h) as [|n|]; simpl;
    try apply at_rest_raised.
  destruct (fits_long n); [|apply at_rest_raised].
  apply (triple_for_seq p_next (p_allowed h0) I
           (fun i q => q = at_rest (S i))); [done| |].
  - intros i q' _ ->. apply start_worker_protocol.
  - intros q' ->. by eexists.
Qed.

(** The waiting phase makes no [CreateInstance] call: the count stays. *)
Lemma WaitForExternalIp_loop_protocol n name c :
  T (at_rest c) (_WaitForExternalIp_loop E n name)
    (fun o q =>
       count q = c /\
       post_to h0 (fun ip q =>
         q = {| mon := Pending name ip; count := c; failed := false;
                awaiting := None |}) o q).
Proof.
  induction n as [|n IH]; simpl.
  - apply triple_raise. split; [done|]. apply at_rest_raised.
  - apply triple_bind, triple_call_GetInstance; [done|].
    intros instance. split; [done|].
    unfold p_next; simpl. unfold discovered.
    destruct (json_truthy instance).
    + destruct (natIP_of instance) as [e|ip].
      * destruct e;
          try (apply triple_raise; split; [done|]; apply at_rest_raised);
          (apply triple_bind, triple_sleep; [done|done|exact IH]).
      * apply triple_ret. done.
    + apply triple_bind, triple_sleep; [done|done|exact IH].
Qed.

Lemma wait_worker_protocol i c :
  T (at_rest c) (wait_worker E i)
    (fun o q => count q = c /\ post_to h0 (fun _ q => q = at_rest c) o q).
Proof.
  unfold wait_worker. apply triple_get_self. intros h _.
  apply triple_lift. destruct (_WorkerName h i) as [e|wn].
  { split; [done|]. apply at_rest_raised. }
  apply triple_bind.
  eapply triple_conseq; [apply WaitForExternalIp_loop_protocol|].
  intros [e|ip] q; [done|]. intros [_ ->].
  apply triple_bind, triple_InstanceInfo_GetByName; [done|done|].
  intros s Hs. destruct (ds_instances (ds s) !! wn) as [ii|] eqn:Hii.
  2:{ apply triple_raise. split; [done|]. split; [done|]. split; [done|].
      intros Hf. discriminate. }
  apply triple_InstanceInfo_put; [| |done].
  - intros s' Hs'. by apply (I_persist s wn ii ip s').
  - repeat split. simpl. by apply (I_names s).
Qed.

Lemma RunCommandAtRemote_protocol name args c :
  T (at_rest c) (_RunCommandAtRemote E name args) (fun _ q => q = at_rest c).
Proof.
  unfold _RunCommandAtRemote.
  apply triple_bind, triple_InstanceInfo_GetByName; [done|done|].
  intros s Hs. destruct (ds_instances (ds s) !! name) as [ii|].
  2:{ by apply triple_raise. }
  unfold _HttpRequest. destruct (json_str (ii_external_ip ii)).
  2:{ by apply triple_raise. }
  apply triple_call_fetch; [done|]. intros r. by split.
Qed.

Lemma warm_up_attempt_protocol c :
  T (at_rest c) (warm_up_attempt E) (fun _ q => q = at_rest c).
Proof.
  unfold warm_up_attempt. apply triple_get_self. intros h _.
  apply triple_except_DownloadError, triple_bind.
  eapply triple_conseq; [apply RunCommandAtRemote_protocol|].
  intros [e|response] q ->.
  - by destruct e.
  - destruct (fst response =? 200); [|by apply triple_ret].
    destruct (negb _); [by apply triple_ret|by apply triple_raise].
Qed.

Lemma warm_up_loop_protocol n c :
  T (at_rest c) (warm_up_loop E n) (fun _ q => q = at_rest c).
Proof.
  induction n as [|n IH]; simpl.
  - by apply triple_raise.
  - apply triple_bind.
    eapply triple_conseq; [apply warm_up_attempt_protocol|].
    intros [e|finished] q ->; [done|].
    destruct finished; [by apply triple_ret|].
    apply triple_bind, triple_sleep; [done|done|exact IH].
Qed.

Lemma WaitForInstances_protocol c :
  T (at_rest c) (_WaitForInstances E)
    (fun o q => count q = c /\ post_to h0 (fun _ q => q = at_rest c) o q).
Proof.
  unfold _WaitForInstances. apply triple_get_self. intros h (s & Hs & <-).
  apply triple_bind.
  eapply triple_conseq; [apply WaitForExternalIp_loop_protocol|].
  intros [e|ip] q; [done|]. intros [_ ->].
  apply triple_bind, triple_SetMasterIpAddress; [auto| | |].
  { repeat split. simpl. by apply I_master. }
  2:{ split; [done|]. split; [done|]. split; [done|].
      intros Hf. discriminate. }
  change (p_next _ (EvSetMasterIpAddress ip)) with (at_rest c).
  apply triple_lift. destruct (xrange (num_workers (self s))) as [e|indices].
  { split; [done|]. apply at_rest_raised. }
  apply triple_bind.
  apply (triple_for_each p_next (p_allowed h0) I (fun q => q = at_rest c));
    [done| |].
  - intros i q' _ ->.
    eapply triple_conseq; [apply wait_worker_protocol|].
    intros [e|[]] q [Hc Hq]; [by split|exact Hq].
  - intros q' ->.
    eapply triple_conseq;
      [apply (warm_up_loop_protocol MASTER_WARM_UP_MAX_CHECK_TIMES c)|].
    intros [e|[]] q ->; (split; [done|]); [apply at_rest_raised|done].
Qed.

(** The guarded part of [StartHadoopCluster] after the ClusterRecord is
    stored. *)
Lemma provision_and_wait_protocol :
  T (at_rest 0)
    (_StartMaster E ;; _StartWorkers E ;; _WaitForInstances E)
    (post_to h0 (fun _ q => exists c, q = at_rest c)).
Proof.
  apply triple_bind.
  eapply triple_conseq; [apply StartMaster_protocol|].
  intros [e|[]] q; [done|]. intros ->.
  apply triple_bind.
  eapply triple_conseq; [apply StartWorkers_protocol|].
  intros [e|[]] q; [done|]. intros [c ->].
  eapply triple_conseq; [apply WaitForInstances_protocol|].
  intros [e|[]] q [_ Hq]; [done|]. simpl in Hq. subst q. by exists c.
Qed.

End Protocol.

(** ** What an accepted trace tells *)

Fixpoint created_names (evs : list event) : list string :=
  match evs with
  | [] => []
  | EvCreateInstance a _ :: rest => ca_name a :: created_names rest
  | _ :: rest => created_names rest
  end.

Section ProtocolFacts.

Variable h : HadoopCluster.
Local Abbreviation acc := (accepted p_next (p_allowed h)).
Local Abbreviation runp := (run p_next).

Lemma accepted_body_calls q evs :
  acc q evs -> Forall (fun e => body_call e = true) evs.
Proof.
  revert q. induction evs as [|e evs IH]; intros q; simpl.
  - constructor.
  - intros [(Hb & _) Hacc]. constructor; [done|]. by apply (IH _ Hacc).
Qed.


Lemma accepted_after_failure q evs :
  acc q evs -> failed q = true -> evs = [].
Proof.
  destruct evs as [|e evs]; [done|]. simpl.
  intros [(_ & _ & Hf & _) _] Hq. congruence.
Qed.

Lemma accepted_failed_last q evs a :
  acc q evs -> In (EvCreateInstance a false) evs ->
  exists pre,
    evs = (pre ++ [EvCreateInstance a false])%list /\
    failed (runp q evs) = true /\
    expected_name h (count (runp q evs) - 1) = Some (ca_name a).
Proof.
  revert q. induction evs as [|e evs IH]; intros q; simpl; [done|].
  intros [Hal Hacc] [->|Hin].
  - exists []. destruct Hal as (_ & _ & _ & Hn & _).
    rewrite (accepted_after_failure _ _ Hacc eq_refl). simpl.
    by rewrite Nat.sub_0_r.
  - destruct (IH _ Hacc Hin) as (pre & -> & Hf & Hn).
    exists (e :: pre). done.
Qed.

Lemma accepted_created_names q evs j n :
  acc q evs -> created_names evs !! j = Some n ->
  expected_name h (count q + j) = Some n.
Proof.
  revert q j. induction evs as [|e evs IH]; intros q j; simpl; [done|].
  intros [Hal Hacc] Hj.
  destruct e; try (specialize (IH _ _ Hacc Hj); exact IH).
  destruct j as [|j]; simpl in Hj.
  - injection Hj as <-. destruct Hal as (_ & _ & _ & Hn & _).
    by rewrite Nat.add_0_r.
  - specialize (IH _ _ Hacc Hj). simpl in IH.
    by replace (count q + S j)%nat with (S (count q + j)) by lia.
Qed.

Lemma accepted_create_recorded q evs a :
  acc q evs -> awaiting (runp q evs) = None ->
  In (EvCreateInstance a true) evs ->
  exists ii, In (EvInstancePut ii) evs /\ ii_name ii = ca_name a.
Proof.
  revert q. induction evs as [|e evs IH]; intros q; simpl; [done|].
  intros [Hal Hacc] Hend [->|Hin].
  - destruct evs as [|e' evs]; [done|].
    destruct Hacc as [(_ & _ & _ & _ & (ii & -> & Hii)) _].
    exists ii. split; [|done]. right. by left.
  - destruct (IH _ Hacc Hend Hin) as (ii & ? & ?). exists ii. auto.
Qed.

End ProtocolFacts.

Definition names_consistent (d : datastore) : Prop :=
  forall n ii, ds_instances d !! n = Some ii -> ii_name ii = n.

(** The calls made since the trace was [t0]. *)
Definition calls_since (t0 : trace) (s : state) : list event :=
  drop (length t0) (tr s).

Definition run_inv (h0 : HadoopCluster) (t0 : trace) (s : state) : Prop :=
  master_name (self s) = master_name h0 /\
  worker_name_template (self s) = worker_name_template h0 /\
  cluster_info (self s) <> None /\
  names_consistent (ds s) /\
  (length t0 <= length (tr s))%nat /\
  forall ii, In (EvInstancePut ii) (calls_since t0 s) ->
             is_Some (ds_instances (ds s) !! ii_name ii).

Section RunInv.

Variable h0 : HadoopCluster.
Variable t0 : trace.
Local Abbreviation I := (run_inv h0 t0).

Lemma calls_since_log e s :
  (length t0 <= length (tr s))%nat ->
  calls_since t0 (log e s) = (calls_since t0 s ++ [e])%list.
Proof.
  intros Hle. unfold calls_since. simpl. by rewrite drop_app_le.
Qed.

Lemma run_inv_log e s : registry_write e = false -> I s -> I (log e s).
Proof.
  intros He (Hm & Ht & Hc & Hn & Hl & Hp).
  repeat split; try done.
  - simpl. rewrite length_app. lia.
  - intros ii. rewrite calls_since_log by done.
    rewrite in_app_iff. intros [Hin|[Heq|[]]]; [by apply Hp|by subst].
Qed.

Lemma run_inv_put ii s :
  I s -> I (final_state (InstanceInfo_put ii s)).
Proof.
  intros (Hm & Ht & Hc & Hn & Hl & Hp). simpl.
  repeat split; try done.
  - intros n ii'. simpl. intros Hlook.
    apply lookup_insert_Some in Hlook as [[<- <-]|[_ Hlook]]; [done|].
    by apply Hn.
  - simpl. rewrite length_app. lia.
  - intros ii'.
    change (calls_since t0 _) with (calls_since t0 (log (EvInstancePut ii) s)).
    rewrite calls_since_log by done. simpl.
    rewrite in_app_iff. intros [Hin|[Heq|[]]].
    + destruct (decide (ii_name ii = ii_name ii')) as [->|Hne].
      * rewrite lookup_insert_eq. by eexists.
      * rewrite lookup_insert_ne by done. by apply Hp.
    + injection Heq as <-. rewrite lookup_insert_eq. by eexists.
Qed.

Lemma run_inv_SetMasterInstance ii s :
  I s -> I (final_state (SetMasterInstance ii s)).
Proof.
  intros (Hm & Ht & Hc & Hn & Hl & Hp). unfold SetMasterInstance.
  destruct (cluster_info (self s)); [|done]. simpl.
  repeat split; try done.
  - simpl. rewrite length_app. lia.
  - intros ii'.
    change (calls_since t0 _)
      with (calls_since t0 (log (EvSetMasterInstance (ii_name ii)) s)).
    rewrite calls_since_log by done. simpl.
    rewrite in_app_iff. intros [Hin|[Heq|[]]]; [by apply Hp|done].
Qed.

Lemma run_inv_record ii s :
  I s -> I (final_state (record_instance ii s)).
Proof. intros (Hm & Ht & Hc & Hn & Hl & Hp). by repeat split. Qed.

Lemma run_inv_SetMasterIpAddress ip s :
  I s -> I (final_state (SetMasterIpAddress ip s)).
Proof.
  intros (Hm & Ht & Hc & Hn & Hl & Hp). unfold SetMasterIpAddress.
  destruct (cluster_info (self s)) as [ci|] eqn:Hci; [|done]. simpl.
  set (insts := match ci !! "master" with
                | Some (PStr m) => alter (set_external_ip ip) m (ds_instances (ds s))
                | _ => ds_instances (ds s)
                end).
  assert (forall n, insts !! n = None -> ds_instances (ds s) !! n = None)
    as Hnone.
  { intros n. unfold insts. destruct (ci !! "master") as [[| |m]|]; try done.
    rewrite lookup_alter. case_decide; [|done]. subst.
    by destruct (ds_instances (ds s) !! n). }
  assert (forall n ii, insts !! n = Some ii -> ii_name ii = n) as Hnames.
  { intros n ii. unfold insts.
    destruct (ci !! "master") as [[| |m]|]; try apply Hn.
    rewrite lookup_alter. case_decide; [|apply Hn]. subst.
    destruct (ds_instances (ds s) !! n) as [ii0|] eqn:Hii0; [|done].
    simpl. intros [= <-]. simpl. by apply Hn. }
  repeat split; try done.
  - simpl. by rewrite Hci.
  - simpl. rewrite length_app. lia.
  - intros ii'.
    change (calls_since t0 _)
      with (calls_since t0 (log (EvSetMasterIpAddress ip) s)).
    rewrite calls_since_log by done. simpl.
    rewrite in_app_iff. intros [Hin|[Heq|[]]]; [|done].
    destruct (insts !! ii_name ii') eqn:Hlook; [by eexists|].
    apply Hnone in Hlook. destruct (Hp ii' Hin) as [x Hx]. congruence.
Qed.

Lemma run_inv_persist s n ii ip s' :
  I s -> ds_instances (ds s) !! n = Some ii -> I s' ->
  I (final_state (InstanceInfo_put (set_external_ip ip ii) s')).
Proof. intros _ _ Hs'. by apply run_inv_put. Qed.

End RunInv.

(** ** The run of [StartHadoopCluster] *)

Section StartRun.

Variable E : env.

Definition stored_ClusterInfo (s : state) : state :=
  log (EvClusterPut (new_ClusterInfo (self s)))
    (with_ds {| ds_cluster := Some (new_ClusterInfo (self s));
                ds_instances := ds_instances (ds s) |}
       (with_self (set_cluster_info (Some (new_ClusterInfo (self s)))
                     (self s)) s)).

Lemma start_sequence_unfold s :
  start_sequence E s
  = bind (_StartMaster E)
      (fun _ => bind (_StartWorkers E) (fun _ => _WaitForInstances E))
      (stored_ClusterInfo s).
Proof. reflexivity. Qed.

Lemma run_inv_stored s :
  names_consistent (ds s) ->
  run_inv (self s) (tr s) (stored_ClusterInfo s).
Proof.
  intros Hn. repeat split; try done.
  - simpl. rewrite length_app. lia.
  - intros ii. unfold calls_since. simpl.
    rewrite drop_app_length. intros [Heq|[]]. done.
Qed.

(** The run of the guarded part: the ClusterRecord is stored, then the
    calls follow the protocol. *)
Lemma start_sequence_run s :
  names_consistent (ds s) ->
  exists evs,
    tr (final_state (start_sequence E s))
      = (tr s ++ EvClusterPut (new_ClusterInfo (self s)) :: evs)%list /\
    accepted p_next (p_allowed (self s)) (at_rest 0) evs /\
    post_to (self s) (fun _ q => exists c, q = at_rest c)
      (outcome (start_sequence E s)) (run p_next (at_rest 0) evs) /\
    run_inv (self s) (tr s) (final_state (start_sequence E s)).
Proof.
  intros Hn. rewrite start_sequence_unfold.
  destruct (provision_and_wait_protocol E (self s)
              (run_inv (self s) (tr s))
              (run_inv_log _ _)
              ltac:(by intros ? (? & _))
              ltac:(by intros ? (_ & ? & _))
              ltac:(by intros ? (_ & _ & ? & _))
              ltac:(intros ? ? ? (_ & _ & _ & Hx & _); apply Hx)
              ltac:(intros; by apply run_inv_put)
              (run_inv_SetMasterInstance _ _)
              (run_inv_record _ _)
              (run_inv_SetMasterIpAddress _ _)
              (run_inv_persist _ _)
              (stored_ClusterInfo s) (run_inv_stored s Hn))
    as (evs & Htr & Hacc & Hpost & Hinv).
  exists evs. split; [|done].
  rewrite Htr. simpl. by rewrite <- app_assoc.
Qed.

Lemma calls_since_app t0 s evs :
  tr s = (t0 ++ evs)%list -> calls_since t0 s = evs.
Proof. intros H. unfold calls_since. rewrite H. apply drop_app_length. Qed.

Lemma created_names_app a b :
  created_names (a ++ b) = (created_names a ++ created_names b)%list.
Proof.
  induction a as [|e a IH]; [done|]. destruct e; simpl; by rewrite ?IH.
Qed.

(** The handler of [StartHadoopCluster] after a [ClusterSetUpError]. *)
Lemma handler_run s msg s1 :
  start_sequence E s = Raise (ClusterSetUpError msg) s1 ->
  cluster_info (self s1) <> None ->
  exists s2 ci,
    StartHadoopCluster E s = Ok tt s2 /\
    tr s2 = (tr s1 ++ [EvSetStatus ("ERROR: " +:+ msg)])%list /\
    ds_cluster (ds s2) = Some ci /\
    ci !! "status" = Some (PStr ("ERROR: " +:+ msg)) /\
    ds_instances (ds s2) = ds_instances (ds s1).
Proof.
  intros Hseq Hci. unfold StartHadoopCluster, except_ClusterSetUpError.
  rewrite Hseq. unfold SetStatus.
  destruct (cluster_info (self s1)) as [ci|]; [|done].
  eexists _, _. split; [reflexivity|]. simpl.
  split; [done|]. split; [done|]. split; [|done].
  apply lookup_insert_eq.
Qed.

Lemma classic_exn (e : exn) :
  (exists msg, e = ClusterSetUpError msg) \/
  (forall msg, e <> ClusterSetUpError msg).
Proof. destruct e; eauto; right; intros msg; discriminate. Qed.


(** C5.  When a [CreateInstance] call of a [StartHadoopCluster] run fails,
    the run ends there: the failed call is the last call of the guarded
    part and is followed only by the status write
    [ERROR: Failed to start instance <name>], which the ClusterRecord then
    holds; the instances were created in the order master, worker 0,
    worker 1, ...; no instance and no record is deleted; and every instance
    created before the failure still has its InstanceRecord. *)
Theorem create_failure_is_fatal s a :
  names_consistent (ds s) ->
  In (EvCreateInstance a false)
     (calls_since (tr s) (final_state (StartHadoopCluster E s))) ->
  let status := "ERROR: Failed to start instance " +:+ ca_name a in
  let calls := calls_since (tr s) (final_state (StartHadoopCluster E s)) in
  exists s' pre ci,
    StartHadoopCluster E s = Ok tt s' /\
    calls = (pre ++ [EvCreateInstance a false; EvSetStatus status])%list /\
    ds_cluster (ds s') = Some ci /\ ci !! "status" = Some (PStr status) /\
    (forall j n, created_names calls !! j = Some n ->
                 expected_name (self s) j = Some n) /\
    (forall e, In e calls ->
               match e with
               | EvDeleteInstance _ | EvClusterKeyDelete => False
               | _ => True
               end) /\
    (forall a', In (EvCreateInstance a' true) calls ->
                is_Some (ds_instances (ds s') !! ca_name a')).
Proof.
  intros Hn Hin. cbv zeta.
  destruct (start_sequence_run s Hn) as (evs & Htr & Hacc & Hpost & Hinv).
  pose proof (accepted_body_calls _ _ _ Hacc) as Hbody.
  rewrite Forall_forall in Hbody.
  destruct (start_sequence E s) as [[] s1|e s1] eqn:Hseq; simpl in *.
  - (* the guarded part returned: no create can have failed *)
    exfalso. revert Hin.
    unfold StartHadoopCluster, except_ClusterSetUpError. rewrite Hseq. simpl.
    rewrite (calls_since_app _ _ _ Htr). intros [Hin|Hin]; [done|].
    destruct (accepted_failed_last _ _ _ _ Hacc Hin) as (pre & _ & Hf & _).
    destruct Hpost as [c Hc]. rewrite Hc in Hf. done.
  - destruct Hpost as (Haw & _ & Hraised).
    destruct (classic_exn e) as [[msg ->]|Hne].
    + destruct Hinv as (_ & _ & Hci & _ & _ & Hputs).
      destruct (handler_run s msg s1 Hseq Hci)
        as (s2 & ci & Hrun & Htr2 & Hds & Hst & Hinsts).
      rewrite Hrun in Hin |- *. simpl in Hin |- *.
      assert (tr s2 = (tr s ++ (EvClusterPut (new_ClusterInfo (self s)) :: evs
                                ++ [EvSetStatus ("ERROR: " +:+ msg)]))%list)
        as Htotal.
      { rewrite Htr2, Htr. by rewrite <- app_assoc. }
      rewrite (calls_since_app _ _ _ Htotal) in Hin |- *.
      destruct Hin as [Hin|Hin]; [done|].
      apply in_app_iff in Hin as [Hin|[Hin|[]]]; [|done].
      destruct (accepted_failed_last _ _ _ _ Hacc Hin)
        as (pre & Hevs & Hf & Hname).
      destruct (Hraised Hf) as (n & [= ->] & Hn').
      assert (n = ca_name a) as -> by congruence.
      exists s2, (EvClusterPut (new_ClusterInfo (self s)) :: pre), ci.
      split; [done|]. split.
      { rewrite Hevs. simpl. by rewrite <- app_assoc. }
      split; [done|]. split; [done|]. split; [|split].
      * intros j n. simpl. rewrite created_names_app. simpl.
        rewrite app_nil_r. intros Hj.
        apply (accepted_created_names _ _ _ _ _ Hacc Hj).
      * intros e [<-|He]; [done|].
        apply in_app_iff in He as [He|[<-|[]]]; [|done].
        apply list_elem_of_In, Hbody in He. by destruct e.
      * intros a' [Ha'|Ha']; [done|].
        apply in_app_iff in Ha' as [Ha'|[Ha'|[]]]; [|done].
        destruct (accepted_create_recorded _ _ _ _ Hacc Haw Ha')
          as (ii & Hii & <-).
        rewrite Hinsts. apply Hputs.
        rewrite (calls_since_app _ _ _ Htr). by right.
    + exfalso. revert Hin.
      assert (StartHadoopCluster E s = Raise e s1) as ->.
      { unfold StartHadoopCluster, except_ClusterSetUpError. rewrite Hseq.
        destruct e; try done. by destruct (Hne msg). }
      simpl. rewrite (calls_since_app _ _ _ Htr). intros [Hin|Hin]; [done|].
      destruct (accepted_failed_last _ _ _ _ Hacc Hin) as (pre & _ & Hf & _).
      destruct (Hraised Hf) as (n & -> & _). exact (Hne _ eq_refl).
Qed.

End StartRun.

(** ** Concrete runs and polling *)

Definition event_kind (e : event) : string :=
  match e with
  | EvGetDisk _ _ => "GetDisk"
  | EvCreatePersistentDisk _ _ _ _ => "CreatePersistentDisk"
  | EvCreateInstance _ _ => "CreateInstance"
  | EvGetInstance _ _ => "GetInstance"
  | EvListInstances _ _ => "ListInstances"
  | EvDeleteInstance _ => "DeleteInstance"
  | EvUuid4 _ => "uuid4"
  | EvFetch _ _ => "fetch"
  | EvSleep _ => "sleep"
  | EvClusterPut _ => "ClusterInfo.put"
  | EvSetStatus _ => "SetStatus"
  | EvSetMasterInstance _ => "SetMasterInstance"
  | EvSetMasterIpAddress _ => "SetMasterIpAddress"
  | EvInstancePut _ => "InstanceInfo.put"
  | EvInstanceGetByName _ => "InstanceInfo.GetByName"
  | EvClusterKeyDelete => "ClusterInfo.key.delete"
  end.

(** The calls to the compute provider. *)
Definition provider_call (e : event) : bool :=
  match e with
  | EvGetDisk _ _ | EvCreatePersistentDisk _ _ _ _ | EvCreateInstance _ _
  | EvGetInstance _ _ | EvListInstances _ _ | EvDeleteInstance _ => true
  | _ => false
  end.

(** A descriptor whose first access configuration carries [ip]. *)
Definition descriptor_with_ip (ip : string) : json :=
  JDict [("name", JStr "node");
         ("networkInterfaces",
          JList [JDict [("accessConfigs",
                         JList [JDict [("natIP", JStr ip)]])]])].

(** A descriptor of an instance that has no access configuration yet. *)
Definition descriptor_without_ip : json :=
  JDict [("name", JStr "node");
         ("networkInterfaces", JList [JDict [("network", JStr "default")]])].

Definition count_calls (kind : string) (t : trace) : nat :=
  length (List.filter (fun e => String.eqb (event_kind e) kind) t).

(** A provider on which every step succeeds at once. *)
Definition smooth_env : env :=
  {| GetDisk := fun _ _ => JNull;
     CreatePersistentDisk := fun _ _ _ _ => true;
     CreateInstance := fun _ _ => true;
     GetInstance := fun _ _ => descriptor_with_ip "10.0.0.1";
     ListInstances := fun _ _ => [];
     fetch := fun _ _ => FetchResponse 200 "success";
     uuid4 := fun _ => "key";
     urlencode := fun _ => "command=cat&key=key";
     cloud_storage_bucket := "bucket" |}.

Definition example_args (p : string) (n : Z) : init_args :=
  {| arg_project := PStr "project"; arg_name := PStr "cluster";
     arg_prefix := PStr p; arg_zone := PStr "zone";
     arg_machinetype := PStr "n1-standard-1"; arg_image := PStr "image";
     arg_network := PStr "default"; arg_num_workers := PInt n;
     arg_custom_command := PStr "" |}.

(** The state in which a freshly constructed orchestrator starts, with an
    empty registry and no call made. *)
Definition fresh_state (h : HadoopCluster) : state :=
  {| self := h;
     ds := {| ds_cluster := None; ds_instances := ∅ |};
     tr := [] |}.

(** *** IP discovery *)

(** A descriptor without an external address, as [_WaitForExternalIp]
    recognises it: it is falsy, or the path to [natIP] ends in a missing key
    or an index out of range. *)
Definition lacks_address (d : json) : Prop :=
  json_truthy d = false \/ natIP_of d = inl KeyError \/
  natIP_of d = inl IndexError.

Section IpDiscovery.

Variable E : env.
Variable instance_name : string.

(** The trace before the [j]-th poll (counting from 0) of a discovery that
    started with trace [t0] and found no address so far. *)
Fixpoint ip_poll_trace (t0 : trace) (j : nat) : trace :=
  match j with
  | O => t0
  | S j' =>
      (ip_poll_trace t0 j' ++
       [EvGetInstance instance_name
          (GetInstance E (ip_poll_trace t0 j') instance_name);
        EvSleep INSTANCE_IP_ADDRESS_CHECK_INTERVAL])%list
  end.

(** The provider's answer to the [j]-th poll. *)
Definition ip_poll_answer (t0 : trace) (j : nat) : json :=
  GetInstance E (ip_poll_trace t0 j) instance_name.

Definition with_tr (t : trace) (s : state) : state :=
  {| self := self s; ds := ds s; tr := t |}.

Lemma ip_poll_trace_shift t0 j :
  ip_poll_trace
    (t0 ++ [EvGetInstance instance_name (GetInstance E t0 instance_name);
            EvSleep INSTANCE_IP_ADDRESS_CHECK_INTERVAL])%list j
  = ip_poll_trace t0 (S j).
Proof. induction j as [|j IH]; [done|]. simpl. by rewrite IH. Qed.

Lemma lacks_address_step n d s :
  lacks_address d ->
  GetInstance E (tr s) instance_name = d ->
  _WaitForExternalIp_loop E (S n) instance_name s
  = _WaitForExternalIp_loop E n instance_name
      (with_tr (tr s ++ [EvGetInstance instance_name d;
                         EvSleep INSTANCE_IP_ADDRESS_CHECK_INTERVAL])%list s).
Proof.
  intros Hl Hd. simpl. unfold bind, call_GetInstance. rewrite Hd. cbv zeta.
  assert (forall s', sleep INSTANCE_IP_ADDRESS_CHECK_INTERVAL s'
                     = Ok tt (log (EvSleep INSTANCE_IP_ADDRESS_CHECK_INTERVAL) s'))
    as Hsleep by done.
  assert (log (EvSleep INSTANCE_IP_ADDRESS_CHECK_INTERVAL)
              (log (EvGetInstance instance_name d) s)
          = with_tr (tr s ++ [EvGetInstance instance_name d;
                              EvSleep INSTANCE_IP_ADDRESS_CHECK_INTERVAL])%list s)
    as Hst.
  { unfold log, with_tr. simpl. by rewrite <- app_assoc. }
  destruct Hl as [Hf|[Hk|Hi]].
  - rewrite Hf, Hsleep. by rewrite Hst.
  - destruct (json_truthy d); rewrite ?Hk, Hsleep; by rewrite Hst.
  - destruct (json_truthy d); rewrite ?Hi, Hsleep; by rewrite Hst.
Qed.

Lemma found_address_step n d ip s :
  discovered d = Some ip ->
  GetInstance E (tr s) instance_name = d ->
  _WaitForExternalIp_loop E (S n) instance_name s
  = Ok ip (log (EvGetInstance instance_name d) s).
Proof.
  unfold discovered. intros Hd Hg. simpl. unfold bind, call_GetInstance.
  rewrite Hg. cbv zeta. destruct (json_truthy d); [|done].
  destruct (natIP_of d); [done|]. by injection Hd as ->.
Qed.

Lemma poll_until_found k : forall n s ip,
  (k < n)%nat ->
  (forall j, (j < k)%nat -> lacks_address (ip_poll_answer (tr s) j)) ->
  discovered (ip_poll_answer (tr s) k) = Some ip ->
  _WaitForExternalIp_loop E n instance_name s
  = Ok ip (with_tr (ip_poll_trace (tr s) k ++
                    [EvGetInstance instance_name (ip_poll_answer (tr s) k)])%list
             s).
Proof.
  induction k as [|k IH]; intros n s ip Hn Hlack Hfound.
  - destruct n as [|n]; [lia|].
    by rewrite (found_address_step n _ ip s Hfound eq_refl).
  - destruct n as [|n]; [lia|].
    rewrite (lacks_address_step n _ s (Hlack 0%nat ltac:(lia)) eq_refl).
    rewrite (IH n _ ip); simpl; try lia.
    + unfold ip_poll_answer. by rewrite !ip_poll_trace_shift.
    + intros j Hj. unfold ip_poll_answer. rewrite ip_poll_trace_shift.
      apply (Hlack (S j)). lia.
    + unfold ip_poll_answer. rewrite ip_poll_trace_shift. exact Hfound.
Qed.

Lemma poll_until_timeout n : forall s,
  (forall j, (j < n)%nat -> lacks_address (ip_poll_answer (tr s) j)) ->
  _WaitForExternalIp_loop E n instance_name s
  = Raise (ClusterSetUpError
             ("External IP address time out for " +:+ instance_name))
          (with_tr (ip_poll_trace (tr s) n) s).
Proof.
  induction n as [|n IH]; intros s Hlack.
  - simpl. unfold raise. by destruct s.
  - rewrite (lacks_address_step n _ s (Hlack 0%nat ltac:(lia)) eq_refl).
    rewrite IH; simpl.
    + by rewrite ip_poll_trace_shift.
    + intros j Hj. unfold ip_poll_answer. rewrite ip_poll_trace_shift.
      apply (Hlack (S j)). lia.
Qed.

Lemma count_calls_app kind a b :
  count_calls kind (a ++ b)%list
  = (count_calls kind a + count_calls kind b)%nat.
Proof. unfold count_calls. by rewrite List.filter_app, length_app. Qed.

Lemma count_polls_ip_poll_trace t0 j :
  count_calls "GetInstance" (ip_poll_trace t0 j)
  = (count_calls "GetInstance" t0 + j)%nat.
Proof.
  induction j as [|j IH]; cbn [ip_poll_trace]; [lia|].
  rewrite count_calls_app, IH.
  change (count_calls "GetInstance" [EvGetInstance _ _; EvSleep _])
    with 1%nat. lia.
Qed.

(** C4.  If the descriptors of the first [N-1] polls carry no external
    address and the descriptor of poll [N] carries one ([N] within the
    budget of 60), [_WaitForExternalIp] returns that address after exactly
    [N] [GetInstance] calls; if none of the 60 polls finds an address, it
    raises [ClusterSetUpError] after exactly 60 calls. *)
Theorem ip_discovery_polls s :
  (forall N ip,
     (1 <= N <= INSTANCE_IP_ADDRESS_MAX_CHECK_TIMES)%nat ->
     (forall j, (j < N - 1)%nat -> lacks_address (ip_poll_answer (tr s) j)) ->
     discovered (ip_poll_answer (tr s) (N - 1)) = Some ip ->
     exists s',
       _WaitForExternalIp E instance_name s = Ok ip s' /\
       count_calls "GetInstance" (tr s')
       = (count_calls "GetInstance" (tr s) + N)%nat) /\
  ((forall j, (j < INSTANCE_IP_ADDRESS_MAX_CHECK_TIMES)%nat ->
              lacks_address (ip_poll_answer (tr s) j)) ->
   exists s',
     _WaitForExternalIp E instance_name s
     = Raise (ClusterSetUpError
                ("External IP address time out for " +:+ instance_name)) s' /\
     count_calls "GetInstance" (tr s')
     = (count_calls "GetInstance" (tr s)
        + INSTANCE_IP_ADDRESS_MAX_CHECK_TIMES)%nat).
Proof.
  split.
  - intros N ip HN Hlack Hfound. unfold _WaitForExternalIp.
    rewrite (poll_until_found (N - 1) _ s ip); [|lia|done|done].
    eexists. split; [done|]. cbn [tr with_tr].
    rewrite count_calls_app, count_polls_ip_poll_trace.
    change (count_calls "GetInstance" [EvGetInstance _ _]) with 1%nat. lia.
  - intros Hlack. unfold _WaitForExternalIp.
    rewrite (poll_until_timeout _ s Hlack).
    eexists. split; [done|]. cbn [tr with_tr].
    apply count_polls_ip_poll_trace.
Qed.

End IpDiscovery.

(** *** Warm-up polling *)

(** The three ways an attempt of the warm-up loop can go. *)
Definition conclusive_success (r : fetch_result) : Prop :=
  exists body, r = FetchResponse 200 body /\ py_find body "success" <> -1.



Section WarmUp.

Variable E : env.
Variable master : string.
Variable url : string.

(** The trace before the [j]-th attempt (counting from 0) of a warm-up that
    started with trace [t0] and had no conclusive answer so far. *)
Fixpoint warm_up_trace (t0 : trace) (j : nat) : trace :=
  match j with
  | O => t0
  | S j' =>
      (warm_up_trace t0 j' ++
       [EvInstanceGetByName master;
        EvFetch url
          (fetch E (warm_up_trace t0 j' ++ [EvInstanceGetByName master]) url);
        EvSleep MASTER_WARM_UP_CHECK_INTERVAL])%list
  end.

(** The answer of the channel to the [j]-th attempt. *)
Definition warm_up_answer (t0 : trace) (j : nat) : fetch_result :=
  fetch E (warm_up_trace t0 j ++ [EvInstanceGetByName master])%list url.

(** The state has the record of the master, with an address and a
    credential that make the request [url]. *)
Definition master_reachable (s : state) : Prop :=
  master_name (self s) = master /\
  exists ii host,
    ds_instances (ds s) !! master = Some ii /\
    json_str (ii_external_ip ii) = Some host /\
    url = "http://" +:+ host +:+ "/"
          +:+ _BuildRpcUrl E (ii_rpckey ii) "cat /var/log/STARTUP_SCRIPT_DONE".

Lemma master_reachable_with_tr t s :
  master_reachable s -> master_reachable (with_tr t s).
Proof. done. Qed.

Definition after_attempt (s : state) : state :=
  with_tr (tr s ++ [EvInstanceGetByName master;
                    EvFetch url (warm_up_answer (tr s) 0)])%list s.

Lemma warm_up_attempt_eq s :
  master_reachable s ->
  warm_up_attempt E s
  = match warm_up_answer (tr s) 0 with
    | FetchDownloadError => Ok false (after_attempt s)
    | FetchResponse status_code content =>
        if status_code =? 200 then
          if negb (py_find content "success" =? -1)
          then Ok true (after_attempt s)
          else Raise (ClusterSetUpError "Hadoop master failed to start")
                     (after_attempt s)
        else Ok false (after_attempt s)
    end.
Proof.
  intros (Hm & ii & host & Hii & Hhost & Hurl).
  unfold warm_up_attempt, except_DownloadError, bind, get_self,
    _RunCommandAtRemote, InstanceInfo_GetByName, bind.
  rewrite Hm. cbn [ds log]. rewrite Hii.
  unfold _HttpRequest. rewrite Hhost.
  change (String.concat " " ["cat"; "/var/log/STARTUP_SCRIPT_DONE"])
    with "cat /var/log/STARTUP_SCRIPT_DONE".
  rewrite <- Hurl. unfold call_fetch. cbn [tr log].
  unfold after_attempt, warm_up_answer. cbn [warm_up_trace].
  assert (forall r,
            log (EvFetch url r) (log (EvInstanceGetByName master) s)
            = with_tr (tr s ++ [EvInstanceGetByName master; EvFetch url r])%list s)
    as Hst.
  { intros r. unfold log, with_tr. cbn. by rewrite <- app_assoc. }
  destruct (fetch E (tr s ++ [EvInstanceGetByName master])%list url)
    as [status_code content|]; rewrite Hst; [|done].
  cbn [fst snd]. destruct (status_code =? 200); [|done].
  by destruct (negb _).
Qed.




Lemma success_step n s :
  master_reachable s ->
  conclusive_success (warm_up_answer (tr s) 0) ->
  warm_up_loop E (S n) s = Ok tt (after_attempt s).
Proof.
  intros Hs (b & Hr & Hb). cbn [warm_up_loop]. unfold bind at 1.
  rewrite (warm_up_attempt_eq s Hs), Hr. cbn.
  apply Z.eqb_neq in Hb. by rewrite Hb.
Qed.







End WarmUp.

(** *** Invalid roles *)

Section InvalidRole.

Variable E : env.

Definition invalid_role_error (role : string) : exn :=
  ClusterSetUpError ("Invalid instance role name: " +:+ role).

(** C2 (amended).  A role outside [INSTANCE_ROLES] makes [_StartInstance]
    raise [ClusterSetUpError] without any [CreateInstance] call and without
    any registry write.  In scratch-disk mode the only call before the
    error is [uuid4]: no provider call is made.  In persistent-disk mode
    the disk is looked up first ([GetDisk]) and created when absent
    ([CreatePersistentDisk]); the error is the invalid-role error unless
    the disk creation failed. *)
Theorem invalid_role_rejected s instance_name role :
  dict_get INSTANCE_ROLES role = None ->
  let disk := instance_name +:+ PERSISTENT_DISK_SUFFIX in
  let disk_info := GetDisk E (tr s) disk in
  let t1 := (tr s ++ [EvGetDisk disk disk_info])%list in
  let created := CreatePersistentDisk E t1 disk PERSISTENT_DISK_SIZE_GB true in
  let t2 := (t1 ++ [EvCreatePersistentDisk disk PERSISTENT_DISK_SIZE_GB true
                      created])%list in
  (* scratch-disk mode *)
  _StartInstance E instance_name role false s
  = Raise (invalid_role_error role)
          (with_tr (tr s ++ [EvUuid4 (uuid4 E (tr s))])%list s) /\
  (* persistent-disk mode *)
  _StartInstance E instance_name role true s
  = if json_truthy disk_info then
      Raise (invalid_role_error role)
            (with_tr (t1 ++ [EvUuid4 (uuid4 E t1)])%list s)
    else if created then
      Raise (invalid_role_error role)
            (with_tr (t2 ++ [EvUuid4 (uuid4 E t2)])%list s)
    else
      Raise (ClusterSetUpError ("Failed to create persistent disk " +:+ disk))
            (with_tr t2 s).
Proof.
  intros Hrole. cbv zeta. split.
  - unfold _StartInstance, bind, get_self, ret, call_uuid4. cbv zeta.
    rewrite Hrole. done.
  - unfold _StartInstance, _MaybeCreatePersistentDisk, bind, get_self, ret,
      call_uuid4, call_GetDisk, call_CreatePersistentDisk. cbv zeta.
    cbn [tr log].
    destruct (json_truthy (GetDisk E (tr s) _)); cbn [negb].
    + rewrite Hrole. unfold raise, log, with_tr. cbn. by rewrite <- app_assoc.
    + destruct (CreatePersistentDisk E _ _ _ _); cbn [negb].
      * rewrite Hrole. unfold raise, log, with_tr. cbn.
        by rewrite <- !app_assoc.
      * unfold raise, log, with_tr. cbn. by rewrite <- !app_assoc.
Qed.

End InvalidRole.

(** *** Teardown *)

Section Teardown.

Variable E : env.

Definition tearing_down (s : state) : state :=
  final_state (SetStatus ClusterStatus_TEARING_DOWN s).

Lemma tearing_down_has_record s :
  cluster_info (self s) <> None ->
  cluster_info (self (tearing_down s)) <> None.
Proof.
  intros Hci. unfold tearing_down, SetStatus.
  by destruct (cluster_info (self s)).
Qed.

Lemma key_delete_returns s :
  cluster_info (self s) <> None ->
  exists s', ClusterInfo_key_delete s = Ok tt s'.
Proof.
  intros Hci. unfold ClusterInfo_key_delete.
  destruct (cluster_info (self s)); [by eexists|done].
Qed.

(** The run of [TeardownCluster] when the first listing is empty. *)
Lemma teardown_run_nothing_listed s fuel :
  cluster_info (self s) <> None ->
  ListInstances E (tr (tearing_down s)) (teardown_filter (self s)) = [] ->
  TeardownCluster E (S fuel) s
  = Some (Ok tt (final_state
                   (ClusterInfo_key_delete
                      (log (EvListInstances (teardown_filter (self s)) [])
                         (tearing_down s))))).
Proof.
  intros Hci Hlist. unfold TeardownCluster, tearing_down in *.
  unfold SetStatus in *.
  destruct (cluster_info (self s)) as [ci|] eqn:Heq; [|done].
  cbn [final_state] in Hlist |- *.
  cbn [teardown_loop]. unfold teardown_round, bind, get_self,
    call_ListInstances. cbv zeta. cbn [self log with_self with_ds].
  change (teardown_filter (set_cluster_info _ (self s)))
    with (teardown_filter (self s)).
  cbn [tr log with_ds with_self] in Hlist |- *.
  rewrite Hlist. cbn [names_of lift ret].
  unfold ClusterInfo_key_delete.
  cbn [self log with_self with_ds cluster_info set_cluster_info].
  reflexivity.
Qed.

(** C7 (amended).  When the orchestrator holds a ClusterRecord and the
    provider lists no matching instance, [TeardownCluster] makes three
    calls: the status write, the listing and the deletion of the
    ClusterRecord.  It makes no [DeleteInstance] and no [GetInstance]
    call. *)
Theorem teardown_nothing_listed s fuel :
  cluster_info (self s) <> None ->
  ListInstances E (tr (tearing_down s)) (teardown_filter (self s)) = [] ->
  exists s',
    TeardownCluster E (S fuel) s = Some (Ok tt s') /\
    tr s' = (tr s ++ [EvSetStatus ClusterStatus_TEARING_DOWN;
                      EvListInstances (teardown_filter (self s)) [];
                      EvClusterKeyDelete])%list /\
    ds_cluster (ds s') = None.
Proof.
  intros Hci Hlist.
  eexists. split; [exact (teardown_run_nothing_listed s fuel Hci Hlist)|].
  unfold ClusterInfo_key_delete, tearing_down, SetStatus.
  destruct (cluster_info (self s)) as [ci|] eqn:Heq; [|done].
  cbn [final_state self log with_self with_ds cluster_info set_cluster_info].
  cbn. split; [|done].
  by rewrite <- !app_assoc.
Qed.

Lemma never_true {A B} (m1 : M A) (m2 : M B) s s' :
  (m1 ;; m2 ;; ret false) s <> Ok true s'.
Proof.
  unfold bind, ret. destruct (m1 s); [|done]. by destruct (m2 _).
Qed.

Lemma teardown_round_eq s :
  teardown_round E s
  = let listed := ListInstances E (tr s) (teardown_filter (self s)) in
    let s1 := log (EvListInstances (teardown_filter (self s)) listed) s in
    match names_of listed with
    | inl e => Raise e s1
    | inr [] => Ok true s1
    | inr names =>
        (for_each names call_DeleteInstance ;;
         confirm_loop E CLUSTER_SHUTDOWN_MAX_CHECK_TIMES names ;;
         ret false) s1
    end.
Proof.
  unfold teardown_round, get_self, call_ListInstances.
  unfold bind at 1 2 3. cbv zeta.
  by destruct (names_of _) as [e|[|n ns]].
Qed.

(** A pass of the loop breaks exactly on an empty listing, having made the
    [ListInstances] call and nothing else. *)
Lemma teardown_round_break s s' :
  teardown_round E s = Ok true s' ->
  ListInstances E (tr s) (teardown_filter (self s)) = [] /\
  s' = log (EvListInstances (teardown_filter (self s)) []) s.
Proof.
  rewrite teardown_round_eq. cbv zeta.
  destruct (ListInstances E (tr s) (teardown_filter (self s)))
    as [|i rest] eqn:Hl.
  - cbn. by intros [= <-].
  - destruct (names_of (i :: rest)) as [e|[|n ns]] eqn:Hn.
    + done.
    + exfalso. cbn in Hn. destruct (getitem_key i "name") as [|[]]; try done.
      by destruct (names_of rest).
    + intros Hr. by apply never_true in Hr.
Qed.

(** A pass of the loop changes neither the orchestrator nor the
    registry. *)
Lemma still_alive_of_state names : forall s,
  self (final_state (still_alive_of E names s)) = self s /\
  ds (final_state (still_alive_of E names s)) = ds s.
Proof.
  induction names as [|n names IH]; intros s; [done|].
  cbn [still_alive_of]. unfold bind, call_GetInstance. cbv zeta.
  specialize (IH (log (EvGetInstance n (GetInstance E (tr s) n)) s)).
  destruct (still_alive_of E names _); simpl in *; done.
Qed.

Lemma confirm_loop_state n : forall names s,
  self (final_state (confirm_loop E n names s)) = self s /\
  ds (final_state (confirm_loop E n names s)) = ds s.
Proof.
  induction n as [|n IH]; intros names s; [done|].
  cbn [confirm_loop]. unfold bind.
  pose proof (still_alive_of_state names s) as Hs.
  destruct (still_alive_of E names s) as [[|a alive] s1|e s1]; simpl in Hs;
    [exact Hs| |exact Hs].
  unfold bind, sleep, emit.
  destruct (IH (a :: alive) (log (EvSleep CLUSTER_SHUTDOWN_CHECK_INTERVAL) s1))
    as [-> ->]. exact Hs.
Qed.

Lemma for_each_delete_state names : forall s,
  for_each names call_DeleteInstance s
  = Ok tt (with_tr (tr s ++ (EvDeleteInstance <$> names))%list s).
Proof.
  induction names as [|n names IH]; intros s.
  - simpl. unfold ret, with_tr. rewrite app_nil_r. by destruct s.
  - cbn [for_each]. unfold bind, call_DeleteInstance, emit. rewrite IH.
    unfold with_tr, log. cbn. by rewrite <- app_assoc.
Qed.

Lemma teardown_round_state s :
  self (final_state (teardown_round E s)) = self s /\
  ds (final_state (teardown_round E s)) = ds s.
Proof.
  rewrite teardown_round_eq. cbv zeta.
  destruct (names_of _) as [e|[|n ns]]; [done|done|].
  unfold bind. rewrite for_each_delete_state.
  set (s1 := with_tr _ _).
  destruct (confirm_loop_state CLUSTER_SHUTDOWN_MAX_CHECK_TIMES (n :: ns) s1)
    as [Hself Hds].
  destruct (confirm_loop E _ _ s1); simpl in *; by rewrite Hself, Hds.
Qed.

(** The while loop ends only on an empty listing. *)
Lemma teardown_loop_ends fuel : forall s s',
  teardown_loop E fuel s = Some (Ok tt s') ->
  self s' = self s /\ ds s' = ds s /\
  exists pre,
    ListInstances E pre (teardown_filter (self s)) = [] /\
    tr s' = (pre ++ [EvListInstances (teardown_filter (self s)) []])%list.
Proof.
  induction fuel as [|fuel IH]; intros s s'; [done|].
  cbn [teardown_loop].
  pose proof (teardown_round_state s) as Hst.
  destruct (teardown_round E s) as [[|] s1|e s1] eqn:Hround; [| |done].
  - intros [= <-]. apply teardown_round_break in Hround as [Hl ->].
    split; [done|]. split; [done|]. by exists (tr s).
  - intros Hloop. simpl in Hst. destruct Hst as [Hself Hds].
    destruct (IH s1 s' Hloop) as (-> & -> & pre & Hl & Htr).
    rewrite Hself in *. split; [done|]. split; [done|]. by exists pre.
Qed.

(** C6 (amended).  [TeardownCluster] returns only after a [ListInstances]
    call that listed nothing, and then deletes the ClusterRecord: its last
    two calls are that listing and the deletion.  There is no other way
    out of the loop: no overall budget and no [TeardownIncomplete]. *)
Theorem teardown_returns_only_when_nothing_listed s fuel s' :
  TeardownCluster E fuel s = Some (Ok tt s') ->
  exists pre,
    ListInstances E pre (teardown_filter (self s)) = [] /\
    tr s' = (pre ++ [EvListInstances (teardown_filter (self s)) [];
                     EvClusterKeyDelete])%list /\
    ds_cluster (ds s') = None.
Proof.
  unfold TeardownCluster, SetStatus.
  destruct (cluster_info (self s)) as [ci|] eqn:Hci; [|done].
  destruct (teardown_loop E fuel _) as [[[] s2|e s2]|] eqn:Hloop; [|done|done].
  apply teardown_loop_ends in Hloop as (Hself & Hds & pre & Hl & Htr).
  cbn [self log with_self with_ds] in Hself, Hl, Htr.
  change (teardown_filter (set_cluster_info _ (self s)))
    with (teardown_filter (self s)) in Hl, Htr.
  unfold ClusterInfo_key_delete. rewrite Hself. cbn [cluster_info set_cluster_info].
  intros [= <-]. exists pre. split; [done|]. cbn. split; [|done].
  rewrite Htr. by rewrite <- app_assoc.
Qed.

End Teardown.

(** *** Names *)

Lemma init_names get_by_id cluster_id a h p :
  __init__ get_by_id cluster_id a = inr h ->
  prefix h = PStr p ->
  master_name h = p +:+ "-hadoop-master" /\
  worker_name_template h = p +:+ "-hadoop-worker-%03d" /\
  worker_name_pattern h = "^" +:+ p +:+ "-hadoop-worker-\d+$".
Proof.
  unfold __init__. cbv zeta.
  destruct (init_item _ a "prefix") as [|n|p'] eqn:Hp; cbn [py_add_str];
    try done.
  intros [= <-]. cbn [prefix]. intros [= ->].
  cbn [master_name worker_name_template worker_name_pattern py_str].
  rewrite append_assoc. done.
Qed.

Lemma worker_name_of_template h p (i : Z) :
  worker_name_template h = p +:+ "-hadoop-worker-%03d" ->
  has_percent p = false ->
  _WorkerName h i = inr (p +:+ "-hadoop-worker-" +:+ zfill 3 (dec i)).
Proof.
  intros Ht Hp. unfold _WorkerName, pyformat. rewrite Ht.
  rewrite (pyformat_go_literal p _ _ Hp), worker_suffix_format. done.
Qed.

Lemma append_inj_l (p a b : string) : p +:+ a = p +:+ b -> a = b.
Proof.
  induction p as [|c p IH]; [done|].
  change (String c p +:+ a) with (String c (p +:+ a)).
  change (String c p +:+ b) with (String c (p +:+ b)).
  intros [= H]. by apply IH.
Qed.

(** *** A successful instance start *)

Definition DAEMONS : list string :=
  ["NameNode"; "JobTracker"; "DataNode"; "TaskTracker"].

(** The daemons that the metadata of a [CreateInstance] call switches on. *)
Definition daemon_flags (a : create_args) : list string :=
  List.filter
    (fun d => match ca_metadata a !! d with
              | Some (PInt 1) => true
              | _ => false
              end) DAEMONS.

Fixpoint create_calls (evs : list event) : list create_args :=
  match evs with
  | [] => []
  | EvCreateInstance a _ :: rest => a :: create_calls rest
  | _ :: rest => create_calls rest
  end.

Lemma create_calls_app a b :
  create_calls (a ++ b) = (create_calls a ++ create_calls b)%list.
Proof.
  induction a as [|e a IH]; [done|]. destruct e; simpl; by rewrite ?IH.
Qed.

Lemma count_run q evs :
  count (run p_next q evs) = (count q + length (create_calls evs))%nat.
Proof.
  revert q. induction evs as [|e evs IH]; intros q; simpl; [lia|].
  change (fold_left p_next evs (p_next q e)) with (run p_next (p_next q e) evs).
  rewrite IH. destruct e; simpl; lia.
Qed.

Section InstanceStart.

Variable E : env.

(** The arguments of the [CreateInstance] call of a scratch-disk start. *)
Definition scratch_args (h : HadoopCluster) (instance_name rpckey : string)
    (commands : list string) : create_args :=
  {| ca_name := instance_name;
     ca_network := network h;
     ca_machinetype := PStr (machinetype_scratch_disk h);
     ca_image := image h;
     ca_persistent_disk := None;
     ca_service_accounts :=
       ["https://www.googleapis.com/auth/devstorage.full_control"];
     ca_metadata :=
       add_commands commands (base_metadata E h rpckey "ephemeral-disk-0") |}.

Lemma scratch_args_flags_master h n k :
  daemon_flags (scratch_args h n k ["NameNode"; "JobTracker"])
  = ["NameNode"; "JobTracker"].
Proof.
  unfold daemon_flags, DAEMONS, scratch_args, add_commands, base_metadata.
  cbn [List.filter ca_metadata foldl list_to_map foldr fst snd].
  repeat (rewrite ?lookup_insert_eq; rewrite ?lookup_insert_ne by done).
  by rewrite !lookup_empty.
Qed.

Lemma scratch_args_flags_worker h n k :
  daemon_flags (scratch_args h n k ["DataNode"; "TaskTracker"])
  = ["DataNode"; "TaskTracker"].
Proof.
  unfold daemon_flags, DAEMONS, scratch_args, add_commands, base_metadata.
  cbn [List.filter ca_metadata foldl list_to_map foldr fst snd].
  repeat (rewrite ?lookup_insert_eq; rewrite ?lookup_insert_ne by done).
  by rewrite !lookup_empty.
Qed.

(** The attributes of the orchestrator that no method changes. *)
Definition config_of (h : HadoopCluster) : HadoopCluster :=
  set_instances ∅ (set_cluster_info None h).

Lemma StartInstance_ok s ci instance_name role commands :
  cluster_info (self s) = Some ci ->
  dict_get INSTANCE_ROLES role = Some commands ->
  let rpckey := uuid4 E (tr s) in
  let a := scratch_args (self s) instance_name rpckey commands in
  let ii := {| ii_name := instance_name; ii_role := role;
               ii_rpckey := rpckey; ii_external_ip := JNull |} in
  CreateInstance E (tr s ++ [EvUuid4 rpckey])%list a = true ->
  exists s',
    _StartInstance E instance_name role false s = Ok tt s' /\
    config_of (self s') = config_of (self s) /\
    cluster_info (self s') <> None /\
    ds_instances (ds s') = <[instance_name := ii]> (ds_instances (ds s)) /\
    create_calls (tr s') = (create_calls (tr s) ++ [a])%list.
Proof.
  intros Hci Hrole rpckey a ii Hcreate.
  unfold _StartInstance, bind, get_self, ret, call_uuid4. cbv zeta.
  rewrite Hrole. unfold call_CreateInstance. cbv zeta. cbn [tr log].
  fold rpckey. change (CreateInstance E _ _) with
    (CreateInstance E (tr s ++ [EvUuid4 rpckey])%list a).
  rewrite Hcreate. cbn [negb]. rewrite Hci.
  unfold InstanceInfo_put, SetMasterInstance, record_instance.
  cbn [self log with_ds with_self ds].
  destruct (String.eqb role "master").
  - cbn [self log with_ds with_self]. rewrite Hci.
    eexists. split; [reflexivity|]. cbn.
    split; [done|]. split; [done|]. split; [done|].
    rewrite !create_calls_app. cbn. by rewrite !app_nil_r.
  - eexists. split; [reflexivity|]. cbn.
    split; [done|]. split; [by rewrite Hci|]. split; [done|].
    rewrite !create_calls_app. cbn. by rewrite !app_nil_r.
Qed.

End InstanceStart.

(** *** The waiting phase keeps the records *)

Definition roles_of (d : datastore) : gmap string string :=
  ii_role <$> ds_instances d.

(** Relative to [s0]: same master name, records stored under their names,
    same records with the same roles. *)
Definition wait_inv (s0 s : state) : Prop :=
  master_name (self s) = master_name (self s0) /\
  names_consistent (ds s) /\
  roles_of (ds s) = roles_of (ds s0).

Section WaitInv.

Variable s0 : state.
Local Abbreviation I := (wait_inv s0).

Lemma wait_inv_log e s : registry_write e = false -> I s -> I (log e s).
Proof. done. Qed.

Lemma roles_of_set_ip d n ii ip :
  ds_instances d !! n = Some ii ->
  ii_role <$> <[n := set_external_ip ip ii]> (ds_instances d) = roles_of d.
Proof.
  intros Hii. unfold roles_of. rewrite fmap_insert. cbn.
  apply insert_id. by rewrite lookup_fmap, Hii.
Qed.

Lemma wait_inv_SetMasterIpAddress ip s :
  I s -> I (final_state (SetMasterIpAddress ip s)).
Proof.
  intros (Hm & Hn & Hr). unfold SetMasterIpAddress.
  destruct (cluster_info (self s)) as [ci|]; [|done]. cbn.
  destruct (ci !! "master") as [[| |m]|]; try done.
  split; [done|]. split.
  - intros n ii. cbn. rewrite lookup_alter. case_decide; [|apply Hn]. subst.
    destruct (ds_instances (ds s) !! n) as [ii0|] eqn:Hii0; [|done].
    cbn. intros [= <-]. cbn. by apply Hn.
  - rewrite <- Hr. unfold roles_of. cbn. apply map_eq. intros n.
    rewrite !lookup_fmap, lookup_alter. case_decide; [|done]. subst.
    by destruct (ds_instances (ds s) !! n).
Qed.

Lemma wait_inv_persist s n ii ip s' :
  I s -> ds_instances (ds s) !! n = Some ii -> I s' ->
  I (final_state (InstanceInfo_put (set_external_ip ip ii) s')).
Proof.
  intros (_ & Hn & Hr) Hii (Hm' & Hn' & Hr'). cbn.
  assert (ii_name ii = n) as Hname by by apply Hn.
  assert (roles_of (ds s') !! n = Some (ii_role ii)) as Hrole.
  { rewrite Hr', <- Hr. unfold roles_of. by rewrite lookup_fmap, Hii. }
  split; [done|]. split.
  - intros n' ii'. cbn. rewrite Hname.
    intros Hl. apply lookup_insert_Some in Hl as [[<- <-]|[_ Hl]]; [done|].
    by apply Hn'.
  - rewrite <- Hr'. unfold roles_of. cbn. rewrite Hname, fmap_insert. cbn.
    by apply insert_id.
Qed.

End WaitInv.

Lemma for_each_nil {A} (body : A -> M unit) : for_each [] body = ret tt.
Proof. reflexivity. Qed.

Lemma for_each_cons {A} (x : A) l (body : A -> M unit) :
  for_each (x :: l) body = bind (body x) (fun _ => for_each l body).
Proof. reflexivity. Qed.

Lemma StartHadoopCluster_after_sequence E s :
  ds_instances (ds (final_state (StartHadoopCluster E s)))
  = ds_instances (ds (final_state (start_sequence E s))) /\
  create_calls (tr (final_state (StartHadoopCluster E s)))
  = create_calls (tr (final_state (start_sequence E s))).
Proof.
  unfold StartHadoopCluster, except_ClusterSetUpError.
  destruct (start_sequence E s) as [[] s1|e s1]; [done|].
  destruct e; try done. unfold SetStatus.
  destruct (cluster_info (self s1)); [|done]. cbn.
  split; [done|]. rewrite create_calls_app. cbn. by rewrite app_nil_r.
Qed.

Section EndToEnd.

Variable E : env.
Hypothesis create_succeeds : forall t a, CreateInstance E t a = true.

Variable h : HadoopCluster.
Variable p : string.
Hypothesis no_percent : has_percent p = false.
Hypothesis h_master : master_name h = p +:+ "-hadoop-master".
Hypothesis h_template : worker_name_template h = p +:+ "-hadoop-worker-%03d".
Hypothesis h_workers : num_workers h = PInt 3.

Lemma config_of_facts h' :
  config_of h' = config_of h ->
  master_name h' = master_name h /\
  worker_name_template h' = worker_name_template h /\
  num_workers h' = num_workers h.
Proof.
  intros H. split; [|split].
  - apply (f_equal master_name) in H. exact H.
  - apply (f_equal worker_name_template) in H. exact H.
  - apply (f_equal num_workers) in H. exact H.
Qed.

Definition worker (i : Z) : string :=
  p +:+ "-hadoop-worker-" +:+ zfill 3 (dec i).

Lemma start_worker_ok s ci i :
  cluster_info (self s) = Some ci ->
  config_of (self s) = config_of h ->
  exists s' k,
    start_worker E i s = Ok tt s' /\
    config_of (self s') = config_of h /\
    cluster_info (self s') <> None /\
    ds_instances (ds s')
    = <[worker i := {| ii_name := worker i; ii_role := "worker";
                       ii_rpckey := k; ii_external_ip := JNull |}]>
        (ds_instances (ds s)) /\
    create_calls (tr s')
    = (create_calls (tr s)
       ++ [scratch_args E (self s) (worker i) k ["DataNode"; "TaskTracker"]])%list.
Proof.
  intros Hci Hcfg. destruct (config_of_facts _ Hcfg) as (_ & Ht & _).
  unfold start_worker, bind, get_self.
  rewrite (worker_name_of_template (self s) p i); [|by rewrite Ht|done].
  cbv beta iota delta [lift ret].
  destruct (StartInstance_ok E s ci (worker i) "worker"
              ["DataNode"; "TaskTracker"] Hci eq_refl (create_succeeds _ _))
    as (s' & Hrun & Hc & Hci' & Hds & Hcalls).
  exists s', (uuid4 E (tr s)). fold (worker i). rewrite Hrun. split; [done|].
  split; [by rewrite Hc|]. done.
Qed.

Lemma worker_names_distinct (i j : Z) :
  zfill 3 (dec i) <> zfill 3 (dec j) -> worker i <> worker j.
Proof.
  intros Hne Heq. apply Hne. unfold worker in Heq.
  apply append_inj_l in Heq. by apply (append_inj_l "-hadoop-worker-") in Heq.
Qed.

Lemma master_not_worker i : p +:+ "-hadoop-master" <> worker i.
Proof. intros Heq. apply append_inj_l in Heq. discriminate. Qed.

(** The registry after provisioning, by role. *)
Definition provisioned_roles : gmap string string :=
  <[worker 2 := "worker"]>
    (<[worker 1 := "worker"]>
       (<[worker 0 := "worker"]> {[ p +:+ "-hadoop-master" := "master" ]})).

Lemma provisioned_roles_size : size provisioned_roles = 4%nat.
Proof.
  unfold provisioned_roles.
  rewrite !map_size_insert_None, map_size_singleton; [done|..].
  - rewrite lookup_singleton_ne; [done|]. apply master_not_worker.
  - rewrite lookup_insert_ne by (by apply worker_names_distinct).
    rewrite lookup_singleton_ne; [done|]. apply master_not_worker.
  - rewrite !lookup_insert_ne by (by apply worker_names_distinct).
    rewrite lookup_singleton_ne; [done|]. apply master_not_worker.
Qed.

Definition fresh_record (n role k : string) : InstanceInfo :=
  {| ii_name := n; ii_role := role; ii_rpckey := k; ii_external_ip := JNull |}.

(** Provisioning with a provider that accepts every create. *)
Lemma provisioning_ok s :
  self s = h ->
  exists s5 km k0 k1 k2,
    start_sequence E s = _WaitForInstances E s5 /\
    config_of (self s5) = config_of h /\
    ds_instances (ds s5)
    = <[worker 2 := fresh_record (worker 2) "worker" k2]>
        (<[worker 1 := fresh_record (worker 1) "worker" k1]>
           (<[worker 0 := fresh_record (worker 0) "worker" k0]>
              (<[p +:+ "-hadoop-master"
                 := fresh_record (p +:+ "-hadoop-master") "master" km]>
                 (ds_instances (ds s))))) /\
    map (fun a => (ca_name a, daemon_flags a)) (create_calls (tr s5))
    = (map (fun a => (ca_name a, daemon_flags a)) (create_calls (tr s))
       ++ [ (p +:+ "-hadoop-master", ["NameNode"; "JobTracker"]);
            (worker 0, ["DataNode"; "TaskTracker"]);
            (worker 1, ["DataNode"; "TaskTracker"]);
            (worker 2, ["DataNode"; "TaskTracker"]) ])%list.
Proof.
  intros Hself.
  pose (s1 := stored_ClusterInfo s).
  assert (config_of (self s1) = config_of h) as Hc1 by (by rewrite <- Hself).
  assert (master_name (self s1) = p +:+ "-hadoop-master") as Hm1.
  { destruct (config_of_facts _ Hc1) as (-> & _). exact h_master. }
  destruct (StartInstance_ok E s1 (new_ClusterInfo (self s))
              (p +:+ "-hadoop-master") "master"
              ["NameNode"; "JobTracker"] eq_refl eq_refl
              (create_succeeds _ _))
    as (s2 & Hrun2 & Hc2 & Hci2 & Hds2 & Hcalls2).
  rewrite Hc1 in Hc2.
  destruct (cluster_info (self s2)) as [ci2|] eqn:Hci2'; [|done].
  destruct (start_worker_ok s2 ci2 0 Hci2' Hc2)
    as (s3 & k3 & Hrun3 & Hc3 & Hci3 & Hds3 & Hcalls3).
  destruct (cluster_info (self s3)) as [ci3|] eqn:Hci3'; [|done].
  destruct (start_worker_ok s3 ci3 1 Hci3' Hc3)
    as (s4 & k4 & Hrun4 & Hc4 & Hci4 & Hds4 & Hcalls4).
  destruct (cluster_info (self s4)) as [ci4|] eqn:Hci4'; [|done].
  destruct (start_worker_ok s4 ci4 2 Hci4' Hc4)
    as (s5 & k5 & Hrun5 & Hc5 & Hci5 & Hds5 & Hcalls5).
  exists s5, (uuid4 E (tr s1)), k3, k4, k5.
  split; [|split; [done|split]].
  - rewrite start_sequence_unfold. unfold bind at 1.
    unfold _StartMaster, bind at 1, get_self.
    change (stored_ClusterInfo s) with s1. rewrite Hm1, Hrun2.
    unfold _StartWorkers, bind, get_self.
    destruct (config_of_facts _ Hc2) as (_ & _ & ->). rewrite h_workers.
    change (xrange (PInt 3)) with (@inr exn _ [0; 1; 2]).
    cbv beta iota delta [lift ret].
    rewrite !for_each_cons, for_each_nil. unfold bind.
    by rewrite Hrun3, Hrun4, Hrun5.
  - by rewrite Hds5, Hds4, Hds3, Hds2.
  - rewrite Hcalls5, Hcalls4, Hcalls3, Hcalls2.
    change (create_calls (tr s1))
      with (create_calls (tr s ++ [EvClusterPut (new_ClusterInfo (self s))])).
    rewrite create_calls_app. cbn [create_calls]. rewrite app_nil_r.
    rewrite !map_app. cbn [map ca_name scratch_args].
    rewrite !scratch_args_flags_worker, scratch_args_flags_master.
    by rewrite <- !app_assoc.
Qed.

Lemma provisioned_names_consistent s5 d km k0 k1 k2 :
  ds_instances (ds s5)
  = <[worker 2 := fresh_record (worker 2) "worker" k2]>
      (<[worker 1 := fresh_record (worker 1) "worker" k1]>
         (<[worker 0 := fresh_record (worker 0) "worker" k0]>
            (<[p +:+ "-hadoop-master"
               := fresh_record (p +:+ "-hadoop-master") "master" km]> d))) ->
  (forall n ii, d !! n = Some ii -> ii_name ii = n) ->
  names_consistent (ds s5).
Proof.
  intros Hds Hd n ii. rewrite Hds. intros Hl.
  repeat (apply lookup_insert_Some in Hl as [[<- <-]|[_ Hl]]; [done|]).
  by apply Hd.
Qed.

Lemma roles_of_ext d d' :
  ds_instances d = ds_instances d' -> roles_of d = roles_of d'.
Proof. unfold roles_of. by intros ->. Qed.

Lemma names_consistent_ext d d' :
  ds_instances d = ds_instances d' ->
  names_consistent d' -> names_consistent d.
Proof. unfold names_consistent. by intros ->. Qed.

Lemma no_create_when_count_stays c evs :
  count (run p_next (at_rest c) evs) = c -> create_calls evs = [].
Proof.
  rewrite count_run. cbn [count at_rest].
  destruct (create_calls evs); [done|]. cbn [length]. lia.
Qed.

Lemma provisioned_roles_eq d km k0 k1 k2 :
  ds_instances d
  = <[worker 2 := fresh_record (worker 2) "worker" k2]>
      (<[worker 1 := fresh_record (worker 1) "worker" k1]>
         (<[worker 0 := fresh_record (worker 0) "worker" k0]>
            (<[p +:+ "-hadoop-master"
               := fresh_record (p +:+ "-hadoop-master") "master" km]> ∅))) ->
  roles_of d = provisioned_roles.
Proof.
  intros Hds. unfold roles_of, provisioned_roles. rewrite Hds.
  rewrite !fmap_insert, fmap_empty. cbn [ii_role fresh_record].
  by rewrite insert_empty.
Qed.

Lemma three_workers s :
  self s = h ->
  ds_instances (ds s) = ∅ ->
  tr s = [] ->
  roles_of (ds (final_state (StartHadoopCluster E s))) = provisioned_roles /\
  names_consistent (ds (final_state (StartHadoopCluster E s))) /\
  map (fun a => (ca_name a, daemon_flags a))
      (create_calls (tr (final_state (StartHadoopCluster E s))))
  = [ (p +:+ "-hadoop-master", ["NameNode"; "JobTracker"]);
      (worker 0, ["DataNode"; "TaskTracker"]);
      (worker 1, ["DataNode"; "TaskTracker"]);
      (worker 2, ["DataNode"; "TaskTracker"]) ].
Proof.
  intros Hself Hds Htr.
  destruct (provisioning_ok s Hself)
    as (s5 & km & k0 & k1 & k2 & Hseq & Hc5 & Hds5 & Hcalls5).
  rewrite Hds in Hds5. rewrite Htr in Hcalls5.
  assert (names_consistent (ds s5)) as Hn5.
  { apply (provisioned_names_consistent s5 _ _ _ _ _ Hds5).
    intros n ii. by rewrite lookup_empty. }
  assert (wait_inv s5 s5) as Hinv5 by (by split).
  destruct (WaitForInstances_protocol E h (wait_inv s5)
              (wait_inv_log s5)
              ltac:(intros ? (Hm & _); rewrite Hm;
                    by destruct (config_of_facts _ Hc5) as (-> & _))
              ltac:(intros ? ? ? (_ & Hn & _); apply Hn)
              (wait_inv_SetMasterIpAddress s5)
              (wait_inv_persist s5) 4%nat s5 Hinv5)
    as (evs & Htr6 & Hacc & [Hcount _] & (_ & Hn6 & Hr6)).
  apply no_create_when_count_stays in Hcount.
  destruct (StartHadoopCluster_after_sequence E s) as [Hinsts Hcalls].
  rewrite Hseq in Hinsts, Hcalls.
  split; [|split].
  - rewrite (roles_of_ext _ _ Hinsts), Hr6.
    by apply (provisioned_roles_eq _ km k0 k1 k2).
  - by apply (names_consistent_ext _ _ Hinsts).
  - rewrite Hcalls, Htr6, create_calls_app, Hcount, app_nil_r.
    exact Hcalls5.
Qed.

End EndToEnd.

(** ** Concrete clusters and providers *)

(** The orchestrator that [__init__] builds for [example_args "c" n]. *)
Definition example_cluster (n : Z) : HadoopCluster :=
  {| prefix := PStr "c"; project := PStr "project"; name := PStr "cluster";
     zone := PStr "zone"; machinetype := PStr "n1-standard-1";
     image := PStr "image"; network := PStr "default";
     num_workers := PInt n; custom_command := PStr "";
     cluster_info := None;
     machinetype_scratch_disk := "n1-standard-1-d";
     machinetype_persistent_disk := PStr "n1-standard-1";
     master_name := "c-hadoop-master";
     worker_name_template := "c-hadoop-worker-%03d";
     worker_name_pattern := "^c-hadoop-worker-\d+$";
     instances := ∅ |}.

Example example_cluster_constructed n :
  __init__ (fun _ => None) PNone (example_args "c" n)
  = inr (example_cluster n).
Proof. reflexivity. Qed.

Definition example_start : state := fresh_state (example_cluster 1).

(** The state after a run of [StartHadoopCluster] on which every step
    succeeded at once. *)
Definition example_started : state :=
  final_state (StartHadoopCluster smooth_env example_start).

Lemma fresh_names_consistent h : names_consistent (ds (fresh_state h)).
Proof. intros n ii. cbn. by rewrite lookup_empty. Qed.

(** A provider that refuses to create the instance [bad]. *)
Definition refusing_env (bad : string) : env :=
  {| GetDisk := fun _ _ => JNull;
     CreatePersistentDisk := fun _ _ _ _ => true;
     CreateInstance := fun _ a => negb (String.eqb (ca_name a) bad);
     GetInstance := fun _ _ => descriptor_with_ip "10.0.0.1";
     ListInstances := fun _ _ => [];
     fetch := fun _ _ => FetchResponse 200 "success";
     uuid4 := fun _ => "key";
     urlencode := fun _ => "command=cat&key=key";
     cloud_storage_bucket := "bucket" |}.

(** A provider that assigns the address at the third poll. *)
Definition slow_ip_env : env :=
  {| GetDisk := fun _ _ => JNull;
     CreatePersistentDisk := fun _ _ _ _ => true;
     CreateInstance := fun _ _ => true;
     GetInstance := fun t _ =>
       if (count_calls "GetInstance" t <? 2)%nat then descriptor_without_ip
       else descriptor_with_ip "10.0.0.7";
     ListInstances := fun _ _ => [];
     fetch := fun _ _ => FetchResponse 200 "success";
     uuid4 := fun _ => "key";
     urlencode := fun _ => "command=cat&key=key";
     cloud_storage_bucket := "bucket" |}.


(** A provider that keeps listing one instance, although every
    [GetInstance] reports it gone. *)
Definition stubborn_env : env :=
  {| GetDisk := fun _ _ => JNull;
     CreatePersistentDisk := fun _ _ _ _ => true;
     CreateInstance := fun _ _ => true;
     GetInstance := fun _ _ => JNull;
     ListInstances := fun _ _ => [JDict [("name", JStr "c-hadoop-master")]];
     fetch := fun _ _ => FetchResponse 200 "success";
     uuid4 := fun _ => "key";
     urlencode := fun _ => "command=cat&key=key";
     cloud_storage_bucket := "bucket" |}.

(** *** Runs of [StartHadoopCluster] *)



(** *** Construction *)

(** A ClusterRecord that has a prefix and a number of workers, and no other
    configuration field. *)
Definition example_record : gmap string pyval :=
  {[ "prefix" := PStr "p"; "num_workers" := PInt 2 ]}.

Lemma zone_is_config_item : "zone" ∈ CONFIG_ITEMS.
Proof. unfold CONFIG_ITEMS. rewrite !elem_of_cons. tauto. Defined.

(** [init_fields_from_record_else_args] for the item [zone], which the
    record lacks and the caller passes. *)
Lemma init_fields_from_record_else_args_witness :
  "zone" ∈ CONFIG_ITEMS /\
  init_loop (fun _ => Some example_record) (PInt 1) (example_args "c" 1)
    !! "zone" = Some PNone /\
  init_loop (fun _ => None) (PInt 1) (example_args "c" 1) !! "zone"
  = Some (PStr "zone").
Proof.
  split; [exact zone_is_config_item|]. split.
  - destruct (init_fields_from_record_else_args
                (fun _ => Some example_record) (PInt 1) (example_args "c" 1)
                "zone" zone_is_config_item) as (Hrec & _).
    exact (Hrec example_record eq_refl eq_refl).
  - destruct (init_fields_from_record_else_args
                (fun _ => None) (PInt 1) (example_args "c" 1) "zone"
                zone_is_config_item) as (_ & Hargs & _).
    destruct (Hargs (or_intror eq_refl)) as (v & Hv & Hl).
    rewrite Hl. exact (eq_sym Hv).
Defined.

(** *** Roles *)

(** With a persistent disk, the role is checked after the disk calls: an
    invalid role is rejected after [GetDisk] and [CreatePersistentDisk]. *)
Lemma role_check_after_disk_calls :
  let r := _StartInstance smooth_env "node" "gateway" true example_start in
  outcome r
  = inl (ClusterSetUpError "Invalid instance role name: gateway") /\
  map event_kind (tr (final_state r))
  = ["GetDisk"; "CreatePersistentDisk"; "uuid4"].
Proof. vm_compute. done. Qed.

(** [invalid_role_rejected] for the role [gateway]. *)
Lemma invalid_role_witness :
  dict_get INSTANCE_ROLES "gateway" = None /\
  _StartInstance smooth_env "node" "gateway" false example_start
  = Raise (invalid_role_error "gateway")
      (with_tr (tr example_start ++ [EvUuid4 (uuid4 smooth_env (tr example_start))])%list
         example_start).
Proof.
  split; [reflexivity|].
  apply (invalid_role_rejected smooth_env example_start "node" "gateway").
  reflexivity.
Defined.

(** *** Warm-up *)





(** *** IP discovery *)

(** [ip_discovery_polls] with an address assigned at the third poll. *)
Lemma ip_discovery_witness :
  exists s',
    _WaitForExternalIp slow_ip_env "c-hadoop-master" example_start
    = Ok (JStr "10.0.0.7") s' /\
    count_calls "GetInstance" (tr s')
    = (count_calls "GetInstance" (tr example_start) + 3)%nat.
Proof.
  destruct (ip_discovery_polls slow_ip_env "c-hadoop-master" example_start)
    as [HN _].
  apply (HN 3%nat).
  - unfold INSTANCE_IP_ADDRESS_MAX_CHECK_TIMES. lia.
  - intros j Hj. destruct j as [|[|j]]; [| |lia]; right; left; by vm_compute.
  - by vm_compute.
Defined.

(** *** A refused create *)

Definition example_start_2 : state := fresh_state (example_cluster 2).

Definition refused_args : create_args :=
  scratch_args (refusing_env "c-hadoop-worker-000") (self example_start_2)
    "c-hadoop-worker-000" "key" ["DataNode"; "TaskTracker"].

(** [create_failure_is_fatal] when the first worker is refused. *)
Lemma create_failure_witness :
  exists s' pre ci,
    StartHadoopCluster (refusing_env "c-hadoop-worker-000") example_start_2
    = Ok tt s' /\
    calls_since (tr example_start_2)
      (final_state (StartHadoopCluster (refusing_env "c-hadoop-worker-000")
                      example_start_2))
    = (pre ++ [EvCreateInstance refused_args false;
               EvSetStatus "ERROR: Failed to start instance c-hadoop-worker-000"])%list /\
    ds_cluster (ds s') = Some ci /\
    ci !! "status"
    = Some (PStr "ERROR: Failed to start instance c-hadoop-worker-000").
Proof.
  destruct (create_failure_is_fatal (refusing_env "c-hadoop-worker-000")
              example_start_2 refused_args (fresh_names_consistent _))
    as (s' & pre & ci & Hrun & Hcalls & Hds & Hst & _).
  - apply (nth_error_In _ 6). by vm_compute.
  - exists s', pre, ci.
    split; [exact Hrun|]. split; [exact Hcalls|]. split; [exact Hds|exact Hst].
Defined.

(** *** Teardown *)

Lemma stubborn_round s :
  exists s', teardown_round stubborn_env s = Ok false s'.
Proof.
  rewrite teardown_round_eq. cbv zeta.
  change (names_of (ListInstances stubborn_env _ _))
    with (@inr exn _ ["c-hadoop-master"]).
  cbv beta iota. unfold bind. rewrite for_each_delete_state.
  change CLUSTER_SHUTDOWN_MAX_CHECK_TIMES with (S 59).
  cbn [confirm_loop still_alive_of]. unfold bind, call_GetInstance, ret.
  cbn. by eexists.
Qed.

Lemma stubborn_loop fuel : forall s, teardown_loop stubborn_env fuel s = None.
Proof.
  induction fuel as [|fuel IH]; intros s; [done|].
  cbn [teardown_loop]. destruct (stubborn_round s) as [s' ->]. apply IH.
Qed.

Lemma stubborn_teardown s fuel r :
  cluster_info (self s) <> None ->
  TeardownCluster stubborn_env fuel s <> Some r.
Proof.
  intros Hci. unfold TeardownCluster, SetStatus.
  destruct (cluster_info (self s)); [|done]. by rewrite stubborn_loop.
Qed.

Lemma is_Some_true {A} (o : option A) :
  match o with Some _ => true | None => false end = true -> o <> None.
Proof. by destruct o. Qed.

Example example_started_has_record :
  cluster_info (self example_started) <> None.
Proof. apply is_Some_true. vm_compute. reflexivity. Qed.

(** With a provider that keeps listing an instance, [TeardownCluster] does
    not return, whatever the number of passes. *)
Lemma teardown_runs_forever :
  ~ exists fuel r, TeardownCluster stubborn_env fuel example_started = Some r.
Proof.
  intros (fuel & r & Hr).
  exact (stubborn_teardown _ fuel r example_started_has_record Hr).
Qed.

(** The state after tearing the example cluster down. *)
Definition example_torn_down : state :=
  final_state
    (ClusterInfo_key_delete
       (log (EvListInstances (teardown_filter (self example_started)) [])
          (tearing_down example_started))).

Example example_teardown :
  TeardownCluster smooth_env 1 example_started = Some (Ok tt example_torn_down).
Proof.
  exact (teardown_run_nothing_listed smooth_env example_started 0
           example_started_has_record eq_refl).
Qed.

(** [teardown_returns_only_when_nothing_listed] on the example cluster. *)
Lemma teardown_witness :
  TeardownCluster smooth_env 1 example_started = Some (Ok tt example_torn_down) /\
  exists pre,
    ListInstances smooth_env pre (teardown_filter (self example_started)) = [] /\
    tr example_torn_down
    = (pre ++ [EvListInstances (teardown_filter (self example_started)) [];
               EvClusterKeyDelete])%list /\
    ds_cluster (ds example_torn_down) = None.
Proof.
  split; [exact example_teardown|].
  exact (teardown_returns_only_when_nothing_listed smooth_env example_started 1
           example_torn_down example_teardown).
Defined.

(** [teardown_nothing_listed] on the example cluster. *)
Lemma teardown_nothing_listed_witness :
  exists s',
    TeardownCluster smooth_env 1 example_started = Some (Ok tt s') /\
    tr s' = (tr example_started
             ++ [EvSetStatus ClusterStatus_TEARING_DOWN;
                 EvListInstances (teardown_filter (self example_started)) [];
                 EvClusterKeyDelete])%list /\
    ds_cluster (ds s') = None.
Proof.
  exact (teardown_nothing_listed smooth_env example_started 0
           example_started_has_record eq_refl).
Defined.

(** An orchestrator that was built from arguments, without a [cluster_id],
    holds no ClusterRecord.  The provider lists no instance for it, and yet
    [TeardownCluster] does not complete: the status write on the missing
    record raises [AttributeError] before any call is made, and nothing is
    deleted. *)
Lemma teardown_without_record_raises :
  __init__ (fun _ => None) PNone (example_args "c" 1)
  = inr (self example_start) /\
  (forall t, ListInstances smooth_env t (teardown_filter (self example_start))
             = []) /\
  (forall fuel, TeardownCluster smooth_env fuel example_start
                = Some (Raise AttributeError example_start)) /\
  ~ exists fuel s', TeardownCluster smooth_env fuel example_start
                    = Some (Ok tt s').
Proof.
  split; [reflexivity|]. split; [done|]. split; [done|].
  intros (fuel & s' & H). discriminate H.
Qed.

(** ** Names and the end-to-end run *)

(** X16.  For a prefix [p] without a percent sign, the master is
    named [p-hadoop-master], worker [i] is named [p-hadoop-worker-] followed
    by the index padded with zeros to three digits, and the teardown filter
    is [name eq "p-hadoop-master|^p-hadoop-worker-\d+$"].  With three
    workers and a provider that accepts every create, [StartHadoopCluster]
    from an empty registry leaves four InstanceRecords, the master and the
    workers 0, 1 and 2, each stored under its name, and makes four create
    calls, in this order, whose metadata switch on NameNode and JobTracker
    for the master and DataNode and TaskTracker for each worker. *)
Theorem names_and_three_workers get_by_id cluster_id a h p :
  __init__ get_by_id cluster_id a = inr h ->
  prefix h = PStr p ->
  has_percent p = false ->
  master_name h = p +:+ "-hadoop-master" /\
  (forall i, _WorkerName h i = inr (worker p i)) /\
  teardown_filter h
  = "name eq " +:+ DQUOTE +:+ (p +:+ "-hadoop-master") +:+ "|"
    +:+ ("^" +:+ p +:+ "-hadoop-worker-\d+$") +:+ DQUOTE /\
  forall E s,
    (forall t c, CreateInstance E t c = true) ->
    num_workers h = PInt 3 ->
    self s = h -> ds_instances (ds s) = ∅ -> tr s = [] ->
    roles_of (ds (final_state (StartHadoopCluster E s))) = provisioned_roles p /\
    size (provisioned_roles p) = 4%nat /\
    names_consistent (ds (final_state (StartHadoopCluster E s))) /\
    map (fun c => (ca_name c, daemon_flags c))
        (create_calls (tr (final_state (StartHadoopCluster E s))))
    = [ (p +:+ "-hadoop-master", ["NameNode"; "JobTracker"]);
        (worker p 0, ["DataNode"; "TaskTracker"]);
        (worker p 1, ["DataNode"; "TaskTracker"]);
        (worker p 2, ["DataNode"; "TaskTracker"]) ].
Proof.
  intros Hinit Hp Hpc.
  destruct (init_names _ _ _ _ _ Hinit Hp) as (Hm & Ht & Hpat).
  split; [exact Hm|]. split.
  { intros i. exact (worker_name_of_template h p i Ht Hpc). }
  split.
  { unfold teardown_filter. by rewrite Hm, Hpat. }
  intros E s Hcreate Hw Hself Hds Htr.
  destruct (three_workers E Hcreate h p Hpc Hm Ht Hw s Hself Hds Htr)
    as (Hr & Hn & Hc).
  split; [exact Hr|]. split; [apply provisioned_roles_size|].
  split; [exact Hn|exact Hc].
Qed.

(** [names_and_three_workers] for the prefix [c]. *)
Lemma names_and_three_workers_witness :
  master_name (example_cluster 3) = "c-hadoop-master" /\
  _WorkerName (example_cluster 3) 2 = inr "c-hadoop-worker-002" /\
  roles_of (ds (final_state (StartHadoopCluster smooth_env
                               (fresh_state (example_cluster 3)))))
  = provisioned_roles "c".
Proof.
  destruct (names_and_three_workers (fun _ => None) PNone (example_args "c" 3)
              (example_cluster 3) "c" eq_refl eq_refl eq_refl)
    as (Hm & Hw & _ & Hrun).
  split; [exact Hm|]. split; [exact (Hw 2)|].
  destruct (Hrun smooth_env (fresh_state (example_cluster 3))
              (fun _ _ => eq_refl) eq_refl eq_refl eq_refl eq_refl)
    as (Hr & _).
  exact Hr.
Defined.

(** C9.  The naming contract is broken for a prefix with a percent sign.
    The constructor puts the prefix into the template that [_WorkerName]
    hands to the format operator, without escaping it.  For the prefix
    [a%%] the master is named [a%%-hadoop-master] and the worker pattern
    is [^a%%-hadoop-worker-\d+$], both built from the prefix as it is, but
    worker 0 is named [a%-hadoop-worker-000]: not the name
    [a%%-hadoop-worker-000] of the contract. *)
Lemma worker_name_loses_percent_sign :
  exists h,
    __init__ (fun _ => None) PNone (example_args "a%%" 3) = inr h /\
    prefix h = PStr "a%%" /\
    master_name h = "a%%-hadoop-master" /\
    worker_name_template h = "a%%-hadoop-worker-%03d" /\
    worker_name_pattern h = "^a%%-hadoop-worker-\d+$" /\
    _WorkerName h 0 = inr "a%-hadoop-worker-000" /\
    _WorkerName h 0 <> inr "a%%-hadoop-worker-000".
Proof.
  eexists. split; [reflexivity|]. split; [reflexivity|].
  split; [reflexivity|]. split; [reflexivity|]. split; [reflexivity|].
  split; [reflexivity|]. discriminate.
Qed.

(** * Further properties of the orchestrator *)

(** ** Worker names are unique *)

(** Reading a decimal rendering back, leading zeros allowed. *)
Definition undec (s : string) : option Z :=
  option_map Z.of_int (NilEmpty.int_of_string s).

Lemma uint_of_zeros k s :
  NilEmpty.uint_of_string (string_rep "0"%char k +:+ s)
  = option_map (Nat.iter k Decimal.D0) (NilEmpty.uint_of_string s).
Proof.
  induction k as [|k IH].
  - cbn [string_rep Nat.iter]. change ("" +:+ s) with s.
    by destruct (NilEmpty.uint_of_string s).
  - cbn [string_rep]. change (String "0" ?a +:+ s) with (String "0" (a +:+ s)).
    cbn [NilEmpty.uint_of_string]. rewrite IH.
    by destruct (NilEmpty.uint_of_string s).
Qed.

Lemma of_uint_zeros k d : Z.of_uint (Nat.iter k Decimal.D0 d) = Z.of_uint d.
Proof. induction k as [|k IH]; [done|]. exact IH. Qed.

Lemma string_of_uint_head d c r :
  NilEmpty.string_of_uint d = String c r -> c <> "-"%char.
Proof. destruct d; intros [= <- _]; discriminate. Qed.

Lemma undec_zfill_uint w d :
  d <> Decimal.Nil ->
  undec (zfill w (NilEmpty.string_of_uint d)) = Some (Z.of_uint d).
Proof.
  intros Hd. unfold zfill, undec.
  destruct (NilEmpty.string_of_uint d) as [|c r] eqn:Hs; [by destruct d|].
  pose proof (string_of_uint_head d c r Hs) as Hc.
  assert (match String c r with
          | String "-"%char digits =>
              String "-"%char
                (string_rep "0"%char (w - String.length (String c r)) +:+ digits)
          | _ => string_rep "0"%char (w - String.length (String c r))
                   +:+ String c r
          end
          = string_rep "0"%char (w - String.length (String c r)) +:+ String c r)
    as ->.
  { destruct c as [[|] [|] [|] [|] [|] [|] [|] [|]]; try done. }
  rewrite <- Hs.
  set (k := (w - _)%nat). clearbody k.
  destruct k as [|k].
  - change (string_rep "0" 0 +:+ ?x) with x. rewrite Hs.
    unfold NilEmpty.int_of_string.
    destruct (Ascii.eqb_spec c "-"); [done|]. rewrite <- Hs.
    by rewrite NilEmpty.usu.
  - cbn [string_rep].
    change (String "0" ?a +:+ ?b) with (String "0" (a +:+ b)).
    unfold NilEmpty.int_of_string. change (Ascii.eqb "0" "-") with false.
    cbv iota.
    change (String "0" (string_rep "0" k +:+ NilEmpty.string_of_uint d))
      with (string_rep "0" (S k) +:+ NilEmpty.string_of_uint d).
    rewrite uint_of_zeros, NilEmpty.usu. cbn [option_map Z.of_int].
    by rewrite of_uint_zeros.
Qed.

Lemma undec_zfill_neg w d :
  d <> Decimal.Nil ->
  undec (zfill w (String "-" (NilEmpty.string_of_uint d)))
  = Some (- Z.of_uint d).
Proof.
  intros Hd. unfold zfill, undec. unfold NilEmpty.int_of_string.
  change (Ascii.eqb "-" "-") with true. cbv iota.
  rewrite uint_of_zeros, NilEmpty.usu. cbn [option_map Z.of_int].
  by rewrite of_uint_zeros.
Qed.

Lemma pos_to_uint_not_nil p : Pos.to_uint p <> Decimal.Nil.
Proof.
  intros H. apply (f_equal Pos.of_uint) in H.
  rewrite DecimalPos.Unsigned.of_to in H. discriminate.
Qed.

Lemma string_of_uint_not_nil d :
  d <> Decimal.Nil -> NilZero.string_of_uint d = NilEmpty.string_of_uint d.
Proof. by destruct d. Qed.

(** The zero-filled rendering of an index reads back as the index. *)
Lemma undec_zfill_dec w n : undec (zfill w (dec n)) = Some n.
Proof.
  unfold dec. destruct n as [|p|p].
  - change (NilZero.string_of_int (Z.to_int 0)) with "0".
    change "0" with (NilEmpty.string_of_uint (Decimal.D0 Decimal.Nil)).
    by rewrite undec_zfill_uint.
  - cbn [Z.to_int NilZero.string_of_int].
    rewrite string_of_uint_not_nil by apply pos_to_uint_not_nil.
    rewrite undec_zfill_uint by apply pos_to_uint_not_nil.
    f_equal. exact (DecimalZ.of_to (Z.pos p)).
  - cbn [Z.to_int NilZero.string_of_int].
    rewrite string_of_uint_not_nil by apply pos_to_uint_not_nil.
    rewrite undec_zfill_neg by apply pos_to_uint_not_nil.
    f_equal. exact (DecimalZ.of_to (Z.neg p)).
Qed.

Lemma zfill_dec_inj w i j : zfill w (dec i) = zfill w (dec j) -> i = j.
Proof.
  intros H. apply (f_equal undec) in H. rewrite !undec_zfill_dec in H.
  by injection H.
Qed.

(** X1.  The names that a constructed orchestrator gives to its instances are
    pairwise distinct: two indices give the same worker name only when they
    are equal, and no worker has the name of the master. *)
Theorem instance_names_unique get_by_id cluster_id a h p :
  __init__ get_by_id cluster_id a = inr h ->
  prefix h = PStr p ->
  has_percent p = false ->
  (forall i j, _WorkerName h i = _WorkerName h j -> i = j) /\
  (forall i, _WorkerName h i <> inr (master_name h)).
Proof.
  intros Hinit Hp Hpc.
  destruct (init_names _ _ _ _ _ Hinit Hp) as (Hm & Ht & _).
  split.
  - intros i j. rewrite !(worker_name_of_template h p _ Ht Hpc).
    intros [= H]. apply append_inj_l in H.
    apply (append_inj_l "-hadoop-worker-") in H. by apply zfill_dec_inj in H.
  - intros i. rewrite (worker_name_of_template h p _ Ht Hpc), Hm.
    intros [= H]. by apply append_inj_l in H.
Qed.

(** ** Provisioning any number of workers *)

(** The names and roles in the registry once the master and the workers
    [0 .. n-1] are provisioned. *)
Fixpoint provisioned (p : string) (n : nat) : gmap string string :=
  match n with
  | O => {[ p +:+ "-hadoop-master" := "master" ]}
  | S k => <[worker p (Z.of_nat k) := "worker"]> (provisioned p k)
  end.

(** The [CreateInstance] calls of a cluster with [n] workers: names and
    daemon flags, in order. *)
Definition expected_creates (p : string) (n : nat)
  : list (string * list string) :=
  (p +:+ "-hadoop-master", ["NameNode"; "JobTracker"])
  :: map (fun i => (worker p (Z.of_nat i), ["DataNode"; "TaskTracker"]))
         (seq 0 n).

(** The calls of one successful scratch-disk start, by kind. *)
Definition start_kinds (role : string) : list string :=
  ["uuid4"; "CreateInstance"; "InstanceInfo.put"]
  ++ (if String.eqb role "master" then ["SetMasterInstance"] else []).

(** What a [CreateInstance] call is checked for: the name and the daemons
    that its metadata switch on. *)
Definition name_and_flags (a : create_args) : string * list string :=
  (ca_name a, daemon_flags a).

Lemma worker_inj p i j : worker p i = worker p j -> i = j.
Proof.
  unfold worker. intros H. apply append_inj_l in H.
  apply (append_inj_l "-hadoop-worker-") in H. by apply zfill_dec_inj in H.
Qed.

Lemma provisioned_lookup_master p n :
  provisioned p n !! (p +:+ "-hadoop-master") = Some "master".
Proof.
  induction n as [|n IH]; cbn [provisioned].
  - by rewrite lookup_singleton_eq.
  - rewrite lookup_insert_ne; [done|].
    intros H. symmetry in H. by apply master_not_worker in H.
Qed.

Lemma provisioned_lookup_worker p n i :
  provisioned p n !! worker p (Z.of_nat i)
  = if decide (i < n)%nat then Some "worker" else None.
Proof.
  induction n as [|n IH]; cbn [provisioned].
  - rewrite lookup_singleton_ne by apply master_not_worker.
    case_decide; [exfalso; lia|done].
  - destruct (decide (i = n)) as [->|Hne].
    + clear IH. rewrite lookup_insert_eq. case_decide; [done|exfalso; lia].
    + rewrite lookup_insert_ne.
      * rewrite IH. repeat case_decide; done || (exfalso; lia).
      * intros H. apply worker_inj in H. lia.
Qed.

Lemma provisioned_size p n : size (provisioned p n) = S n.
Proof.
  induction n as [|n IH]; cbn [provisioned].
  - apply map_size_singleton.
  - rewrite map_size_insert_None, IH; [done|].
    rewrite provisioned_lookup_worker. case_decide; [exfalso; lia|done].
Qed.

Section InstanceRun.

Variable E : env.

(** A successful scratch-disk start, call by call. *)
Lemma StartInstance_run s ci instance_name role commands :
  cluster_info (self s) = Some ci ->
  dict_get INSTANCE_ROLES role = Some commands ->
  let rpckey := uuid4 E (tr s) in
  let a := scratch_args E (self s) instance_name rpckey commands in
  let ii := fresh_record instance_name role rpckey in
  let is_master := String.eqb role "master" in
  let ci' := if is_master then <["master" := PStr instance_name]> ci else ci in
  CreateInstance E (tr s ++ [EvUuid4 rpckey])%list a = true ->
  exists s',
    _StartInstance E instance_name role false s = Ok tt s' /\
    config_of (self s') = config_of (self s) /\
    cluster_info (self s') = Some ci' /\
    ds_cluster (ds s')
    = (if is_master then Some ci' else ds_cluster (ds s)) /\
    ds_instances (ds s') = <[instance_name := ii]> (ds_instances (ds s)) /\
    tr s' = (tr s ++ [EvUuid4 rpckey; EvCreateInstance a true; EvInstancePut ii]
                  ++ (if is_master then [EvSetMasterInstance instance_name]
                      else []))%list.
Proof.
  intros Hci Hrole rpckey a ii is_master ci' Hcreate.
  unfold _StartInstance, bind, get_self, ret, call_uuid4. cbv zeta.
  rewrite Hrole. unfold call_CreateInstance. cbv zeta. cbn [tr log].
  fold rpckey. change (CreateInstance E _ _) with
    (CreateInstance E (tr s ++ [EvUuid4 rpckey])%list a).
  rewrite Hcreate. cbn [negb]. rewrite Hci.
  unfold InstanceInfo_put, SetMasterInstance, record_instance.
  cbn [self log with_ds with_self ds].
  subst ci' is_master. destruct (String.eqb role "master").
  - cbn [self log with_ds with_self]. rewrite Hci.
    eexists. split; [reflexivity|]. cbn.
    split; [done|]. split; [done|]. split; [done|]. split; [done|].
    by rewrite <- !app_assoc.
  - eexists. split; [reflexivity|]. cbn.
    split; [done|]. split; [done|]. split; [done|]. split; [done|].
    by rewrite <- !app_assoc.
Qed.

End InstanceRun.

(** The roles after the workers [a .. a+n-1] are added to [m]. *)
Definition add_workers (p : string) (a n : nat) (m : gmap string string)
  : gmap string string :=
  foldl (fun m i => <[worker p (Z.of_nat i) := "worker"]> m) m (seq a n).

Lemma add_workers_provisioned p n :
  add_workers p 0 n {[ p +:+ "-hadoop-master" := "master" ]} = provisioned p n.
Proof.
  unfold add_workers. induction n as [|n IH]; [done|].
  rewrite seq_S, foldl_app. cbn [foldl provisioned]. by rewrite IH.
Qed.

Lemma kinds_app (a b : list event) :
  map event_kind (a ++ b) = (map event_kind a ++ map event_kind b)%list.
Proof. apply map_app. Qed.

Lemma name_and_flags_master E h n k :
  name_and_flags (scratch_args E h n k ["NameNode"; "JobTracker"])
  = (n, ["NameNode"; "JobTracker"]).
Proof. unfold name_and_flags. by rewrite scratch_args_flags_master. Qed.

Lemma name_and_flags_worker E h n k :
  name_and_flags (scratch_args E h n k ["DataNode"; "TaskTracker"])
  = (n, ["DataNode"; "TaskTracker"]).
Proof. unfold name_and_flags. by rewrite scratch_args_flags_worker. Qed.

Section AnyWorkers.

Variable E : env.
Hypothesis create_succeeds : forall t a, CreateInstance E t a = true.

Variable h : HadoopCluster.
Variable p : string.
Hypothesis no_percent : has_percent p = false.
Hypothesis h_master : master_name h = p +:+ "-hadoop-master".
Hypothesis h_template : worker_name_template h = p +:+ "-hadoop-worker-%03d".

Lemma start_worker_run s ci i :
  cluster_info (self s) = Some ci ->
  config_of (self s) = config_of h ->
  exists s' k,
    start_worker E i s = Ok tt s' /\
    config_of (self s') = config_of h /\
    cluster_info (self s') = Some ci /\
    ds_cluster (ds s') = ds_cluster (ds s) /\
    ds_instances (ds s')
    = <[worker p i := fresh_record (worker p i) "worker" k]>
        (ds_instances (ds s)) /\
    map event_kind (tr s')
    = (map event_kind (tr s) ++ start_kinds "worker")%list /\
    map name_and_flags (create_calls (tr s'))
    = (map name_and_flags (create_calls (tr s))
       ++ [(worker p i, ["DataNode"; "TaskTracker"])])%list.
Proof.
  intros Hci Hcfg. destruct (config_of_facts _ _ Hcfg) as (_ & Ht & _).
  unfold start_worker, bind, get_self.
  rewrite (worker_name_of_template (self s) p i); [|by rewrite Ht|done].
  cbv beta iota delta [lift ret].
  destruct (StartInstance_run E s ci (worker p i) "worker"
              ["DataNode"; "TaskTracker"] Hci eq_refl (create_succeeds _ _))
    as (s' & Hrun & Hc & Hci' & Hdc & Hds & Htr).
  exists s', (uuid4 E (tr s)). fold (worker p i). rewrite Hrun.
  split; [done|]. split; [by rewrite Hc|]. split; [exact Hci'|].
  split; [exact Hdc|]. split; [exact Hds|].
  rewrite Htr. cbn [String.eqb Ascii.eqb Bool.eqb] in *.
  split.
  - rewrite kinds_app. reflexivity.
  - rewrite create_calls_app. cbn [create_calls app]. rewrite map_app.
    cbn [map]. by rewrite name_and_flags_worker.
Qed.

Lemma start_workers_run n : forall a s ci,
  cluster_info (self s) = Some ci ->
  config_of (self s) = config_of h ->
  names_consistent (ds s) ->
  exists s',
    for_each (Z.of_nat <$> seq a n) (start_worker E) s = Ok tt s' /\
    config_of (self s') = config_of h /\
    cluster_info (self s') = Some ci /\
    ds_cluster (ds s') = ds_cluster (ds s) /\
    names_consistent (ds s') /\
    roles_of (ds s') = add_workers p a n (roles_of (ds s)) /\
    (forall name ii, ds_instances (ds s') !! name = Some ii ->
                     ii_external_ip ii = JNull \/
                     ds_instances (ds s) !! name = Some ii) /\
    map event_kind (tr s')
    = (map event_kind (tr s)
       ++ concat (replicate n (start_kinds "worker")))%list /\
    map name_and_flags (create_calls (tr s'))
    = (map name_and_flags (create_calls (tr s))
       ++ map (fun i => (worker p (Z.of_nat i), ["DataNode"; "TaskTracker"]))
              (seq a n))%list.
Proof.
  induction n as [|n IH]; intros a s ci Hci Hcfg Hnames.
  - exists s. cbn. rewrite !app_nil_r. repeat split; try done.
    intros name ii Hl. by right.
  - cbn [seq fmap list_fmap]. rewrite for_each_cons. unfold bind.
    destruct (start_worker_run s ci (Z.of_nat a) Hci Hcfg)
      as (s1 & k & -> & Hc1 & Hci1 & Hdc1 & Hds1 & Hk1 & Hcalls1).
    assert (names_consistent (ds s1)) as Hn1.
    { intros name ii. rewrite Hds1. intros Hl.
      apply lookup_insert_Some in Hl as [[<- <-]|[_ Hl]]; [done|].
      by apply Hnames. }
    destruct (IH (S a) s1 ci Hci1 Hc1 Hn1)
      as (s' & Hrun & Hc & Hci' & Hdc & Hn & Hroles & Hfresh & Hk & Hcalls).
    exists s'. change (list_fmap nat Z Z.of_nat (seq (S a) n))
      with (Z.of_nat <$> seq (S a) n). rewrite Hrun.
    split; [done|]. split; [done|]. split; [done|].
    split; [by rewrite Hdc|]. split; [done|].
    split; [|split; [|split]].
    + rewrite Hroles. unfold add_workers. cbn [seq foldl].
      f_equal. unfold roles_of. by rewrite Hds1, fmap_insert.
    + intros name ii Hl. destruct (Hfresh name ii Hl) as [?|Hl1]; [by left|].
      rewrite Hds1 in Hl1.
      apply lookup_insert_Some in Hl1 as [[_ <-]|[_ Hl1]]; [by left|by right].
    + rewrite Hk, Hk1. cbn [replicate concat]. by rewrite <- !app_assoc.
    + rewrite Hcalls, Hcalls1. cbn [seq map]. by rewrite <- !app_assoc.
Qed.

(** Provisioning: the master, then the workers in index order. *)
Lemma provisioning_run s n :
  self s = h ->
  num_workers h = PInt n ->
  fits_long n = true ->
  ds_instances (ds s) = ∅ ->
  exists s',
    start_sequence E s = _WaitForInstances E s' /\
    config_of (self s') = config_of h /\
    cluster_info (self s')
    = Some (<["master" := PStr (p +:+ "-hadoop-master")]> (new_ClusterInfo h)) /\
    ds_cluster (ds s') = cluster_info (self s') /\
    names_consistent (ds s') /\
    roles_of (ds s') = provisioned p (Z.to_nat n) /\
    (forall name ii, ds_instances (ds s') !! name = Some ii ->
                     ii_external_ip ii = JNull) /\
    map event_kind (tr s')
    = (map event_kind (tr s)
       ++ "ClusterInfo.put" :: start_kinds "master"
       ++ concat (replicate (Z.to_nat n) (start_kinds "worker")))%list /\
    map name_and_flags (create_calls (tr s'))
    = (map name_and_flags (create_calls (tr s))
       ++ expected_creates p (Z.to_nat n))%list.
Proof.
  intros Hself Hw Hfits Hempty.
  pose (s1 := stored_ClusterInfo s).
  assert (config_of (self s1) = config_of h) as Hc1 by (by rewrite <- Hself).
  assert (master_name (self s1) = p +:+ "-hadoop-master") as Hm1.
  { destruct (config_of_facts _ _ Hc1) as (-> & _). exact h_master. }
  destruct (StartInstance_run E s1 (new_ClusterInfo (self s))
              (p +:+ "-hadoop-master") "master"
              ["NameNode"; "JobTracker"] eq_refl eq_refl
              (create_succeeds _ _))
    as (s2 & Hrun2 & Hc2 & Hci2 & Hdc2 & Hds2 & Htr2).
  rewrite Hc1 in Hc2. cbn [String.eqb Ascii.eqb Bool.eqb] in Hci2, Hdc2, Htr2.
  change (ds_instances (ds s1)) with (ds_instances (ds s)) in Hds2.
  rewrite Hempty in Hds2.
  assert (names_consistent (ds s2)) as Hn2.
  { intros name ii. rewrite Hds2. intros Hl.
    apply lookup_insert_Some in Hl as [[<- <-]|[_ Hl]]; [done|].
    by rewrite lookup_empty in Hl. }
  destruct (start_workers_run (Z.to_nat n) 0%nat s2 _ Hci2 Hc2 Hn2)
    as (s3 & Hrun3 & Hc3 & Hci3 & Hdc3 & Hn3 & Hroles3 & Hfresh3 & Hk3 & Hcalls3).
  exists s3.
  split; [|split; [done|split; [|split; [|split; [done|split; [|split; [|split]]]]]]].
  - rewrite start_sequence_unfold. unfold bind at 1.
    unfold _StartMaster, bind at 1, get_self.
    change (stored_ClusterInfo s) with s1. rewrite Hm1, Hrun2.
    unfold bind at 1. unfold _StartWorkers, bind at 1, get_self.
    destruct (config_of_facts _ _ Hc2) as (_ & _ & ->). rewrite Hw.
    rewrite (xrange_fits n Hfits). unfold bind at 1.
    cbv beta iota delta [lift ret]. by rewrite Hrun3.
  - by rewrite Hci3, Hself.
  - by rewrite Hdc3, Hdc2, Hci3.
  - rewrite Hroles3. rewrite <- add_workers_provisioned. f_equal.
    unfold roles_of. rewrite Hds2, fmap_insert, fmap_empty.
    by rewrite insert_empty.
  - intros name ii Hl. destruct (Hfresh3 name ii Hl) as [?|Hl2]; [done|].
    rewrite Hds2 in Hl2.
    apply lookup_insert_Some in Hl2 as [[_ <-]|[_ Hl2]]; [done|].
    by rewrite lookup_empty in Hl2.
  - rewrite Hk3, Htr2. rewrite !kinds_app. cbn [map event_kind app].
    change (map event_kind (tr s1))
      with (map event_kind (tr s ++ [EvClusterPut (new_ClusterInfo (self s))])).
    rewrite kinds_app. cbn [map event_kind]. by rewrite <- !app_assoc.
  - rewrite Hcalls3, Htr2. rewrite !create_calls_app. cbn [create_calls app].
    change (create_calls (tr s1))
      with (create_calls (tr s ++ [EvClusterPut (new_ClusterInfo (self s))])).
    rewrite create_calls_app. cbn [create_calls]. rewrite app_nil_r.
    rewrite !map_app. cbn [map]. rewrite name_and_flags_master.
    unfold expected_creates. by rewrite <- !app_assoc.
Qed.

(** The calls of the waiting phase create nothing and keep the roles. *)
Lemma waiting_keeps_provisioning s :
  config_of (self s) = config_of h ->
  names_consistent (ds s) ->
  roles_of (ds (final_state (_WaitForInstances E s))) = roles_of (ds s) /\
  create_calls (tr (final_state (_WaitForInstances E s)))
  = create_calls (tr s).
Proof.
  intros Hc Hn.
  assert (wait_inv s s) as Hinv by (by split).
  destruct (WaitForInstances_protocol E h (wait_inv s)
              (wait_inv_log s)
              ltac:(intros ? (Hm & _); rewrite Hm;
                    by destruct (config_of_facts _ _ Hc) as (-> & _))
              ltac:(intros ? ? ? (_ & Hn' & _); apply Hn')
              (wait_inv_SetMasterIpAddress s)
              (wait_inv_persist s) 0%nat s Hinv)
    as (evs & Htr & Hacc & [Hcount _] & (_ & _ & Hr)).
  apply no_create_when_count_stays in Hcount.
  split; [exact Hr|]. by rewrite Htr, create_calls_app, Hcount, app_nil_r.
Qed.

Lemma start_any_workers s n :
  self s = h ->
  num_workers h = PInt n ->
  fits_long n = true ->
  ds_instances (ds s) = ∅ ->
  roles_of (ds (final_state (StartHadoopCluster E s)))
  = provisioned p (Z.to_nat n) /\
  map name_and_flags
      (create_calls (tr (final_state (StartHadoopCluster E s))))
  = (map name_and_flags (create_calls (tr s))
     ++ expected_creates p (Z.to_nat n))%list.
Proof.
  intros Hself Hw Hfits Hempty.
  destruct (provisioning_run s n Hself Hw Hfits Hempty)
    as (s1 & Hseq & Hc1 & _ & _ & Hn1 & Hroles1 & _ & _ & Hcalls1).
  destruct (waiting_keeps_provisioning s1 Hc1 Hn1) as [Hr Hcalls].
  destruct (StartHadoopCluster_after_sequence E s) as [Hinsts Hcalls'].
  rewrite Hseq in Hinsts, Hcalls'.
  split.
  - rewrite (roles_of_ext _ _ Hinsts), Hr. exact Hroles1.
  - rewrite Hcalls', Hcalls. exact Hcalls1.
Qed.

End AnyWorkers.

(** X2.  For every number of workers [n] that fits a C [long] (the bounds
    [xrange] accepts) and a provider that accepts every create, [StartHadoopCluster] on an empty registry issues exactly the
    create calls for the master and then for the workers [0 .. n-1], in
    this order and each with the daemon flags of its role, and leaves
    [n + 1] InstanceRecords, one per instance.  With [n <= 0] only the
    master is created.  This holds whatever the provider answers while the
    orchestrator waits for addresses and for the master. *)
Theorem start_creates_master_then_workers E get_by_id cluster_id a h p n s :
  (forall t c, CreateInstance E t c = true) ->
  __init__ get_by_id cluster_id a = inr h ->
  prefix h = PStr p ->
  has_percent p = false ->
  num_workers h = PInt n ->
  fits_long n = true ->
  self s = h ->
  ds_instances (ds s) = ∅ ->
  roles_of (ds (final_state (StartHadoopCluster E s)))
  = provisioned p (Z.to_nat n) /\
  size (ds_instances (ds (final_state (StartHadoopCluster E s))))
  = S (Z.to_nat n) /\
  map name_and_flags
      (create_calls (tr (final_state (StartHadoopCluster E s))))
  = (map name_and_flags (create_calls (tr s))
     ++ expected_creates p (Z.to_nat n))%list.
Proof.
  intros Hcreate Hinit Hp Hpc Hw Hfits Hself Hempty.
  destruct (init_names _ _ _ _ _ Hinit Hp) as (Hm & Ht & _).
  destruct (start_any_workers E Hcreate h p Hpc Hm Ht s n Hself Hw Hfits Hempty)
    as [Hr Hc].
  split; [exact Hr|]. split; [|exact Hc].
  rewrite <- (provisioned_size p (Z.to_nat n)), <- Hr.
  unfold roles_of. by rewrite map_size_fmap.
Qed.

(** ** A run on which every step succeeds at once *)

(** The calls of the waiting phase for one worker whose address is there at
    the first poll. *)
Definition wait_kinds : list string :=
  ["GetInstance"; "InstanceInfo.GetByName"; "InstanceInfo.put"].

(** The calls of a [StartHadoopCluster] run with [n] workers on which every
    step succeeds at once, by kind. *)
Definition ready_kinds (n : nat) : list string :=
  ("ClusterInfo.put" :: start_kinds "master"
     ++ concat (replicate n (start_kinds "worker")))
  ++ ["GetInstance"; "SetMasterIpAddress"]
  ++ concat (replicate n wait_kinds)
  ++ ["InstanceInfo.GetByName"; "fetch"].

(** The InstanceRecord carries an address. *)
Definition addressed (ii : InstanceInfo) : Prop :=
  exists host, ii_external_ip ii = JStr host.

Lemma WaitForInstances_eq E s :
  _WaitForInstances E s
  = match _WaitForExternalIp E (master_name (self s)) s with
    | Raise e s' => Raise e s'
    | Ok ip s2 =>
        match SetMasterIpAddress ip s2 with
        | Raise e s' => Raise e s'
        | Ok _ s3 =>
            match xrange (num_workers (self s)) with
            | inl e => Raise e s3
            | inr indices =>
                match for_each indices (wait_worker E) s3 with
                | Raise e s' => Raise e s'
                | Ok _ s4 => warm_up_loop E MASTER_WARM_UP_MAX_CHECK_TIMES s4
                end
            end
        end
    end.
Proof.
  unfold _WaitForInstances, bind, get_self.
  destruct (_WaitForExternalIp E _ s) as [ip s2|]; [|done].
  destruct (SetMasterIpAddress ip s2) as [[] s3|]; [|done].
  destruct (xrange _) as [e|indices]; [done|]. cbn [lift]. unfold ret.
  by destruct (for_each indices _ s3) as [[] s4|].
Qed.

Section Ideal.

Variable E : env.
Hypothesis address_assigned :
  forall t n, exists host, discovered (GetInstance E t n) = Some (JStr host).
Hypothesis master_ready : forall t u, conclusive_success (fetch E t u).

Lemma WaitForExternalIp_at_once instance_name s :
  exists host,
    _WaitForExternalIp E instance_name s
    = Ok (JStr host)
         (log (EvGetInstance instance_name
                 (GetInstance E (tr s) instance_name)) s).
Proof.
  destruct (address_assigned (tr s) instance_name) as [host Hd].
  exists host. unfold _WaitForExternalIp.
  change INSTANCE_IP_ADDRESS_MAX_CHECK_TIMES with (S 59).
  exact (found_address_step E instance_name 59 _ (JStr host) s Hd eq_refl).
Qed.

Variable p : string.
Hypothesis no_percent : has_percent p = false.

Lemma wait_worker_run s i ii :
  worker_name_template (self s) = p +:+ "-hadoop-worker-%03d" ->
  ds_instances (ds s) !! worker p i = Some ii ->
  exists s' host,
    wait_worker E i s = Ok tt s' /\
    self s' = self s /\
    ds_cluster (ds s') = ds_cluster (ds s) /\
    ds_instances (ds s')
    = <[ii_name ii := set_external_ip (JStr host) ii]> (ds_instances (ds s)) /\
    map event_kind (tr s') = (map event_kind (tr s) ++ wait_kinds)%list.
Proof.
  intros Ht Hii. unfold wait_worker, bind, get_self.
  rewrite (worker_name_of_template (self s) p i Ht no_percent).
  cbv beta iota delta [lift ret]. fold (worker p i).
  destruct (WaitForExternalIp_at_once (worker p i) s) as [host ->].
  unfold InstanceInfo_GetByName. cbn [ds log]. rewrite Hii.
  unfold InstanceInfo_put. eexists _, host. split; [reflexivity|].
  cbn [self ds tr log with_ds ds_cluster ds_instances].
  split; [done|]. split; [done|]. split; [done|].
  rewrite <- !app_assoc, kinds_app. reflexivity.
Qed.

(** The part of the registry that the waiting phase has reached: the
    records of the master and of the workers below [k] carry an address. *)
Definition reached (k : nat) (s : state) : Prop :=
  forall name ii,
    ds_instances (ds s) !! name = Some ii ->
    name = p +:+ "-hadoop-master" \/
    (exists i, (i < k)%nat /\ name = worker p (Z.of_nat i)) ->
    addressed ii.

Lemma wait_workers_run n : forall a s N,
  (a + n = N)%nat ->
  worker_name_template (self s) = p +:+ "-hadoop-worker-%03d" ->
  names_consistent (ds s) ->
  roles_of (ds s) = provisioned p N ->
  reached a s ->
  exists s',
    for_each (Z.of_nat <$> seq a n) (wait_worker E) s = Ok tt s' /\
    self s' = self s /\
    ds_cluster (ds s') = ds_cluster (ds s) /\
    names_consistent (ds s') /\
    roles_of (ds s') = provisioned p N /\
    reached N s' /\
    map event_kind (tr s')
    = (map event_kind (tr s) ++ concat (replicate n wait_kinds))%list.
Proof.
  induction n as [|n IH]; intros a s N HN Ht Hn Hr Hreached.
  - exists s. cbn. rewrite app_nil_r. assert (a = N) as <- by lia. done.
  - cbn [seq fmap list_fmap]. rewrite for_each_cons. unfold bind.
    assert (is_Some (ds_instances (ds s) !! worker p (Z.of_nat a))) as [ii Hii].
    { assert (roles_of (ds s) !! worker p (Z.of_nat a) = Some "worker") as Hl.
      { rewrite Hr, provisioned_lookup_worker. case_decide; [done|exfalso; lia]. }
      unfold roles_of in Hl. rewrite lookup_fmap in Hl.
      destruct (ds_instances (ds s) !! worker p (Z.of_nat a)); [by eexists|done]. }
    destruct (wait_worker_run s (Z.of_nat a) ii Ht Hii)
      as (s1 & host & -> & Hself1 & Hdc1 & Hds1 & Hk1).
    assert (ii_name ii = worker p (Z.of_nat a)) as Hname by (by apply Hn).
    rewrite Hname in Hds1.
    assert (names_consistent (ds s1)) as Hn1.
    { intros name ii'. rewrite Hds1. intros Hl.
      apply lookup_insert_Some in Hl as [[<- <-]|[_ Hl]]; [done|].
      by apply Hn. }
    assert (roles_of (ds s1) = provisioned p N) as Hr1.
    { rewrite <- Hr. unfold roles_of. rewrite Hds1, fmap_insert. cbn.
      apply insert_id. by rewrite lookup_fmap, Hii. }
    assert (reached (S a) s1) as Hreached1.
    { intros name ii'. rewrite Hds1. intros Hl Hwho.
      apply lookup_insert_Some in Hl as [[<- <-]|[Hne Hl]]; [by exists host|].
      apply (Hreached name ii' Hl).
      destruct Hwho as [?|(i & Hi & ->)]; [by left|]. right. exists i.
      split; [|done]. assert (i <> a) by (by intros ->). lia. }
    destruct (IH (S a) s1 N ltac:(lia) ltac:(by rewrite Hself1) Hn1 Hr1 Hreached1)
      as (s' & Hrun & Hself & Hdc & Hn' & Hr' & Hreached' & Hk).
    exists s'. change (list_fmap nat Z Z.of_nat (seq (S a) n))
      with (Z.of_nat <$> seq (S a) n). rewrite Hrun.
    split; [done|]. split; [by rewrite Hself|]. split; [by rewrite Hdc|].
    split; [done|]. split; [done|]. split; [done|].
    rewrite Hk, Hk1. cbn [replicate concat]. by rewrite <- !app_assoc.
Qed.

Hypothesis create_succeeds : forall t a, CreateInstance E t a = true.

Variable h : HadoopCluster.
Hypothesis h_master : master_name h = p +:+ "-hadoop-master".
Hypothesis h_template : worker_name_template h = p +:+ "-hadoop-worker-%03d".

(** The ClusterRecord once the master is attached. *)
Definition started_ClusterInfo : gmap string pyval :=
  <["master" := PStr (p +:+ "-hadoop-master")]> (new_ClusterInfo h).

Lemma provisioned_names n name :
  is_Some (provisioned p n !! name) ->
  name = p +:+ "-hadoop-master" \/
  exists i, (i < n)%nat /\ name = worker p (Z.of_nat i).
Proof.
  induction n as [|n IH]; cbn [provisioned]; intros [r Hl].
  - apply lookup_singleton_Some in Hl as [<- _]. by left.
  - apply lookup_insert_Some in Hl as [[<- _]|[_ Hl]].
    + right. exists n. split; [lia|done].
    + destruct (IH (ex_intro _ r Hl)) as [?|(i & Hi & ->)]; [by left|].
      right. exists i. split; [lia|done].
Qed.

Lemma start_ready s n :
  self s = h ->
  num_workers h = PInt n ->
  fits_long n = true ->
  ds_instances (ds s) = ∅ ->
  exists s',
    StartHadoopCluster E s = Ok tt s' /\
    ds_cluster (ds s') = Some started_ClusterInfo /\
    roles_of (ds s') = provisioned p (Z.to_nat n) /\
    (forall name ii, ds_instances (ds s') !! name = Some ii -> addressed ii) /\
    map event_kind (tr s')
    = (map event_kind (tr s) ++ ready_kinds (Z.to_nat n))%list.
Proof.
  intros Hself Hw Hfits Hempty.
  destruct (provisioning_run E create_succeeds h p no_percent h_master
              h_template s n Hself Hw Hfits Hempty)
    as (s1 & Hseq & Hc1 & Hci1 & Hdc1 & Hn1 & Hr1 & _ & Hk1 & _).
  destruct (config_of_facts _ _ Hc1) as (Hm1 & Ht1 & Hw1).
  rewrite h_master in Hm1. rewrite h_template in Ht1. rewrite Hw in Hw1.
  fold started_ClusterInfo in Hci1. rewrite Hci1 in Hdc1.
  (* the address of the master *)
  destruct (WaitForExternalIp_at_once (p +:+ "-hadoop-master") s1)
    as [hm Hip].
  set (s2 := log _ s1) in Hip.
  pose (s3 := log (EvSetMasterIpAddress (JStr hm))
                (with_ds {| ds_cluster := ds_cluster (ds s2);
                            ds_instances :=
                              alter (set_external_ip (JStr hm))
                                (p +:+ "-hadoop-master")
                                (ds_instances (ds s2)) |} s2)).
  assert (SetMasterIpAddress (JStr hm) s2 = Ok tt s3) as Hset.
  { unfold SetMasterIpAddress. change (cluster_info (self s2))
      with (cluster_info (self s1)). rewrite Hci1.
    unfold started_ClusterInfo. by rewrite lookup_insert_eq. }
  assert (is_Some (ds_instances (ds s1) !! (p +:+ "-hadoop-master")))
    as [iim Hiim].
  { assert (roles_of (ds s1) !! (p +:+ "-hadoop-master") = Some "master") as Hl.
    { by rewrite Hr1, provisioned_lookup_master. }
    unfold roles_of in Hl. rewrite lookup_fmap in Hl.
    destruct (ds_instances (ds s1) !! _); [by eexists|done]. }
  assert (names_consistent (ds s3)) as Hn3.
  { intros name ii. cbn. rewrite lookup_alter. case_decide; [|apply Hn1].
    subst name. rewrite Hiim. cbn. intros [= <-]. cbn. by apply Hn1. }
  assert (roles_of (ds s3) = provisioned p (Z.to_nat n)) as Hr3.
  { rewrite <- Hr1. unfold roles_of. cbn. apply map_eq. intros name.
    rewrite !lookup_fmap, lookup_alter. case_decide; [|done]. subst name.
    by rewrite Hiim. }
  assert (reached 0 s3) as Hreached3.
  { intros name ii. cbn. intros Hl [->|(i & Hi & _)]; [|lia].
    rewrite lookup_alter in Hl. case_decide; [|done].
    rewrite Hiim in Hl. cbn in Hl. injection Hl as <-. by exists hm. }
  destruct (wait_workers_run (Z.to_nat n) 0%nat s3 (Z.to_nat n)
              eq_refl Ht1 Hn3 Hr3 Hreached3)
    as (s4 & Hrun4 & Hself4 & Hdc4 & Hn4 & Hr4 & Hreached4 & Hk4).
  (* the master answers *)
  assert (is_Some (ds_instances (ds s4) !! (p +:+ "-hadoop-master")))
    as [ii4 Hii4].
  { assert (roles_of (ds s4) !! (p +:+ "-hadoop-master") = Some "master") as Hl.
    { by rewrite Hr4, provisioned_lookup_master. }
    unfold roles_of in Hl. rewrite lookup_fmap in Hl.
    destruct (ds_instances (ds s4) !! _); [by eexists|done]. }
  destruct (Hreached4 _ _ Hii4 (or_introl eq_refl)) as [host4 Hhost4].
  pose (url := "http://" +:+ host4 +:+ "/"
               +:+ _BuildRpcUrl E (ii_rpckey ii4)
                     "cat /var/log/STARTUP_SCRIPT_DONE").
  assert (master_reachable E (p +:+ "-hadoop-master") url s4) as Hreach.
  { split; [by rewrite Hself4|]. exists ii4, host4.
    split; [done|]. split; [by rewrite Hhost4|done]. }
  assert (_WaitForInstances E s1
          = Ok tt (after_attempt E (p +:+ "-hadoop-master") url s4)) as Hwait.
  { rewrite WaitForInstances_eq, Hm1, Hip, Hset, Hw1.
    rewrite (xrange_fits n Hfits).
    rewrite Hrun4. change MASTER_WARM_UP_MAX_CHECK_TIMES with (S 19).
    apply (success_step E _ url 19 s4 Hreach). apply master_ready. }
  exists (after_attempt E (p +:+ "-hadoop-master") url s4).
  split; [|split; [|split; [|split]]].
  - unfold StartHadoopCluster, except_ClusterSetUpError.
    by rewrite Hseq, Hwait.
  - cbn. by rewrite Hdc4.
  - exact Hr4.
  - intros name ii Hl. apply (Hreached4 name ii Hl).
    apply provisioned_names. rewrite <- Hr4. unfold roles_of.
    rewrite lookup_fmap. change (ds_instances (ds (after_attempt _ _ _ s4)))
      with (ds_instances (ds s4)) in Hl. by rewrite Hl.
  - cbn [after_attempt with_tr tr]. rewrite kinds_app, Hk4.
    change (map event_kind (tr s3))
      with (map event_kind
              ((tr s1 ++ [EvGetInstance (p +:+ "-hadoop-master")
                            (GetInstance E (tr s1) (p +:+ "-hadoop-master"))])
               ++ [EvSetMasterIpAddress (JStr hm)])).
    rewrite !kinds_app, Hk1. unfold ready_kinds. cbn [map event_kind].
    by rewrite <- !app_assoc.
Qed.

End Ideal.

(** X3.  With a provider that accepts every create, reports an address at the
    first poll of every instance, and a master that reports success at the
    first request, [StartHadoopCluster] for [n] workers ([n] within the
    range of a C [long]) on an empty registry returns after exactly the
    calls of [ready_kinds]: it never sleeps and
    writes no status.  It leaves the ClusterRecord with its master
    reference, and one InstanceRecord per instance, each with its
    address. *)
Theorem start_succeeds_at_once E get_by_id cluster_id a h p n s :
  (forall t c, CreateInstance E t c = true) ->
  (forall t i, exists host, discovered (GetInstance E t i) = Some (JStr host)) ->
  (forall t u, conclusive_success (fetch E t u)) ->
  __init__ get_by_id cluster_id a = inr h ->
  prefix h = PStr p ->
  has_percent p = false ->
  num_workers h = PInt n ->
  fits_long n = true ->
  self s = h ->
  ds_instances (ds s) = ∅ ->
  exists s',
    StartHadoopCluster E s = Ok tt s' /\
    ds_cluster (ds s')
    = Some (<["master" := PStr (master_name h)]> (new_ClusterInfo h)) /\
    roles_of (ds s') = provisioned p (Z.to_nat n) /\
    (forall name ii, ds_instances (ds s') !! name = Some ii ->
                     exists host, ii_external_ip ii = JStr host) /\
    map event_kind (tr s')
    = (map event_kind (tr s) ++ ready_kinds (Z.to_nat n))%list.
Proof.
  intros Hcreate Hip Hfetch Hinit Hp Hpc Hw Hfits Hself Hempty.
  destruct (init_names _ _ _ _ _ Hinit Hp) as (Hm & Ht & _).
  rewrite Hm.
  exact (start_ready E Hip Hfetch p Hpc Hcreate h Hm Ht s n Hself Hw Hfits
           Hempty).
Qed.

(** ** Exceptions that [StartHadoopCluster] does not catch *)

Lemma StartWorkers_not_integer E s :
  (forall n, num_workers (self s) <> PInt n) ->
  _StartWorkers E s = Raise TypeError s.
Proof.
  intros Hw. unfold _StartWorkers, bind, get_self.
  destruct (num_workers (self s)) as [|n|w]; [done| |done].
  by destruct (Hw n).
Qed.

(** X4.  When [num_workers] is not an integer (it is [None] when the
    ClusterRecord that the constructor read has no such field), the run
    stores the ClusterRecord, creates and records the master, and then
    stops with a [TypeError] that [StartHadoopCluster] does not catch: no
    worker is created and no [ERROR] status is written. *)
Theorem start_workers_not_integer E s :
  (forall t a, CreateInstance E t a = true) ->
  (forall n, num_workers (self s) <> PInt n) ->
  exists s' k,
    StartHadoopCluster E s = Raise TypeError s' /\
    map event_kind (tr s')
    = (map event_kind (tr s) ++ "ClusterInfo.put" :: start_kinds "master")%list /\
    ds_cluster (ds s')
    = Some (<["master" := PStr (master_name (self s))]>
              (new_ClusterInfo (self s))) /\
    ds_instances (ds s')
    = <[master_name (self s)
        := fresh_record (master_name (self s)) "master" k]>
        (ds_instances (ds s)).
Proof.
  intros Hcreate Hw.
  pose (s1 := stored_ClusterInfo s).
  destruct (StartInstance_run E s1 (new_ClusterInfo (self s))
              (master_name (self s)) "master"
              ["NameNode"; "JobTracker"] eq_refl eq_refl (Hcreate _ _))
    as (s2 & Hrun2 & Hc2 & Hci2 & Hdc2 & Hds2 & Htr2).
  cbn [String.eqb Ascii.eqb Bool.eqb] in Hci2, Hdc2, Htr2.
  assert (forall n, num_workers (self s2) <> PInt n) as Hw2.
  { destruct (config_of_facts _ _ Hc2) as (_ & _ & ->). exact Hw. }
  exists s2, (uuid4 E (tr s1)).
  split; [|split; [|split]].
  - unfold StartHadoopCluster, except_ClusterSetUpError.
    rewrite start_sequence_unfold. unfold bind at 1.
    unfold _StartMaster, bind at 1, get_self.
    change (stored_ClusterInfo s) with s1.
    change (master_name (self s1)) with (master_name (self s)).
    rewrite Hrun2. unfold bind at 1.
    by rewrite (StartWorkers_not_integer E s2 Hw2).
  - rewrite Htr2, kinds_app.
    change (map event_kind (tr s1))
      with (map event_kind (tr s ++ [EvClusterPut (new_ClusterInfo (self s))])).
    rewrite kinds_app. cbn [map event_kind]. by rewrite <- !app_assoc.
  - exact Hdc2.
  - exact Hds2.
Qed.

Lemma StartWorkers_overflow E s n :
  num_workers (self s) = PInt n ->
  fits_long n = false ->
  _StartWorkers E s = Raise OverflowError s.
Proof.
  intros Hw Hfits. unfold _StartWorkers, bind, get_self.
  by rewrite Hw, (xrange_overflow n Hfits).
Qed.

(** X15.  When [num_workers] is an integer outside the range of a C [long],
    [xrange] refuses it: the run stores the ClusterRecord, creates and
    records the master, and then stops with an [OverflowError] that
    [StartHadoopCluster] does not catch: no worker is created and no
    [ERROR] status is written. *)
Theorem start_workers_overflow E s n :
  (forall t a, CreateInstance E t a = true) ->
  num_workers (self s) = PInt n ->
  fits_long n = false ->
  exists s' k,
    StartHadoopCluster E s = Raise OverflowError s' /\
    map event_kind (tr s')
    = (map event_kind (tr s) ++ "ClusterInfo.put" :: start_kinds "master")%list /\
    ds_cluster (ds s')
    = Some (<["master" := PStr (master_name (self s))]>
              (new_ClusterInfo (self s))) /\
    ds_instances (ds s')
    = <[master_name (self s)
        := fresh_record (master_name (self s)) "master" k]>
        (ds_instances (ds s)).
Proof.
  intros Hcreate Hw Hfits.
  pose (s1 := stored_ClusterInfo s).
  destruct (StartInstance_run E s1 (new_ClusterInfo (self s))
              (master_name (self s)) "master"
              ["NameNode"; "JobTracker"] eq_refl eq_refl (Hcreate _ _))
    as (s2 & Hrun2 & Hc2 & Hci2 & Hdc2 & Hds2 & Htr2).
  cbn [String.eqb Ascii.eqb Bool.eqb] in Hci2, Hdc2, Htr2.
  assert (num_workers (self s2) = PInt n) as Hw2.
  { destruct (config_of_facts _ _ Hc2) as (_ & _ & ->). exact Hw. }
  exists s2, (uuid4 E (tr s1)).
  split; [|split; [|split]].
  - unfold StartHadoopCluster, except_ClusterSetUpError.
    rewrite start_sequence_unfold. unfold bind at 1.
    unfold _StartMaster, bind at 1, get_self.
    change (stored_ClusterInfo s) with s1.
    change (master_name (self s1)) with (master_name (self s)).
    rewrite Hrun2. unfold bind at 1.
    by rewrite (StartWorkers_overflow E s2 n Hw2 Hfits).
  - rewrite Htr2, kinds_app.
    change (map event_kind (tr s1))
      with (map event_kind (tr s ++ [EvClusterPut (new_ClusterInfo (self s))])).
    rewrite kinds_app. cbn [map event_kind]. by rewrite <- !app_assoc.
  - exact Hdc2.
  - exact Hds2.
Qed.

Lemma WaitForExternalIp_loop_TypeError E n instance_name s :
  json_truthy (GetInstance E (tr s) instance_name) = true ->
  natIP_of (GetInstance E (tr s) instance_name) = inl TypeError ->
  _WaitForExternalIp_loop E (S n) instance_name s
  = Raise TypeError
      (log (EvGetInstance instance_name (GetInstance E (tr s) instance_name))
         s).
Proof.
  intros Ht Hn. cbn [_WaitForExternalIp_loop].
  unfold bind, call_GetInstance. cbv zeta. by rewrite Ht, Hn.
Qed.

Lemma WaitForExternalIp_TypeError E instance_name s :
  json_truthy (GetInstance E (tr s) instance_name) = true ->
  natIP_of (GetInstance E (tr s) instance_name) = inl TypeError ->
  _WaitForExternalIp E instance_name s
  = Raise TypeError
      (log (EvGetInstance instance_name (GetInstance E (tr s) instance_name))
         s).
Proof.
  intros Ht Hn. unfold _WaitForExternalIp.
  change INSTANCE_IP_ADDRESS_MAX_CHECK_TIMES with (S 59).
  exact (WaitForExternalIp_loop_TypeError E 59 instance_name s Ht Hn).
Qed.

(** X5.  Only a missing key and an index out of range count as "no address
    yet".  When the master's descriptor is there but the path to its address
    goes through a value of another type ([TypeError]), the discovery stops
    at the first poll without sleeping, and the [TypeError] leaves
    [StartHadoopCluster]: all [n + 1] instances have been created ([n]
    within the range of a C [long]), and no [ERROR] status is written. *)
Theorem start_malformed_descriptor E get_by_id cluster_id a h p n s :
  (forall t c, CreateInstance E t c = true) ->
  (forall t, json_truthy (GetInstance E t (master_name h)) = true /\
             natIP_of (GetInstance E t (master_name h)) = inl TypeError) ->
  __init__ get_by_id cluster_id a = inr h ->
  prefix h = PStr p ->
  has_percent p = false ->
  num_workers h = PInt n ->
  fits_long n = true ->
  self s = h ->
  ds_instances (ds s) = ∅ ->
  exists s',
    StartHadoopCluster E s = Raise TypeError s' /\
    map event_kind (tr s')
    = (map event_kind (tr s)
       ++ ("ClusterInfo.put" :: start_kinds "master"
           ++ concat (replicate (Z.to_nat n) (start_kinds "worker")))
       ++ ["GetInstance"])%list /\
    roles_of (ds s') = provisioned p (Z.to_nat n) /\
    ds_cluster (ds s')
    = Some (<["master" := PStr (master_name h)]> (new_ClusterInfo h)).
Proof.
  intros Hcreate Hbad Hinit Hp Hpc Hw Hfits Hself Hempty.
  destruct (init_names _ _ _ _ _ Hinit Hp) as (Hm & Ht & _).
  destruct (provisioning_run E Hcreate h p Hpc Hm Ht s n Hself Hw Hfits
              Hempty)
    as (s1 & Hseq & Hc1 & Hci1 & Hdc1 & Hn1 & Hr1 & _ & Hk1 & _).
  destruct (config_of_facts _ _ Hc1) as (Hm1 & _ & _).
  destruct (Hbad (tr s1)) as [Htruthy Hnat].
  eexists. split; [|split; [|split]].
  - unfold StartHadoopCluster, except_ClusterSetUpError.
    rewrite Hseq, WaitForInstances_eq, Hm1.
    by rewrite (WaitForExternalIp_TypeError E _ s1 Htruthy Hnat).
  - cbn [tr log]. rewrite kinds_app, Hk1. cbn [map event_kind].
    by rewrite <- !app_assoc.
  - exact Hr1.
  - cbn [ds log]. by rewrite Hdc1, Hci1, Hm.
Qed.

(** ** The time spent waiting for an address *)

(** The seconds slept in a trace. *)
Fixpoint slept (t : trace) : Z :=
  match t with
  | [] => 0
  | EvSleep secs :: rest => secs + slept rest
  | _ :: rest => slept rest
  end.

Lemma slept_app (a b : trace) : slept (a ++ b)%list = slept a + slept b.
Proof.
  induction a as [|e a IH]; [done|]. destruct e; cbn [app slept]; lia.
Qed.

Lemma slept_ip_poll_trace E instance_name t0 j :
  slept (ip_poll_trace E instance_name t0 j)
  = slept t0 + INSTANCE_IP_ADDRESS_CHECK_INTERVAL * Z.of_nat j.
Proof.
  induction j as [|j IH]; cbn [ip_poll_trace]; [lia|].
  rewrite slept_app, IH. cbn [slept].
  unfold INSTANCE_IP_ADDRESS_CHECK_INTERVAL. lia.
Qed.

(** X6.  [_WaitForExternalIp] sleeps 5 seconds after every poll that finds no
    address, the last one included: it has slept [5 * (N - 1)] seconds when
    poll [N] finds the address, and 300 seconds when it gives up after 60
    polls.  It changes neither the orchestrator nor the registry. *)
Theorem ip_discovery_sleeps E instance_name s :
  (forall N ip,
     (1 <= N <= INSTANCE_IP_ADDRESS_MAX_CHECK_TIMES)%nat ->
     (forall j, (j < N - 1)%nat ->
                lacks_address (ip_poll_answer E instance_name (tr s) j)) ->
     discovered (ip_poll_answer E instance_name (tr s) (N - 1)) = Some ip ->
     exists s',
       _WaitForExternalIp E instance_name s = Ok ip s' /\
       slept (tr s') = slept (tr s) + 5 * (Z.of_nat N - 1) /\
       self s' = self s /\ ds s' = ds s) /\
  ((forall j, (j < INSTANCE_IP_ADDRESS_MAX_CHECK_TIMES)%nat ->
              lacks_address (ip_poll_answer E instance_name (tr s) j)) ->
   exists s' msg,
     _WaitForExternalIp E instance_name s = Raise (ClusterSetUpError msg) s' /\
     slept (tr s') = slept (tr s) + 300 /\
     self s' = self s /\ ds s' = ds s).
Proof.
  split.
  - intros N ip HN Hlack Hfound. unfold _WaitForExternalIp.
    rewrite (poll_until_found E instance_name (N - 1) _ s ip); [|lia|done|done].
    eexists. split; [done|]. cbn [tr with_tr self ds].
    rewrite slept_app, slept_ip_poll_trace. cbn [slept].
    unfold INSTANCE_IP_ADDRESS_CHECK_INTERVAL. split; [lia|done].
  - intros Hlack. unfold _WaitForExternalIp.
    rewrite (poll_until_timeout E instance_name _ s Hlack).
    eexists _, _. split; [done|]. cbn [tr with_tr self ds].
    rewrite slept_ip_poll_trace. split; [|done].
    unfold INSTANCE_IP_ADDRESS_CHECK_INTERVAL,
      INSTANCE_IP_ADDRESS_MAX_CHECK_TIMES. lia.
Qed.

(** ** Teardown needs the ClusterRecord *)

(** X7.  An orchestrator constructed without a [cluster_id], or with one that
    resolves to no ClusterRecord, holds no record: [TeardownCluster] on it
    stops at once with [AttributeError], before any call to the registry or
    to the provider. *)
Theorem teardown_needs_record E get_by_id cluster_id a h s fuel :
  __init__ get_by_id cluster_id a = inr h ->
  init_cluster_info get_by_id cluster_id = None ->
  self s = h ->
  TeardownCluster E fuel s = Some (Raise AttributeError s).
Proof.
  intros Hinit Hnone Hself. unfold __init__ in Hinit. cbv zeta in Hinit.
  rewrite Hnone in Hinit.
  destruct (py_add_str _ _) as [|pd]; [done|]. injection Hinit as <-.
  unfold TeardownCluster, SetStatus. by rewrite Hself.
Qed.

(** ** The create call of an instance *)

(** The keys of the metadata that every instance gets. *)
Definition BASE_METADATA_KEYS : list string :=
  [ "startup-script-url"; "rpckey"; "disk-id"; "hostname-prefix";
    "num-workers"; "hadoop-master"; "hadoop-worker-template";
    "tmp-cloud-storage"; "custom-command"; "hadoop-patch" ].

Lemma dom_add_commands commands (m : gmap string pyval) :
  dom (add_commands commands m) = list_to_set commands ∪ dom m.
Proof.
  unfold add_commands. revert m.
  induction commands as [|c commands IH]; intros m; cbn [foldl list_to_set].
  - by rewrite (left_id_L ∅ (∪)).
  - rewrite IH, dom_insert_L, !(assoc_L (∪)).
    by rewrite (comm_L (∪) (list_to_set commands)).
Qed.

Lemma lookup_add_commands commands (m : gmap string pyval) c :
  c ∈ commands -> add_commands commands m !! c = Some (PInt 1).
Proof.
  unfold add_commands. revert m.
  induction commands as [|c' commands IH]; intros m Hc; [by inversion Hc|].
  cbn [foldl]. destruct (decide (c ∈ commands)) as [Hin|Hnin]; [by apply IH|].
  assert (c = c') as <- by (inversion Hc; done).
  clear IH Hc. revert m. induction commands as [|c2 commands IH2]; intros m.
  - cbn. by rewrite lookup_insert_eq.
  - cbn [foldl]. rewrite not_elem_of_cons in Hnin. destruct Hnin as [Hne Hnin].
    rewrite insert_insert_ne by done. by apply IH2.
Qed.

Lemma lookup_add_commands_ne commands (m : gmap string pyval) k :
  k ∉ commands -> add_commands commands m !! k = m !! k.
Proof.
  unfold add_commands. revert m.
  induction commands as [|c commands IH]; intros m Hk; [done|].
  rewrite not_elem_of_cons in Hk. destruct Hk as [Hne Hk].
  cbn [foldl]. rewrite IH by done. by rewrite lookup_insert_ne.
Qed.

Lemma lookup_base_metadata commands (m : gmap string pyval) k v :
  (forall c, c ∈ commands -> c <> k) ->
  m !! k = v -> add_commands commands m !! k = v.
Proof.
  intros Hk <-. apply lookup_add_commands_ne. intros Hc. by apply (Hk k).
Qed.

Lemma role_commands role commands :
  dict_get INSTANCE_ROLES role = Some commands ->
  commands = ["NameNode"; "JobTracker"] \/ commands = ["DataNode"; "TaskTracker"].
Proof.
  unfold INSTANCE_ROLES. cbn [dict_get].
  destruct (String.eqb "master" role); [intros [= <-]; by left|].
  destruct (String.eqb "worker" role); [intros [= <-]; by right|done].
Qed.

(** X8.  A scratch-disk start with a valid role that the provider accepts makes
    one [CreateInstance] call.  Its metadata has exactly the ten base keys
    and one key, with value 1, for each daemon of the role.  The [rpckey] is
    the credential just generated, the one stored in the InstanceRecord;
    the storage keys are built from the configured bucket; the other base
    keys carry the attributes of the orchestrator.  The machine type is the
    scratch-disk variant, there is no persistent disk, and the disk id is
    [google-ephemeral-disk-0]. *)
Theorem create_call_metadata E s ci instance_name role commands :
  cluster_info (self s) = Some ci ->
  dict_get INSTANCE_ROLES role = Some commands ->
  CreateInstance E (tr s ++ [EvUuid4 (uuid4 E (tr s))])%list
    (scratch_args E (self s) instance_name (uuid4 E (tr s)) commands) = true ->
  exists s' a ii,
    _StartInstance E instance_name role false s = Ok tt s' /\
    create_calls (tr s') = (create_calls (tr s) ++ [a])%list /\
    ds_instances (ds s') !! instance_name = Some ii /\
    ii_role ii = role /\ ii_external_ip ii = JNull /\
    ca_name a = instance_name /\
    ca_machinetype a = PStr (machinetype_scratch_disk (self s)) /\
    ca_persistent_disk a = None /\
    dom (ca_metadata a)
    = list_to_set commands ∪ list_to_set BASE_METADATA_KEYS /\
    (forall c, c ∈ commands -> ca_metadata a !! c = Some (PInt 1)) /\
    ca_metadata a !! "rpckey" = Some (PStr (ii_rpckey ii)) /\
    ca_metadata a !! "disk-id" = Some (PStr "google-ephemeral-disk-0") /\
    ca_metadata a !! "startup-script-url"
    = Some (PStr (cloud_storage_bucket E +:+ "/hadoop/startup-script.sh")) /\
    ca_metadata a !! "tmp-cloud-storage"
    = Some (PStr (cloud_storage_bucket E +:+ "/hadoop")) /\
    ca_metadata a !! "hostname-prefix" = Some (prefix (self s)) /\
    ca_metadata a !! "num-workers" = Some (num_workers (self s)) /\
    ca_metadata a !! "hadoop-master" = Some (PStr (master_name (self s))) /\
    ca_metadata a !! "hadoop-worker-template"
    = Some (PStr (worker_name_template (self s))) /\
    ca_metadata a !! "custom-command" = Some (custom_command (self s)) /\
    ca_metadata a !! "hadoop-patch" = Some (PStr "hadoop-1.2.1.patch").
Proof.
  intros Hci Hrole Hcreate.
  destruct (StartInstance_run E s ci instance_name role commands Hci Hrole
              Hcreate)
    as (s' & Hrun & _ & _ & _ & Hds & Htr).
  assert (forall k, In k BASE_METADATA_KEYS ->
                    forall c, c ∈ commands -> c <> k) as Hbase.
  { intros k Hk c Hc ->.
    destruct (role_commands role commands Hrole) as [-> | ->];
      apply list_elem_of_In in Hc; cbn in Hk, Hc;
      repeat (destruct Hk as [<-|Hk]; [repeat (destruct Hc as [Hc|Hc];
                                                 [discriminate Hc|]); done|]);
      done. }
  assert (forall k v, In k BASE_METADATA_KEYS ->
            base_metadata E (self s) (uuid4 E (tr s)) "ephemeral-disk-0" !! k = v ->
            add_commands commands
              (base_metadata E (self s) (uuid4 E (tr s)) "ephemeral-disk-0") !! k
            = v) as Hlook.
  { intros k v Hk. apply lookup_base_metadata. by apply Hbase. }
  eexists s', _, _. split; [exact Hrun|]. split.
  { rewrite Htr, create_calls_app. cbn [create_calls app].
    destruct (String.eqb role "master"); cbn [create_calls]; reflexivity. }
  split; [by rewrite Hds, lookup_insert_eq|].
  split; [done|]. split; [done|]. split; [done|]. split; [done|].
  split; [done|].
  cbn [ca_metadata scratch_args ii_rpckey fresh_record].
  split.
  { rewrite dom_add_commands.
    apply (f_equal (fun x : gset string => list_to_set commands ∪ x)).
    unfold base_metadata, BASE_METADATA_KEYS.
    cbn [list_to_map foldr fst snd list_to_set].
    by rewrite !dom_insert_L, dom_empty_L. }
  split; [intros c Hc; by apply lookup_add_commands|].
  unfold _GetTmpCloudStorage in Hlook.
  repeat split;
    (apply Hlook; [cbn; tauto|]);
    unfold base_metadata; cbn [list_to_map foldr fst snd];
    repeat (rewrite ?lookup_insert_eq; rewrite ?lookup_insert_ne by done);
    try done.
  unfold _GetTmpCloudStorage, COMPUTE_STARTUP_SCRIPT.
  by rewrite append_assoc.
Qed.

(** ** Starting an instance on a persistent disk *)

(** The arguments of the [CreateInstance] call of a persistent-disk
    start. *)
Definition persistent_args (E : env) (h : HadoopCluster)
    (instance_name rpckey : string) (commands : list string) : create_args :=
  let disk := instance_name +:+ PERSISTENT_DISK_SUFFIX in
  {| ca_name := instance_name;
     ca_network := network h;
     ca_machinetype := machinetype_persistent_disk h;
     ca_image := image h;
     ca_persistent_disk := Some disk;
     ca_service_accounts :=
       ["https://www.googleapis.com/auth/devstorage.full_control"];
     ca_metadata := add_commands commands (base_metadata E h rpckey disk) |}.

(** The state in which a persistent-disk start generates the credential:
    after the disk was found, or was created. *)
Definition disk_ready (E : env) (disk : string) (s : state) : option state :=
  let info := GetDisk E (tr s) disk in
  let s1 := log (EvGetDisk disk info) s in
  if json_truthy info then Some s1
  else
    let created := CreatePersistentDisk E (tr s1) disk PERSISTENT_DISK_SIZE_GB true in
    let s2 := log (EvCreatePersistentDisk disk PERSISTENT_DISK_SIZE_GB true
                     created) s1 in
    if created then Some s2 else None.

Lemma MaybeCreatePersistentDisk_ready E disk s :
  _MaybeCreatePersistentDisk E disk s
  = match disk_ready E disk s with
    | Some s1 => Ok tt s1
    | None =>
        Raise (ClusterSetUpError ("Failed to create persistent disk " +:+ disk))
          (log (EvCreatePersistentDisk disk PERSISTENT_DISK_SIZE_GB true false)
             (log (EvGetDisk disk (GetDisk E (tr s) disk)) s))
    end.
Proof.
  unfold _MaybeCreatePersistentDisk, disk_ready, bind, call_GetDisk,
    call_CreatePersistentDisk. cbv zeta.
  destruct (json_truthy (GetDisk E (tr s) disk)); [done|]. cbn [negb].
  by destruct (CreatePersistentDisk E _ disk _ true) eqn:Hc.
Qed.

(** X9.  With [persistent_disk=True] the disk [<instance_name>-pd] is looked up
    first and is created, with 100 GB and waiting for completion, only when
    it is absent.  When the creation fails the start stops there, before
    any credential is generated and any instance is created.  Otherwise the
    instance is created with that disk attached, the machine type without
    scratch disk and the disk id [google-<instance_name>-pd], and its
    InstanceRecord is stored. *)
Theorem persistent_disk_start E s ci instance_name role commands :
  cluster_info (self s) = Some ci ->
  dict_get INSTANCE_ROLES role = Some commands ->
  (forall t a, CreateInstance E t a = true) ->
  let disk := instance_name +:+ "-pd" in
  match disk_ready E disk s with
  | None =>
      json_truthy (GetDisk E (tr s) disk) = false /\
      exists s',
        _StartInstance E instance_name role true s
        = Raise (ClusterSetUpError
                   ("Failed to create persistent disk " +:+ disk)) s' /\
        map event_kind (tr s')
        = (map event_kind (tr s) ++ ["GetDisk"; "CreatePersistentDisk"])%list /\
        ds s' = ds s
  | Some s1 =>
      map event_kind (tr s1)
      = (map event_kind (tr s)
         ++ "GetDisk" :: (if json_truthy (GetDisk E (tr s) disk) then []
                          else ["CreatePersistentDisk"]))%list /\
      exists s',
        _StartInstance E instance_name role true s = Ok tt s' /\
        tr s'
        = (tr s1
           ++ [EvUuid4 (uuid4 E (tr s1));
               EvCreateInstance
                 (persistent_args E (self s) instance_name (uuid4 E (tr s1))
                    commands) true;
               EvInstancePut
                 (fresh_record instance_name role (uuid4 E (tr s1)))]
           ++ (if String.eqb role "master"
               then [EvSetMasterInstance instance_name] else []))%list /\
        ds_instances (ds s') !! instance_name
        = Some (fresh_record instance_name role (uuid4 E (tr s1)))
  end.
Proof.
  intros Hci Hrole Hcreate disk.
  change (instance_name +:+ "-pd")
    with (instance_name +:+ PERSISTENT_DISK_SUFFIX) in disk.
  unfold _StartInstance, bind, get_self, ret. fold disk.
  rewrite (MaybeCreatePersistentDisk_ready E disk s).
  pose proof (eq_refl : disk_ready E disk s = disk_ready E disk s) as Hready.
  unfold disk_ready at 2 in Hready. cbv zeta in Hready.
  destruct (disk_ready E disk s) as [s1|].
  - assert (self s1 = self s /\ ds s1 = ds s /\
            map event_kind (tr s1)
            = (map event_kind (tr s)
               ++ "GetDisk" :: (if json_truthy (GetDisk E (tr s) disk) then []
                                else ["CreatePersistentDisk"]))%list)
      as (Hself1 & Hds1 & Hk1).
    { destruct (json_truthy (GetDisk E (tr s) disk)).
      - injection Hready as ->. cbn [self ds tr log]. by rewrite kinds_app.
      - destruct (CreatePersistentDisk E _ disk _ true); [|done].
        injection Hready as ->. cbn [self ds tr log].
        by rewrite <- app_assoc, kinds_app. }
    split; [exact Hk1|].
    unfold call_uuid4. cbv zeta.
    rewrite Hrole. unfold call_CreateInstance. cbv zeta.
    cbn [tr log]. rewrite Hcreate. cbn [negb]. rewrite Hci.
    unfold InstanceInfo_put, SetMasterInstance, record_instance.
    cbn [self log with_ds with_self ds].
    destruct (String.eqb role "master").
    + cbn [self log with_ds with_self]. rewrite Hself1, Hci. eexists.
      split; [reflexivity|]. cbn.
      split; [by rewrite <- !app_assoc|]. by rewrite lookup_insert_eq.
    + eexists. split; [reflexivity|]. cbn.
      split; [by rewrite <- !app_assoc|]. by rewrite lookup_insert_eq.
  - destruct (json_truthy (GetDisk E (tr s) disk)); [done|].
    split; [done|]. eexists. split; [reflexivity|]. cbn [tr ds log].
    split; [|done]. by rewrite <- app_assoc, kinds_app.
Qed.

(** ** The calls of a teardown *)

(** A call of the confirmation polling of one pass over the names [ns]. *)
Definition poll_event (ns : list string) (e : event) : Prop :=
  match e with
  | EvGetInstance n _ => In n ns
  | EvSleep secs => secs = CLUSTER_SHUTDOWN_CHECK_INTERVAL
  | _ => False
  end.

Lemma poll_event_mono ns ns' e :
  (forall n, In n ns -> In n ns') -> poll_event ns e -> poll_event ns' e.
Proof. intros Hsub. destruct e; cbn; auto. Qed.

Section TeardownCalls.

Variable E : env.

Lemma still_alive_of_calls names : forall s,
  exists alive polls s',
    still_alive_of E names s = Ok alive s' /\
    tr s' = (tr s ++ polls)%list /\
    Forall (poll_event names) polls /\
    slept polls = 0 /\
    count_calls "GetInstance" polls = length names /\
    (forall n, In n alive -> In n names) /\
    (length alive <= length names)%nat.
Proof.
  induction names as [|n names IH]; intros s.
  - exists [], [], s. cbn. rewrite app_nil_r. repeat split; done.
  - cbn [still_alive_of]. unfold bind, call_GetInstance. cbv zeta.
    destruct (IH (log (EvGetInstance n (GetInstance E (tr s) n)) s))
      as (alive & polls & s' & -> & Htr & Hall & Hslept & Hcount & Hsub & Hlen).
    unfold ret.
    exists (match GetInstance E (tr s) n with JNull => alive | _ => n :: alive end),
      (EvGetInstance n (GetInstance E (tr s) n) :: polls), s'.
    split; [done|]. split; [by rewrite Htr; cbn; rewrite <- app_assoc|].
    split.
    { constructor; [by left|].
      eapply Forall_impl; [exact Hall|]. intros e.
      apply poll_event_mono. intros m Hm. by right. }
    split; [exact Hslept|].
    split.
    { change (EvGetInstance n (GetInstance E (tr s) n) :: polls)
        with ([EvGetInstance n (GetInstance E (tr s) n)] ++ polls)%list.
      rewrite count_calls_app, Hcount. reflexivity. }
    split.
    + intros m Hm. destruct (GetInstance E (tr s) n);
        try (destruct Hm as [<-|Hm]; [by left|right; by apply Hsub]).
      right. by apply Hsub.
    + destruct (GetInstance E (tr s) n); cbn [length]; lia.
Qed.

Lemma confirm_loop_calls k : forall names s,
  exists polls s',
    confirm_loop E k names s = Ok tt s' /\
    tr s' = (tr s ++ polls)%list /\
    Forall (poll_event names) polls /\
    slept polls <= CLUSTER_SHUTDOWN_CHECK_INTERVAL * Z.of_nat k /\
    (count_calls "GetInstance" polls <= k * length names)%nat.
Proof.
  induction k as [|k IH]; intros names s.
  - exists [], s. cbn. rewrite app_nil_r. repeat split; done || lia.
  - cbn [confirm_loop]. unfold bind.
    destruct (still_alive_of_calls names s)
      as (alive & polls & s1 & -> & Htr1 & Hall1 & Hslept1 & Hcount1 & Hsub & Hlen).
    destruct alive as [|a alive].
    + exists polls, s1. unfold ret. split; [done|]. split; [done|].
      split; [done|]. unfold CLUSTER_SHUTDOWN_CHECK_INTERVAL.
      split; [lia|]. rewrite Hcount1. lia.
    + unfold sleep, emit.
      destruct (IH (a :: alive) (log (EvSleep CLUSTER_SHUTDOWN_CHECK_INTERVAL) s1))
        as (polls2 & s2 & -> & Htr2 & Hall2 & Hslept2 & Hcount2).
      exists (polls ++ EvSleep CLUSTER_SHUTDOWN_CHECK_INTERVAL :: polls2)%list, s2.
      split; [done|].
      split; [by rewrite Htr2; cbn; rewrite Htr1, <- !app_assoc|].
      split.
      { apply Forall_app. split; [done|]. constructor; [done|].
        eapply Forall_impl; [exact Hall2|]. intros e.
        by apply poll_event_mono. }
      split.
      { rewrite slept_app. cbn [slept]. rewrite Hslept1.
        unfold CLUSTER_SHUTDOWN_CHECK_INTERVAL in *. lia. }
      rewrite count_calls_app, Hcount1.
      change (EvSleep CLUSTER_SHUTDOWN_CHECK_INTERVAL :: polls2)
        with ([EvSleep CLUSTER_SHUTDOWN_CHECK_INTERVAL] ++ polls2)%list.
      rewrite count_calls_app.
      change (count_calls "GetInstance" [EvSleep _]) with 0%nat.
      cbn [length] in *. nia.
Qed.

(** X10.  One pass of the loop of [TeardownCluster] that lists the names [ns]:
    after the listing, every listed instance is deleted once, in the order
    of the listing, before any poll; the confirmation that follows polls
    only listed names, sleeps 5 seconds between rounds and is bounded: at
    most 60 rounds, that is at most 300 seconds of sleep and [60 * |ns|]
    polls.  A pass changes neither the orchestrator nor the registry. *)
Theorem teardown_pass_calls s ns :
  let filter := teardown_filter (self s) in
  let listed := ListInstances E (tr s) filter in
  names_of listed = inr ns ->
  exists polls s',
    teardown_round E s = Ok (bool_decide (ns = [])) s' /\
    tr s' = (tr s ++ EvListInstances filter listed
                  :: (EvDeleteInstance <$> ns) ++ polls)%list /\
    Forall (poll_event ns) polls /\
    slept polls <= 300 /\
    (count_calls "GetInstance" polls <= 60 * length ns)%nat /\
    self s' = self s /\ ds s' = ds s.
Proof.
  intros filter listed Hns. rewrite teardown_round_eq. cbv zeta.
  fold filter. fold listed. rewrite Hns.
  destruct ns as [|n ns].
  - exists [], (log (EvListInstances filter listed) s).
    split; [done|]. cbn. split; [done|]. split; [constructor|]. done.
  - unfold bind. rewrite for_each_delete_state.
    set (s1 := with_tr _ _).
    destruct (confirm_loop_calls CLUSTER_SHUTDOWN_MAX_CHECK_TIMES (n :: ns) s1)
      as (polls & s2 & Hrun & Htr & Hall & Hslept & Hcount).
    pose proof (confirm_loop_state E CLUSTER_SHUTDOWN_MAX_CHECK_TIMES
                  (n :: ns) s1) as [Hself Hds].
    rewrite Hrun in Hself, Hds |- *. cbn [final_state] in Hself, Hds.
    exists polls, s2. unfold ret.
    split; [done|].
    split; [by rewrite Htr; cbn; rewrite <- !app_assoc|].
    split; [done|]. split; [exact Hslept|]. split; [exact Hcount|]. done.
Qed.

End TeardownCalls.

(** [n] is among the names of a listing made with [filter] in [t]. *)
Definition listed_in (filter : string) (t : trace) (n : string) : Prop :=
  exists listed ns,
    In (EvListInstances filter listed) t /\ names_of listed = inr ns /\ In n ns.

(** The calls that the loop of [TeardownCluster] makes: listings with the
    filter of the cluster, deletions and polls of listed names, sleeps of 5
    seconds. *)
Definition teardown_call (filter : string) (t : trace) (e : event) : Prop :=
  match e with
  | EvListInstances f _ => f = filter
  | EvDeleteInstance n | EvGetInstance n _ => listed_in filter t n
  | EvSleep secs => secs = CLUSTER_SHUTDOWN_CHECK_INTERVAL
  | _ => False
  end.

Lemma listed_in_mono filter t t' n :
  (forall e, In e t -> In e t') -> listed_in filter t n -> listed_in filter t' n.
Proof.
  intros Hsub (listed & ns & Hin & Hns & Hn). exists listed, ns. by auto.
Qed.

Lemma teardown_call_mono filter t t' e :
  (forall e', In e' t -> In e' t') ->
  teardown_call filter t e -> teardown_call filter t' e.
Proof.
  intros Hsub. destruct e; cbn; try done; by apply listed_in_mono.
Qed.

Section TeardownRun.

Variable E : env.

Lemma teardown_round_calls s :
  exists evs,
    tr (final_state (teardown_round E s)) = (tr s ++ evs)%list /\
    Forall (teardown_call (teardown_filter (self s)) evs) evs /\
    self (final_state (teardown_round E s)) = self s.
Proof.
  set (filter := teardown_filter (self s)).
  set (listed := ListInstances E (tr s) filter).
  destruct (names_of listed) as [e|ns] eqn:Hns.
  - exists [EvListInstances filter listed].
    rewrite teardown_round_eq. cbv zeta. fold filter. fold listed.
    rewrite Hns. cbn. split; [done|]. split; [|done].
    constructor; [done|constructor].
  - rewrite teardown_round_eq. cbv zeta. fold filter. fold listed.
    rewrite Hns. destruct ns as [|n ns].
    { exists [EvListInstances filter listed]. cbn. split; [done|].
      split; [|done]. constructor; [done|constructor]. }
    unfold bind. rewrite for_each_delete_state.
    set (s1 := with_tr _ _).
    destruct (confirm_loop_calls E CLUSTER_SHUTDOWN_MAX_CHECK_TIMES (n :: ns) s1)
      as (polls & s2 & Hrun & Htr & Hall & _).
    pose proof (confirm_loop_state E CLUSTER_SHUTDOWN_MAX_CHECK_TIMES
                  (n :: ns) s1) as [Hself _].
    rewrite Hrun in Hself |- *. cbn [final_state] in Hself |- *.
    unfold ret. cbn [final_state].
    exists (EvListInstances filter listed
              :: (EvDeleteInstance <$> n :: ns) ++ polls)%list.
    split; [by rewrite Htr; cbn; rewrite <- !app_assoc|].
    split; [|exact Hself].
    assert (forall m, In m (n :: ns) ->
              listed_in filter
                (EvListInstances filter listed
                   :: (EvDeleteInstance <$> n :: ns) ++ polls)%list m) as Hlisted.
    { intros m Hm. exists listed, (n :: ns). split; [by left|done]. }
    constructor; [done|]. apply Forall_app. split.
    + apply Forall_forall. intros e He.
      apply list_elem_of_In, in_map_iff in He as (m & <- & Hm).
      by apply Hlisted.
    + eapply Forall_impl; [exact Hall|]. intros e He.
      destruct e; cbn in He |- *; try done. by apply Hlisted.
Qed.

Lemma teardown_loop_calls fuel : forall s r,
  teardown_loop E fuel s = Some r ->
  exists evs,
    tr (final_state r) = (tr s ++ evs)%list /\
    Forall (teardown_call (teardown_filter (self s)) evs) evs /\
    self (final_state r) = self s.
Proof.
  induction fuel as [|fuel IH]; intros s r; [done|].
  cbn [teardown_loop].
  destruct (teardown_round_calls s) as (evs1 & Htr1 & Hall1 & Hself1).
  destruct (teardown_round E s) as [[|] s1|e s1]; cbn [final_state] in *.
  - intros [= <-]. by exists evs1.
  - intros Hloop. destruct (IH s1 r Hloop) as (evs2 & Htr2 & Hall2 & Hself2).
    rewrite Hself1 in Hall2. exists (evs1 ++ evs2)%list.
    split; [by rewrite Htr2, Htr1, <- app_assoc|].
    split; [|by rewrite Hself2].
    apply Forall_app. split.
    + eapply Forall_impl; [exact Hall1|]. intros e.
      apply teardown_call_mono. intros e' He'. apply in_or_app. by left.
    + eapply Forall_impl; [exact Hall2|]. intros e.
      apply teardown_call_mono. intros e' He'. apply in_or_app. by right.
  - intros [= <-]. by exists evs1.
Qed.

(** X11.  A teardown that ends, by returning or by an exception of the listing,
    has made these calls: the status write [TEARING_DOWN] first; then only
    listings with the filter of the cluster, deletions and polls of
    instances that such a listing named, and sleeps of 5 seconds; and
    last, when it returns, the deletion of the ClusterRecord.  It deletes no
    instance that the provider did not list, and makes no call on an
    InstanceRecord. *)
Theorem teardown_deletes_only_listed s fuel r :
  cluster_info (self s) <> None ->
  TeardownCluster E fuel s = Some r ->
  exists body,
    tr (final_state r)
    = (tr s ++ EvSetStatus ClusterStatus_TEARING_DOWN :: body
            ++ match r with
               | Ok _ _ => [EvClusterKeyDelete]
               | Raise _ _ => []
               end)%list /\
    Forall (teardown_call (teardown_filter (self s)) body) body.
Proof.
  intros Hci. unfold TeardownCluster, SetStatus.
  destruct (cluster_info (self s)) as [ci|] eqn:Heq; [|done].
  destruct (teardown_loop E fuel _) as [r1|] eqn:Hloop; [|done].
  apply teardown_loop_calls in Hloop as (body & Htr & Hall & Hself).
  cbn [self tr log with_self with_ds] in Htr, Hall, Hself.
  change (teardown_filter (set_cluster_info _ (self s)))
    with (teardown_filter (self s)) in Hall.
  destruct r1 as [[] s2|e s2]; cbn [final_state] in Htr, Hself.
  - unfold ClusterInfo_key_delete. rewrite Hself.
    cbn [cluster_info set_cluster_info]. intros [= <-]. exists body.
    split; [|done]. cbn [final_state tr log with_ds]. rewrite Htr.
    by rewrite <- !app_assoc.
  - intros [= <-]. exists body. split; [|done]. cbn [final_state].
    rewrite Htr, app_nil_r. by rewrite <- !app_assoc.
Qed.

End TeardownRun.

(** ** Remote commands *)

(** X12.  [_RunCommandAtRemote] looks the InstanceRecord up first.  Without a
    record it stops with [AttributeError] and sends nothing.  With a record
    it sends one request, to
    [http://<address>/call?<urlencode of command and key>], where the
    command is the arguments joined by spaces and the key is the credential
    of the record; a record that has no address yet is addressed as host
    [None].  A connection failure leaves as [DownloadError]. *)
Theorem run_command_request E s instance_name command_args :
  let s1 := log (EvInstanceGetByName instance_name) s in
  match ds_instances (ds s) !! instance_name with
  | None =>
      _RunCommandAtRemote E instance_name command_args s
      = Raise AttributeError s1
  | Some ii =>
      forall host,
        json_str (ii_external_ip ii) = Some host ->
        let url := "http://" +:+ host +:+ "/" +:+ "call?"
                   +:+ urlencode E [("command", String.concat " " command_args);
                                    ("key", ii_rpckey ii)] in
        let answer := fetch E (tr s1) url in
        (ii_external_ip ii = JNull -> host = "None") /\
        outcome (_RunCommandAtRemote E instance_name command_args s)
        = match answer with
          | FetchResponse status_code content => inr (status_code, content)
          | FetchDownloadError => inl DownloadError
          end /\
        final_state (_RunCommandAtRemote E instance_name command_args s)
        = log (EvFetch url answer) s1
  end.
Proof.
  intros s1. unfold _RunCommandAtRemote, bind, InstanceInfo_GetByName.
  fold s1. destruct (ds_instances (ds s) !! instance_name) as [ii|]; [|done].
  intros host Hhost.
  split; [intros Hnull; rewrite Hnull in Hhost; by injection Hhost as <-|].
  unfold _HttpRequest. rewrite Hhost. unfold call_fetch, _BuildRpcUrl.
  cbv zeta. by destruct (fetch E (tr s1) _).
Qed.

(** ** A teardown whose instances are gone at the first poll *)

Section TeardownAtOnce.

Variable E : env.
Hypothesis gone : forall t n, GetInstance E t n = JNull.

Lemma still_alive_none names : forall s,
  still_alive_of E names s
  = Ok [] (with_tr (tr s ++ ((fun n => EvGetInstance n JNull) <$> names))%list s).
Proof.
  induction names as [|n names IH]; intros s.
  - cbn. unfold ret, with_tr. rewrite app_nil_r. by destruct s.
  - cbn [still_alive_of]. unfold bind, call_GetInstance. cbv zeta.
    rewrite gone, IH. unfold ret, with_tr, log. cbn.
    by rewrite <- app_assoc.
Qed.

Lemma confirm_loop_none k names s :
  confirm_loop E (S k) names s
  = Ok tt (with_tr (tr s ++ ((fun n => EvGetInstance n JNull) <$> names))%list s).
Proof. cbn [confirm_loop]. unfold bind. by rewrite still_alive_none. Qed.

(** X13.  When every listed instance is gone at the first poll after its
    deletion and the next listing is empty, [TeardownCluster] returns after
    two passes: the status write, the first listing, one [DeleteInstance]
    and then one [GetInstance] for each listed name, in the order of the
    listing, the second listing and the deletion of the ClusterRecord.  It
    never sleeps. *)
Theorem teardown_gone_at_once s ci listed ns fuel :
  cluster_info (self s) = Some ci ->
  let filter := teardown_filter (self s) in
  let t1 := (tr s ++ [EvSetStatus ClusterStatus_TEARING_DOWN])%list in
  let t2 := (t1 ++ EvListInstances filter listed
                :: (EvDeleteInstance <$> ns)
                ++ ((fun n => EvGetInstance n JNull) <$> ns))%list in
  ListInstances E t1 filter = listed ->
  names_of listed = inr ns ->
  ns <> [] ->
  ListInstances E t2 filter = [] ->
  exists s',
    TeardownCluster E (S (S fuel)) s = Some (Ok tt s') /\
    tr s' = (t2 ++ [EvListInstances filter []; EvClusterKeyDelete])%list /\
    ds_cluster (ds s') = None.
Proof.
  intros Hci filter t1 t2 Hlisted Hns Hne Hempty.
  unfold TeardownCluster, SetStatus. rewrite Hci.
  set (s1 := log _ _).
  assert (teardown_filter (self s1) = filter) as Hf by done.
  assert (tr s1 = t1) as Ht1 by done.
  assert (teardown_round E s1 = Ok false (with_tr t2 s1)) as Hround1.
  { rewrite teardown_round_eq. cbv zeta. rewrite Hf, Ht1, Hlisted, Hns.
    destruct ns as [|n ns]; [done|].
    unfold bind. rewrite for_each_delete_state.
    change CLUSTER_SHUTDOWN_MAX_CHECK_TIMES with (S 59).
    rewrite confirm_loop_none. unfold ret, with_tr. cbn [tr self ds log].
    rewrite Ht1. subst t2. by rewrite <- !app_assoc. }
  assert (teardown_round E (with_tr t2 s1)
          = Ok true (log (EvListInstances filter []) (with_tr t2 s1)))
    as Hround2.
  { rewrite teardown_round_eq. cbv zeta. cbn [self tr with_tr].
    by rewrite Hf, Hempty. }
  cbn [teardown_loop]. rewrite Hround1, Hround2.
  unfold ClusterInfo_key_delete. cbn [self log with_tr].
  change (cluster_info (self s1)) with (Some (<["status" := PStr ClusterStatus_TEARING_DOWN]> ci)).
  eexists. split; [reflexivity|]. cbn [tr ds log with_ds with_tr ds_cluster].
  split; [|done]. by rewrite <- !app_assoc.
Qed.

End TeardownAtOnce.

(** ** A master that never gets an address *)

Lemma kinds_ip_poll_trace E instance_name t0 j :
  map event_kind (ip_poll_trace E instance_name t0 j)
  = (map event_kind t0 ++ concat (replicate j ["GetInstance"; "sleep"]))%list.
Proof.
  induction j as [|j IH]; cbn [ip_poll_trace replicate concat].
  - by rewrite app_nil_r.
  - rewrite kinds_app, IH. cbn [map event_kind].
    rewrite <- !app_assoc. f_equal.
    clear IH. induction j as [|j IH]; [done|].
    cbn [replicate concat]. rewrite <- !app_assoc. cbn [app].
    by rewrite IH.
Qed.

(** X14.  When the provider accepts every create but the master never gets an
    address, [StartHadoopCluster] creates all [n + 1] instances ([n] within
    the range of a C [long]), polls the master 60 times with a sleep after each poll, polls no worker, and
    returns with the status
    [ERROR: External IP address time out for <master>] in the
    ClusterRecord.  The instances and their InstanceRecords stay, none has
    an address. *)
Theorem start_master_address_timeout E get_by_id cluster_id a h p n s :
  (forall t c, CreateInstance E t c = true) ->
  (forall t, lacks_address (GetInstance E t (master_name h))) ->
  __init__ get_by_id cluster_id a = inr h ->
  prefix h = PStr p ->
  has_percent p = false ->
  num_workers h = PInt n ->
  fits_long n = true ->
  self s = h ->
  ds_instances (ds s) = ∅ ->
  exists s' ci,
    StartHadoopCluster E s = Ok tt s' /\
    ds_cluster (ds s') = Some ci /\
    ci !! "status"
    = Some (PStr ("ERROR: External IP address time out for " +:+ master_name h)) /\
    roles_of (ds s') = provisioned p (Z.to_nat n) /\
    (forall name ii, ds_instances (ds s') !! name = Some ii ->
                     ii_external_ip ii = JNull) /\
    map event_kind (tr s')
    = (map event_kind (tr s)
       ++ ("ClusterInfo.put" :: start_kinds "master"
           ++ concat (replicate (Z.to_nat n) (start_kinds "worker")))
       ++ concat (replicate 60 ["GetInstance"; "sleep"])
       ++ ["SetStatus"])%list.
Proof.
  intros Hcreate Hlack Hinit Hp Hpc Hw Hfits Hself Hempty.
  destruct (init_names _ _ _ _ _ Hinit Hp) as (Hm & Ht & _).
  destruct (provisioning_run E Hcreate h p Hpc Hm Ht s n Hself Hw Hfits
              Hempty)
    as (s1 & Hseq & Hc1 & Hci1 & Hdc1 & Hn1 & Hr1 & Hfresh1 & Hk1 & _).
  destruct (config_of_facts _ _ Hc1) as (Hm1 & _ & _).
  assert (start_sequence E s
          = Raise (ClusterSetUpError
                     ("External IP address time out for " +:+ master_name h))
                  (with_tr (ip_poll_trace E (master_name h) (tr s1)
                              INSTANCE_IP_ADDRESS_MAX_CHECK_TIMES) s1))
    as Hraise.
  { rewrite Hseq, WaitForInstances_eq, Hm1. unfold _WaitForExternalIp.
    rewrite (poll_until_timeout E (master_name h) _ s1); [done|].
    intros j _. apply Hlack. }
  destruct (handler_run E s _ _ Hraise) as (s2 & ci & Hrun & Htr2 & Hdc2 & Hst & Hds2).
  { cbn [self with_tr]. by rewrite Hci1. }
  exists s2, ci. split; [exact Hrun|]. split; [exact Hdc2|].
  split; [exact Hst|].
  split; [by rewrite (roles_of_ext _ _ Hds2)|].
  split; [intros name ii; rewrite Hds2; apply Hfresh1|].
  rewrite Htr2, kinds_app. cbn [tr with_tr].
  rewrite kinds_ip_poll_trace, Hk1. cbn [map event_kind].
  unfold INSTANCE_IP_ADDRESS_MAX_CHECK_TIMES. by rewrite <- !app_assoc.
Qed.

(** ** The properties above on concrete clusters *)

(** An orchestrator whose ClusterRecord had no [num_workers]. *)
Definition example_unsized : HadoopCluster :=
  {| prefix := PStr "c"; project := PStr "project"; name := PStr "cluster";
     zone := PStr "zone"; machinetype := PStr "n1-standard-1";
     image := PStr "image"; network := PStr "default";
     num_workers := PNone; custom_command := PStr "";
     cluster_info := None;
     machinetype_scratch_disk := "n1-standard-1-d";
     machinetype_persistent_disk := PStr "n1-standard-1";
     master_name := "c-hadoop-master";
     worker_name_template := "c-hadoop-worker-%03d";
     worker_name_pattern := "^c-hadoop-worker-\d+$";
     instances := ∅ |}.

(** A provider whose descriptors have [networkInterfaces: null]. *)
Definition malformed_env : env :=
  {| GetDisk := fun _ _ => JNull;
     CreatePersistentDisk := fun _ _ _ _ => true;
     CreateInstance := fun _ _ => true;
     GetInstance := fun _ _ => JDict [("networkInterfaces", JNull)];
     ListInstances := fun _ _ => [];
     fetch := fun _ _ => FetchResponse 200 "success";
     uuid4 := fun _ => "key";
     urlencode := fun _ => "command=cat&key=key";
     cloud_storage_bucket := "bucket" |}.

Definition is_delete (e : event) : bool :=
  match e with EvDeleteInstance _ => true | _ => false end.

(** A provider that lists the master until a deletion was requested, and
    reports every instance gone. *)
Definition vanishing_env : env :=
  {| GetDisk := fun _ _ => JNull;
     CreatePersistentDisk := fun _ _ _ _ => true;
     CreateInstance := fun _ _ => true;
     GetInstance := fun _ _ => JNull;
     ListInstances := fun t _ =>
       if existsb is_delete t then []
       else [JDict [("name", JStr "c-hadoop-master")]];
     fetch := fun _ _ => FetchResponse 200 "success";
     uuid4 := fun _ => "key";
     urlencode := fun _ => "command=cat&key=key";
     cloud_storage_bucket := "bucket" |}.

(** The example orchestrator once its ClusterRecord is stored. *)
Definition example_stored : state := stored_ClusterInfo example_start.

(** A registry with one InstanceRecord that has no address yet. *)
Definition example_unaddressed : state :=
  with_ds {| ds_cluster := None;
             ds_instances :=
               {[ "m" := fresh_record "m" "master" "key" ]} |}
    example_start.

(** [instance_names_unique] for the prefix [c]. *)
Lemma instance_names_unique_witness :
  (forall i j, _WorkerName (example_cluster 3) i
               = _WorkerName (example_cluster 3) j -> i = j) /\
  (forall i, _WorkerName (example_cluster 3) i <> inr "c-hadoop-master").
Proof.
  exact (instance_names_unique (fun _ => None) PNone (example_args "c" 3)
           (example_cluster 3) "c" eq_refl eq_refl eq_refl).
Defined.

(** [start_creates_master_then_workers] for two workers. *)
Lemma start_creates_witness :
  size (ds_instances
          (ds (final_state
                 (StartHadoopCluster smooth_env
                    (fresh_state (example_cluster 2)))))) = 3%nat.
Proof.
  destruct (start_creates_master_then_workers smooth_env (fun _ => None) PNone
              (example_args "c" 2) (example_cluster 2) "c" 2
              (fresh_state (example_cluster 2))
              (fun _ _ => eq_refl) eq_refl eq_refl eq_refl eq_refl eq_refl
              eq_refl eq_refl) as (_ & H & _).
  exact H.
Defined.

Lemma smooth_env_ready t u : conclusive_success (fetch smooth_env t u).
Proof. exists "success". split; [reflexivity|discriminate]. Defined.

(** [start_succeeds_at_once] for two workers. *)
Lemma start_succeeds_witness :
  exists s',
    StartHadoopCluster smooth_env (fresh_state (example_cluster 2)) = Ok tt s' /\
    map event_kind (tr s') = ready_kinds 2.
Proof.
  destruct (start_succeeds_at_once smooth_env (fun _ => None) PNone
              (example_args "c" 2) (example_cluster 2) "c" 2
              (fresh_state (example_cluster 2))
              (fun _ _ => eq_refl)
              (fun _ _ => ex_intro _ "10.0.0.1" eq_refl)
              smooth_env_ready
              eq_refl eq_refl eq_refl eq_refl eq_refl eq_refl eq_refl)
    as (s' & Hrun & _ & _ & _ & Hk).
  exists s'. split; [exact Hrun|exact Hk].
Defined.

(** [start_workers_not_integer] for [num_workers = None]. *)
Lemma start_workers_not_integer_witness :
  exists s',
    StartHadoopCluster smooth_env (fresh_state example_unsized)
    = Raise TypeError s' /\
    map event_kind (tr s')
    = ["ClusterInfo.put"; "uuid4"; "CreateInstance"; "InstanceInfo.put";
       "SetMasterInstance"].
Proof.
  destruct (start_workers_not_integer smooth_env (fresh_state example_unsized)
              (fun _ _ => eq_refl) (fun n H => eq_ind PNone
                 (fun v => match v with PNone => True | _ => False end)
                 I _ H))
    as (s' & k & Hrun & Hk & _).
  exists s'. split; [exact Hrun|exact Hk].
Defined.

(** [start_workers_overflow] for [num_workers = 2 ** 63]. *)
Lemma start_workers_overflow_witness :
  exists s',
    StartHadoopCluster smooth_env
      (fresh_state (example_cluster 9223372036854775808))
    = Raise OverflowError s' /\
    map event_kind (tr s')
    = ["ClusterInfo.put"; "uuid4"; "CreateInstance"; "InstanceInfo.put";
       "SetMasterInstance"].
Proof.
  destruct (start_workers_overflow smooth_env
              (fresh_state (example_cluster 9223372036854775808))
              9223372036854775808
              (fun _ _ => eq_refl) eq_refl eq_refl)
    as (s' & k & Hrun & Hk & _).
  exists s'. split; [exact Hrun|exact Hk].
Defined.

(** [start_malformed_descriptor] for one worker. *)
Lemma start_malformed_descriptor_witness :
  exists s',
    StartHadoopCluster malformed_env (fresh_state (example_cluster 1))
    = Raise TypeError s'.
Proof.
  destruct (start_malformed_descriptor malformed_env (fun _ => None) PNone
              (example_args "c" 1) (example_cluster 1) "c" 1
              (fresh_state (example_cluster 1))
              (fun _ _ => eq_refl) (fun _ => conj eq_refl eq_refl)
              eq_refl eq_refl eq_refl eq_refl eq_refl eq_refl eq_refl)
    as (s' & Hrun & _).
  exists s'. exact Hrun.
Defined.

(** [ip_discovery_sleeps] with an address assigned at the third poll. *)
Lemma ip_discovery_sleeps_witness :
  exists s',
    _WaitForExternalIp slow_ip_env "c-hadoop-master" example_start
    = Ok (JStr "10.0.0.7") s' /\
    slept (tr s') = slept (tr example_start) + 5 * (Z.of_nat 3 - 1).
Proof.
  destruct (ip_discovery_sleeps slow_ip_env "c-hadoop-master" example_start)
    as [HN _].
  destruct (HN 3%nat (JStr "10.0.0.7")) as (s' & Hrun & Hs & _).
  - unfold INSTANCE_IP_ADDRESS_MAX_CHECK_TIMES. lia.
  - intros j Hj. destruct j as [|[|j]]; [| |lia]; right; left; reflexivity.
  - reflexivity.
  - exists s'. split; [exact Hrun|exact Hs].
Defined.

(** [teardown_needs_record] for an orchestrator built from arguments. *)
Lemma teardown_needs_record_witness :
  TeardownCluster smooth_env 1 example_start
  = Some (Raise AttributeError example_start).
Proof.
  exact (teardown_needs_record smooth_env (fun _ => None) PNone
           (example_args "c" 1) (example_cluster 1) example_start 1%nat
           eq_refl eq_refl eq_refl).
Defined.

(** [create_call_metadata] for the master of the example cluster. *)
Lemma create_call_metadata_witness :
  exists s' a,
    _StartInstance smooth_env "c-hadoop-master" "master" false example_stored
    = Ok tt s' /\
    create_calls (tr s') = (create_calls (tr example_stored) ++ [a])%list /\
    size (dom (ca_metadata a)) = 12%nat.
Proof.
  destruct (create_call_metadata smooth_env example_stored
              (new_ClusterInfo (example_cluster 1)) "c-hadoop-master" "master"
              ["NameNode"; "JobTracker"] eq_refl eq_refl eq_refl)
    as (s' & a & ii & Hrun & Hcalls & _ & _ & _ & _ & _ & _ & Hdom & _).
  exists s', a. split; [exact Hrun|]. split; [exact Hcalls|].
  rewrite Hdom. reflexivity.
Defined.

(** [persistent_disk_start] when the disk is absent and gets created. *)
Lemma persistent_disk_start_witness :
  exists s',
    _StartInstance smooth_env "c-hadoop-master" "master" true example_stored
    = Ok tt s' /\
    ds_instances (ds s') !! "c-hadoop-master"
    = Some (fresh_record "c-hadoop-master" "master" "key").
Proof.
  pose proof (persistent_disk_start smooth_env example_stored
                (new_ClusterInfo (example_cluster 1)) "c-hadoop-master"
                "master" ["NameNode"; "JobTracker"] eq_refl eq_refl
                (fun _ _ => eq_refl)) as H.
  cbv zeta in H.
  change (disk_ready smooth_env ("c-hadoop-master" +:+ "-pd") example_stored)
    with (Some (log (EvCreatePersistentDisk "c-hadoop-master-pd" 100 true true)
                  (log (EvGetDisk "c-hadoop-master-pd" JNull) example_stored)))
    in H.
  destruct H as (_ & s' & Hrun & _ & Hrec).
  exists s'. split; [exact Hrun|exact Hrec].
Defined.

(** [teardown_pass_calls] for a provider that lists the master. *)
Lemma teardown_pass_calls_witness :
  exists polls s',
    teardown_round stubborn_env example_start = Ok false s' /\
    Forall (poll_event ["c-hadoop-master"]) polls /\
    slept polls <= 300.
Proof.
  destruct (teardown_pass_calls stubborn_env example_start
              ["c-hadoop-master"] eq_refl)
    as (polls & s' & Hrun & _ & Hall & Hslept & _).
  exists polls, s'. split; [exact Hrun|]. split; [exact Hall|exact Hslept].
Defined.

(** [teardown_deletes_only_listed] on the example cluster. *)
Lemma teardown_deletes_only_listed_witness :
  exists body,
    tr example_torn_down
    = (tr example_started
       ++ EvSetStatus ClusterStatus_TEARING_DOWN :: body
       ++ [EvClusterKeyDelete])%list /\
    Forall (teardown_call (teardown_filter (self example_started)) body) body.
Proof.
  exact (teardown_deletes_only_listed smooth_env example_started 1
           (Ok tt example_torn_down) example_started_has_record
           example_teardown).
Defined.

(** [run_command_request] for a record that has no address yet. *)
Lemma run_command_request_witness :
  outcome (_RunCommandAtRemote smooth_env "m" ["cat"; "/var/log/x"]
             example_unaddressed)
  = inr (200, "success") /\
  final_state (_RunCommandAtRemote smooth_env "m" ["cat"; "/var/log/x"]
                 example_unaddressed)
  = log (EvFetch "http://None/call?command=cat&key=key"
           (FetchResponse 200 "success"))
      (log (EvInstanceGetByName "m") example_unaddressed).
Proof.
  pose proof (run_command_request smooth_env example_unaddressed "m"
                ["cat"; "/var/log/x"]) as H.
  cbv zeta in H.
  change (ds_instances (ds example_unaddressed) !! "m")
    with (Some (fresh_record "m" "master" "key")) in H.
  destruct (H "None" eq_refl) as (_ & Ho & Hf).
  split; [exact Ho|exact Hf].
Defined.

(** [teardown_gone_at_once] for a master that is gone once deleted. *)
Lemma teardown_gone_at_once_witness :
  exists s',
    TeardownCluster vanishing_env 2 example_stored = Some (Ok tt s') /\
    map event_kind (tr s')
    = ["ClusterInfo.put"; "SetStatus"; "ListInstances"; "DeleteInstance";
       "GetInstance"; "ListInstances"; "ClusterInfo.key.delete"].
Proof.
  destruct (teardown_gone_at_once vanishing_env (fun _ _ => eq_refl)
              example_stored
              (new_ClusterInfo (example_cluster 1))
              [JDict [("name", JStr "c-hadoop-master")]]
              ["c-hadoop-master"] 0
              eq_refl eq_refl eq_refl ltac:(discriminate) eq_refl)
    as (s' & Hrun & Htr & _).
  exists s'. split; [exact Hrun|]. rewrite Htr. reflexivity.
Defined.

(** [start_master_address_timeout] for one worker. *)
Lemma start_master_address_timeout_witness :
  exists s' ci,
    StartHadoopCluster stubborn_env (fresh_state (example_cluster 1))
    = Ok tt s' /\
    ds_cluster (ds s') = Some ci /\
    ci !! "status"
    = Some (PStr "ERROR: External IP address time out for c-hadoop-master").
Proof.
  destruct (start_master_address_timeout stubborn_env (fun _ => None) PNone
              (example_args "c" 1) (example_cluster 1) "c" 1
              (fresh_state (example_cluster 1))
              (fun _ _ => eq_refl) (fun _ => or_introl eq_refl)
              eq_refl eq_refl eq_refl eq_refl eq_refl eq_refl eq_refl)
    as (s' & ci & Hrun & Hdc & Hst & _).
  exists s', ci. split; [exact Hrun|]. split; [exact Hdc|exact Hst].
Defined.
